(** * controller.py: rollout orchestration for Kubernetes deployments

    A shallow embedding of [src/controller.py] and the properties of its
    naming helpers, spec duplicator, uniqueness validator, readiness
    watcher and smart-rollout orchestrator. *)

From Stdlib Require Import ZArith Lia List Ascii String DecimalString.
From stdpp Require Import gmap strings list fin_maps.

Local Open Scope string_scope.

(** ** Strings

    Python [str] values are modelled by [string]: sequences of code points
    below 256.  In that range the regular-expression class [\d] is exactly
    the ASCII digits. *)

Module Naming.

(** [\d] *)
Definition is_digit (c : ascii) : bool :=
  ((48 <=? nat_of_ascii c) && (nat_of_ascii c <=? 57))%nat.

Definition dash : ascii := "-"%char.
Definition newline : ascii := "010"%char.

(** [s] matches [\d*$] from its first character on: the digits run to the end
    of the string, or to a newline that is the last character of the string
    ([$] without MULTILINE matches at the end and just before a final
    newline).  The result is what is left of the string after the match. *)
Fixpoint match_digits_eol (s : string) : option string :=
  match s with
  | EmptyString => Some EmptyString
  | String c rest =>
      if is_digit c then match_digits_eol rest
      else if Ascii.eqb c newline then
             match rest with EmptyString => Some s | _ => None end
      else None
  end.

(** [s] matches [\d+$] from its first character on. *)
Definition match_digits1_eol (s : string) : option string :=
  match s with
  | EmptyString => None
  | String c rest => if is_digit c then match_digits_eol rest else None
  end.

(** [re.sub(r'-\d+$', '', name)]: the scan goes left to right and replaces
    the leftmost match by the empty string; what follows a match is empty or
    a single newline, where the pattern cannot match again. *)
Fixpoint getDeploymentBaseName (name : string) : string :=
  match name with
  | EmptyString => EmptyString
  | String c rest =>
      if Ascii.eqb c dash then
        match match_digits1_eol rest with
        | Some tail => tail
        | None => String c (getDeploymentBaseName rest)
        end
      else String c (getDeploymentBaseName rest)
  end.

(** A string of digits only. *)
Fixpoint all_digits (s : string) : bool :=
  match s with
  | EmptyString => true
  | String c rest => is_digit c && all_digits rest
  end.

(** [name] carries a numeric version suffix: it ends in a dash and one or more
    digits, possibly followed by one final newline. *)
Definition has_version_suffix (name : string) : Prop :=
  exists p ds, ds <> EmptyString /\ all_digits ds = true /\
    (name = p ++ String dash ds \/ name = p ++ String dash (ds ++ String newline EmptyString)).

End Naming.

(** ** Timestamps

    [datetime.datetime] values, as [datetime.datetime.utcnow()] gives them
    (down to the microsecond, no time zone), and [strftime] for the formats
    the helpers use: fixed-width, zero-padded decimal fields (for the years
    of four digits that [utcnow] gives).  Neither format prints the
    microsecond. *)

Module Clock.

Record datetime := {
  year : nat; month : nat; day : nat;
  hour : nat; minute : nat; second : nat; microsecond : nat
}.

Fixpoint zeros (n : nat) : string :=
  match n with
  | O => EmptyString
  | S n' => String "0"%char (zeros n')
  end.

Definition decimal (n : nat) : string := NilZero.string_of_uint (Nat.to_uint n).

(** [n] in decimal, zero-padded on the left to [width] characters. *)
Definition zero_pad (width n : nat) : string :=
  let s := decimal n in zeros (width - String.length s) ++ s.

(** [dtTimestamp.strftime("%Y%m%d%H%M%S")] *)
Definition strftime_simple (t : datetime) : string :=
  zero_pad 4 (year t) ++ zero_pad 2 (month t) ++ zero_pad 2 (day t) ++
  zero_pad 2 (hour t) ++ zero_pad 2 (minute t) ++ zero_pad 2 (second t).

(** What executing the module's [def] statements leaves behind.  Python
    evaluates a default-argument expression once, when the [def] statement
    runs; the three helpers below have [datetime.datetime.utcnow()] as the
    default of their time argument. *)
Record controller_module := {
  getK8sFormattedTimestamp_default : datetime;
  getSimpleTimestamp_default : datetime;
  getDeploymentPatchBody_default : datetime
}.

(** Importing (or running) [controller.py]: the three [def] statements run
    one after the other, each reading the clock for its default. *)
Definition import_controller (utcnow1 utcnow2 utcnow3 : datetime) : controller_module :=
  {| getK8sFormattedTimestamp_default := utcnow1;
     getSimpleTimestamp_default := utcnow2;
     getDeploymentPatchBody_default := utcnow3 |}.

(** [getSimpleTimestamp(dtTimestamp=..., format="%Y%m%d%H%M%S")]; [None]
    stands for an omitted argument. *)
Definition getSimpleTimestamp (M : controller_module) (dtTimestamp : option datetime) : string :=
  strftime_simple (default (getSimpleTimestamp_default M) dtTimestamp).

(** [dtTimestamp.strftime("%Y-%m-%dT%H:%M:%SZ")] *)
Definition strftime_k8s (t : datetime) : string :=
  zero_pad 4 (year t) ++ "-" ++ zero_pad 2 (month t) ++ "-" ++ zero_pad 2 (day t) ++ "T" ++
  zero_pad 2 (hour t) ++ ":" ++ zero_pad 2 (minute t) ++ ":" ++ zero_pad 2 (second t) ++ "Z".

(** [getK8sFormattedTimestamp(dtTimestamp=..., format="%Y-%m-%dT%H:%M:%SZ")] *)
Definition getK8sFormattedTimestamp (M : controller_module) (dtTimestamp : option datetime)
  : string :=
  strftime_k8s (default (getK8sFormattedTimestamp_default M) dtTimestamp).

(** What [utcnow] can read, for the fields that are printed: a date and a
    time of day to the second, the year with four digits. *)
Definition clock_reading (t : datetime) : Prop :=
  (1000 <= Z.of_nat (year t) <= 9999)%Z /\ 1 <= month t <= 12 /\ 1 <= day t <= 31 /\
  hour t < 24 /\ minute t < 60 /\ second t < 60.

(** The number a string of decimal digits stands for. *)
Definition digit_value (c : ascii) : nat := nat_of_ascii c - 48.

Fixpoint decimal_value_from (acc : nat) (s : string) : nat :=
  match s with
  | EmptyString => acc
  | String c rest => decimal_value_from (10 * acc + digit_value c) rest
  end.

Definition decimal_value (s : string) : nat := decimal_value_from 0 s.

(** A field of [width] digits holds [n]: the padded decimal has [width]
    characters, all of them digits, and stands for [n]. *)
Definition field_ok (width n : nat) : bool :=
  (String.length (zero_pad width n) =? width)%nat
  && (fix digits (s : string) : bool :=
        match s with
        | EmptyString => true
        | String c rest => Naming.is_digit c && digits rest
        end) (zero_pad width n)
  && (decimal_value (zero_pad width n) =? n)%nat.

End Clock.

(** ** Exceptions and outcomes *)

(** The exceptions of [controller.py], each with its message, the
    [ApiException] of the client library, and [AttributeError] for an
    attribute or item access on an object of another type. *)
Inductive exn :=
| K8sDeploymentNotFoundError (msg : string)
| K8sServiceNotFoundError (msg : string)
| K8sBasenameNotUniqueError (msg : string)
| ApiException
| AttributeError.

(** How a call ends: it returns, it raises, or it is still waiting in the
    readiness loop after the number of events it was given to inspect. *)
Inductive outcome (S A : Type) :=
| Returns (a : A) (s : S)
| Raises (e : exn) (s : S)
| Pending (s : S).

Arguments Returns {S A} a s.
Arguments Raises {S A} e s.
Arguments Pending {S A} s.

(** Code over a state of type [S]. *)
Definition prog (S A : Type) : Type := S -> outcome S A.

Definition ret {S A} (a : A) : prog S A := fun s => Returns a s.
Definition raise {S A} (e : exn) : prog S A := fun s => Raises e s.

Definition bind {S A B} (m : prog S A) (k : A -> prog S B) : prog S B :=
  fun s =>
    match m s with
    | Returns a s' => k a s'
    | Raises e s' => Raises e s'
    | Pending s' => Pending s'
    end.

Declare Scope prog_scope.
Delimit Scope prog_scope with prog.
Notation "x <- m ;; k" := (bind m (fun x => k))
  (at level 100, m at next level, right associativity) : prog_scope.
Notation "m ;;; k" := (bind m (fun _ => k))
  (at level 100, right associativity) : prog_scope.

(** [for x in xs: body(x)] *)
Fixpoint for_each {S A} (xs : list A) (body : A -> prog S unit) : prog S unit :=
  match xs with
  | [] => ret tt
  | x :: rest => bind (body x) (fun _ => for_each rest body)
  end.

(** The state a call ends in, however it ends. *)
Definition final {S A} (o : outcome S A) : S :=
  match o with Returns _ s | Raises _ s | Pending s => s end.

(** ** Kubernetes resources and the client's objects *)

Module K8s.

(** Modelled from the spec: the resource types of the client library, which
    are outside the source, as the data model (section 3) has them.  A
    replica-set has a name, a namespace, a resource-version token and a label
    map, a pod template with a label map of its own, and a status; a service
    has a selector map.  Every metadata carries its label map and every
    service its selector: a map that is absent ([None] in the client) is not
    modelled.

    [L] is how the label map is held: by value in a resource as the API
    server stores it, by reference in an object of the client. *)
Record ObjectMeta (L : Type) := {
  name : string;
  namespace : string;
  resource_version : string;
  labels : L
}.
Arguments name {L} _.
Arguments namespace {L} _.
Arguments resource_version {L} _.
Arguments labels {L} _.

Definition set_name {L} (n : string) (m : ObjectMeta L) : ObjectMeta L :=
  {| name := n; namespace := namespace m;
     resource_version := resource_version m; labels := labels m |}.
Definition set_resource_version {L} (v : string) (m : ObjectMeta L) : ObjectMeta L :=
  {| name := name m; namespace := namespace m;
     resource_version := v; labels := labels m |}.
Definition set_labels {L L'} (l : L') (m : ObjectMeta L) : ObjectMeta L' :=
  {| name := name m; namespace := namespace m;
     resource_version := resource_version m; labels := l |}.

(** [status] of a deployment; [None] is Python's [None]. *)
Record DeploymentStatus := {
  replicas : option Z;
  ready_replicas : option Z
}.

(** A deployment as the API server holds it. *)
Record Deployment := {
  metadata : ObjectMeta (gmap string string);
  spec_replicas : option Z;
  spec_strategy : string;
  template_metadata : ObjectMeta (gmap string string);
  template_containers : list string;
  status : DeploymentStatus
}.

(** A service as the API server holds it. *)
Record Service := {
  svc_metadata : ObjectMeta (gmap string string);
  svc_selector : gmap string string;
  svc_ports : list Z
}.

End K8s.

Import K8s.

(** *** The object store of the Python process

    A [V1Deployment] of the client library is a graph of objects: the
    deployment refers to its [V1ObjectMeta] and its [V1DeploymentSpec], the
    spec to its [V1PodTemplateSpec], the template to a [V1ObjectMeta] of its
    own, each metadata object to the dict of its labels. *)

Abbreviation loc := positive.

Inductive cell :=
| PyDict (d : gmap string string)
| V1ObjectMeta (m : ObjectMeta loc)
| V1PodTemplateSpec (tmetadata : loc) (containers : list string)
| V1DeploymentSpec (replicas : option Z) (strategy : string) (template : loc)
| V1Deployment (dmetadata : loc) (spec : loc) (dstatus : DeploymentStatus).

Abbreviation heap := (gmap loc cell).

Module Py.

Definition load (l : loc) : prog heap cell :=
  fun h => match h !! l with
           | Some c => Returns c h
           | None => Raises AttributeError h
           end.

Definition store (l : loc) (c : cell) : prog heap unit :=
  fun h => Returns tt (<[l := c]> h).

(** A new object. *)
Definition alloc (c : cell) : prog heap loc :=
  fun h => let l := fresh (dom h) in Returns l (<[l := c]> h).

(** Attribute reads: [d.metadata], [d.spec], [s.template], [t.metadata],
    and a metadata object's fields. *)
Definition get_metadata (d : loc) : prog heap loc :=
  (c <- load d ;;
   match c with
   | V1Deployment m _ _ => ret m
   | V1PodTemplateSpec m _ => ret m
   | _ => raise AttributeError
   end)%prog.

Definition get_spec (d : loc) : prog heap loc :=
  (c <- load d ;;
   match c with V1Deployment _ s _ => ret s | _ => raise AttributeError end)%prog.

Definition get_template (s : loc) : prog heap loc :=
  (c <- load s ;;
   match c with V1DeploymentSpec _ _ t => ret t | _ => raise AttributeError end)%prog.

Definition get_meta (m : loc) : prog heap (ObjectMeta loc) :=
  (c <- load m ;;
   match c with V1ObjectMeta o => ret o | _ => raise AttributeError end)%prog.

(** [m.name = n] and [m.resource_version = v] *)
Definition setattr_name (m : loc) (n : string) : prog heap unit :=
  (o <- get_meta m ;; store m (V1ObjectMeta (set_name n o)))%prog.

Definition setattr_resource_version (m : loc) (v : string) : prog heap unit :=
  (o <- get_meta m ;; store m (V1ObjectMeta (set_resource_version v o)))%prog.

(** [d[k] = v] on a dict *)
Definition setitem (d : loc) (k v : string) : prog heap unit :=
  (c <- load d ;;
   match c with
   | PyDict m => store d (PyDict (<[k := v]> m))
   | _ => raise AttributeError
   end)%prog.

(** *** [copy.deepcopy]

    The state of a deep copy is the memo (original to copy) and the store.
    An object already in the memo is not copied again, so sharing inside the
    original is reproduced in the copy.  Strings and numbers are their own
    copies.  (Python enters the new object in the memo before it copies the
    fields, which matters for cyclic structures only; these objects have
    none.) *)
Definition memoized (l : loc) (copy_fields : cell -> prog (gmap loc loc * heap) cell)
  : prog (gmap loc loc * heap) loc :=
  fun s =>
    match s.1 !! l with
    | Some l' => Returns l' s
    | None =>
        match s.2 !! l with
        | None => Raises AttributeError s
        | Some c =>
            match copy_fields c s with
            | Returns c' s' =>
                let l' := fresh (dom s'.2) in
                Returns l' (<[l := l']> s'.1, <[l' := c']> s'.2)
            | Raises e s' => Raises e s'
            | Pending s' => Pending s'
            end
        end
    end.

Definition deepcopy_dict (l : loc) : prog (gmap loc loc * heap) loc :=
  memoized l (fun c =>
    match c with PyDict d => ret (PyDict d) | _ => raise AttributeError end).

Definition deepcopy_meta (l : loc) : prog (gmap loc loc * heap) loc :=
  memoized l (fun c =>
    match c with
    | V1ObjectMeta o =>
        (lbl <- deepcopy_dict (labels o) ;; ret (V1ObjectMeta (set_labels lbl o)))%prog
    | _ => raise AttributeError
    end).

Definition deepcopy_template (l : loc) : prog (gmap loc loc * heap) loc :=
  memoized l (fun c =>
    match c with
    | V1PodTemplateSpec m cs =>
        (m' <- deepcopy_meta m ;; ret (V1PodTemplateSpec m' cs))%prog
    | _ => raise AttributeError
    end).

Definition deepcopy_spec (l : loc) : prog (gmap loc loc * heap) loc :=
  memoized l (fun c =>
    match c with
    | V1DeploymentSpec r st t =>
        (t' <- deepcopy_template t ;; ret (V1DeploymentSpec r st t'))%prog
    | _ => raise AttributeError
    end).

Definition deepcopy_deployment (l : loc) : prog (gmap loc loc * heap) loc :=
  memoized l (fun c =>
    match c with
    | V1Deployment m s st =>
        (m' <- deepcopy_meta m ;;
         s' <- deepcopy_spec s ;;
         ret (V1Deployment m' s' st))%prog
    | _ => raise AttributeError
    end).

(** [copy.deepcopy(body)]: a fresh memo, dropped at the end. *)
Definition deepcopy (body : loc) : prog heap loc :=
  fun h =>
    match deepcopy_deployment body (∅, h) with
    | Returns l s => Returns l s.2
    | Raises e s => Raises e s.2
    | Pending s => Pending s.2
    end.

End Py.

(** ** Spec duplicator *)

Definition versionedName (baseName simpleTimestamp : string) : string :=
  baseName ++ "-" ++ simpleTimestamp.

(** [duplicate_deployment_config(body, simpleTimestamp)] *)
Definition duplicate_deployment_config (body : loc) (simpleTimestamp : string)
  : prog heap loc :=
  (newBody <- Py.deepcopy body ;;
   bm <- Py.get_metadata body ;;
   bmeta <- Py.get_meta bm ;;
   let newName := Naming.getDeploymentBaseName (name bmeta) in
   nm <- Py.get_metadata newBody ;;
   Py.setattr_name nm (versionedName newName simpleTimestamp) ;;;
   nm1 <- Py.get_metadata newBody ;;
   nmeta1 <- Py.get_meta nm1 ;;
   Py.setitem (labels nmeta1) "patch" simpleTimestamp ;;;
   ns <- Py.get_spec newBody ;;
   nt <- Py.get_template ns ;;
   ntm <- Py.get_metadata nt ;;
   ntmeta <- Py.get_meta ntm ;;
   Py.setitem (labels ntmeta) "patch" simpleTimestamp ;;;
   nm2 <- Py.get_metadata newBody ;;
   Py.setattr_resource_version nm2 "" ;;;
   ret newBody)%prog.

(** *** Between resources and objects

    [read_deployment] is what the client sends when an object is the body of
    a request; [new_deployment] is the object graph the client builds from a
    resource in a response: every object in it is new. *)

Definition read_dict (h : heap) (l : loc) : option (gmap string string) :=
  match h !! l with
  | Some (PyDict d) => Some d
  | _ => None
  end.

Definition read_meta (h : heap) (l : loc) : option (ObjectMeta (gmap string string)) :=
  match h !! l with
  | Some (V1ObjectMeta o) =>
      match read_dict h (labels o) with
      | Some d => Some (set_labels d o)
      | None => None
      end
  | _ => None
  end.

Definition read_template (h : heap) (l : loc)
  : option (ObjectMeta (gmap string string) * list string) :=
  match h !! l with
  | Some (V1PodTemplateSpec m cs) =>
      match read_meta h m with
      | Some o => Some (o, cs)
      | None => None
      end
  | _ => None
  end.

Definition read_spec (h : heap) (l : loc)
  : option (option Z * string * (ObjectMeta (gmap string string) * list string)) :=
  match h !! l with
  | Some (V1DeploymentSpec r st t) =>
      match read_template h t with
      | Some tv => Some (r, st, tv)
      | None => None
      end
  | _ => None
  end.

Definition read_deployment (h : heap) (l : loc) : option Deployment :=
  match h !! l with
  | Some (V1Deployment m s st) =>
      match read_meta h m, read_spec h s with
      | Some o, Some (r, sg, (tm, cs)) =>
          Some {| metadata := o; spec_replicas := r; spec_strategy := sg;
                  template_metadata := tm; template_containers := cs;
                  status := st |}
      | _, _ => None
      end
  | _ => None
  end.

Definition new_meta (o : ObjectMeta (gmap string string)) : prog heap loc :=
  (d <- Py.alloc (PyDict (labels o)) ;;
   Py.alloc (V1ObjectMeta (set_labels d o)))%prog.

Definition new_deployment (d : Deployment) : prog heap loc :=
  (m <- new_meta (metadata d) ;;
   tm <- new_meta (template_metadata d) ;;
   t <- Py.alloc (V1PodTemplateSpec tm (template_containers d)) ;;
   s <- Py.alloc (V1DeploymentSpec (spec_replicas d) (spec_strategy d) t) ;;
   Py.alloc (V1Deployment m s (status d)))%prog.

Fixpoint new_deployments (ds : list Deployment) : prog heap (list loc) :=
  match ds with
  | [] => ret []
  | d :: rest =>
      (l <- new_deployment d ;; ls <- new_deployments rest ;; ret (l :: ls))%prog
  end.

(** ** The cluster and the calls made to it *)

(** An event of the watch feed: [event['type']] and [event['object']]. *)
Record WatchEvent := {
  ev_type : string;
  ev_object : Deployment
}.

(** How a list call filters: [label_selector=...] or
    [field_selector="metadata.name=..."]. *)
Inductive selector :=
| label_selector (s : string)
| field_selector_name (n : string).

(** What the process does to the cluster, in the order it does it: the calls
    of the two API clients, the opening of a watch stream, and the return of
    a readiness wait with what it returned. *)
Inductive action :=
| list_namespaced_deployment (namespace : string) (sel : selector)
| api_create_namespaced_deployment (namespace : string) (body : Deployment)
| delete_namespaced_deployment (namespace name : string)
| list_namespaced_service (namespace : string) (sel : selector)
| api_patch_namespaced_service (namespace name : string) (body : Service)
| watch_stream (namespace : string)
| watch_returned (name : string) (result : option Deployment).

(** What lies outside the process: how the server reads a label selector,
    which calls fail on transport or authorization (the call that would
    extend the log to the given one), the events a watch stream opened at a
    given point delivers ([None]: the stream has ended), and what the clock
    reads at each point of the log.  Other clients of the cluster are not
    among them: during a run the cluster is changed by the calls of the run
    only.  What a piece of code does on a cluster that others have changed
    since an earlier call is said of that piece, on any cluster. *)
Record Env := {
  selects : string -> gmap string string -> bool;
  fault : list action -> bool;
  feed : list action -> nat -> option WatchEvent;
  utcnow : list action -> Clock.datetime
}.

Record Cluster := {
  deployments : list Deployment;
  services : list Service
}.

(** The state of a run: the objects of the process, the cluster, and the log
    of actions so far, oldest first. *)
Record World := {
  objects : heap;
  cluster : Cluster;
  calls : list action
}.

Definition on_objects {A} (m : prog heap A) : prog World A :=
  fun w =>
    let W h := {| objects := h; cluster := cluster w; calls := calls w |} in
    match m (objects w) with
    | Returns a h => Returns a (W h)
    | Raises e h => Raises e (W h)
    | Pending h => Pending (W h)
    end.

Definition record (a : action) : prog World unit :=
  fun w => Returns tt {| objects := objects w; cluster := cluster w;
                         calls := calls w ++ [a] |}.

Definition get_cluster : prog World Cluster := fun w => Returns (cluster w) w.
Definition get_calls : prog World (list action) := fun w => Returns (calls w) w.
Definition put_cluster (c : Cluster) : prog World unit :=
  fun w => Returns tt {| objects := objects w; cluster := c; calls := calls w |}.

Module Api.
Section Api.
Variable E : Env.

Definition matches {L} (ns : string) (sel : selector) (m : ObjectMeta L)
  (lbls : gmap string string) : bool :=
  String.eqb (namespace m) ns &&
  match sel with
  | label_selector s => selects E s lbls
  | field_selector_name n => String.eqb (name m) n
  end.

Definition deployment_matches (ns : string) (sel : selector) (d : Deployment) : bool :=
  matches ns sel (metadata d) (labels (metadata d)).

Definition service_matches (ns : string) (sel : selector) (s : Service) : bool :=
  matches ns sel (svc_metadata s) (labels (svc_metadata s)).

Definition named {L} (ns n : string) (m : ObjectMeta L) : bool :=
  String.eqb (namespace m) ns && String.eqb (name m) n.

(** Every call is logged, then fails if the environment says so. *)
Definition issue (a : action) : prog World unit :=
  (record a ;;;
   log <- get_calls ;;
   if fault E log then raise ApiException else ret tt)%prog.

(** Modelled from the spec: [listReplicaSets] of the cluster API (section 6),
    which is outside the source; the items come in the order the cluster
    holds them. *)
Definition list_deployments (ns : string) (sel : selector) : prog World (list Deployment) :=
  (issue (list_namespaced_deployment ns sel) ;;;
   c <- get_cluster ;;
   ret (filter (fun d => deployment_matches ns sel d) (deployments c)))%prog.

(** Modelled from the spec: [listServices] of the cluster API (section 6). *)
Definition list_services (ns : string) (sel : selector) : prog World (list Service) :=
  (issue (list_namespaced_service ns sel) ;;;
   c <- get_cluster ;;
   ret (filter (fun s => service_matches ns sel s) (services c)))%prog.

(** Modelled from the spec: [createReplicaSet] of the cluster API (section 6).
    Names are unique within a namespace, and a create request that carries a
    resource-version token is rejected (section 4.2). *)
Definition create_deployment (ns : string) (body : Deployment) : prog World Deployment :=
  (issue (api_create_namespaced_deployment ns body) ;;;
   c <- get_cluster ;;
   if negb (String.eqb (namespace (metadata body)) ns)
      || negb (String.eqb (resource_version (metadata body)) "")
      || existsb (fun d => named ns (name (metadata body)) (metadata d)) (deployments c)
   then raise ApiException
   else
     (put_cluster {| deployments := deployments c ++ [body]; services := services c |} ;;;
      ret body))%prog.

(** Modelled from the spec: [deleteReplicaSet] of the cluster API (section 6). *)
Definition delete_deployment (ns n : string) : prog World unit :=
  (issue (delete_namespaced_deployment ns n) ;;;
   c <- get_cluster ;;
   if existsb (fun d => named ns n (metadata d)) (deployments c)
   then put_cluster {| deployments := filter (fun d => negb (named ns n (metadata d))) (deployments c);
                       services := services c |}
   else raise ApiException)%prog.

(** Modelled from the spec: [patchService] of the cluster API (section 6);
    the body is the whole service as the caller wants it. *)
Definition patch_service (ns n : string) (body : Service) : prog World Service :=
  (issue (api_patch_namespaced_service ns n body) ;;;
   c <- get_cluster ;;
   if existsb (fun s => named ns n (svc_metadata s)) (services c)
   then
     (put_cluster {| deployments := deployments c;
                     services := map (fun s => if named ns n (svc_metadata s) then body else s)
                                     (services c) |} ;;;
      ret body)
   else raise ApiException)%prog.

(** Modelled from the spec: [watchReplicaSets] of the cluster API (section 6):
    the stream of events the environment delivers from this point on. *)
Definition open_watch (ns : string) : prog World (nat -> option WatchEvent) :=
  (issue (watch_stream ns) ;;;
   log <- get_calls ;;
   ret (feed E log))%prog.

End Api.
End Api.

(** ** The controller *)

Module Msg.

Definition deployment_not_found (name namespace : string) : string :=
  "Could not find deployment '" ++ name ++ "' in namespace '" ++ namespace ++ "'".
Definition deployments_not_found (label_selector namespace : string) : string :=
  "Could not find deployments with label '" ++ label_selector ++
  "' in namespace '" ++ namespace ++ "'".
Definition service_not_found (name namespace : string) : string :=
  "Could not find service '" ++ name ++ "' in namespace '" ++ namespace ++ "'".
Definition services_not_found (label_selector namespace : string) : string :=
  "Could not find services with label '" ++ label_selector ++
  "' in namespace '" ++ namespace ++ "'".
Definition basename_not_unique (dep_name basename other : string) : string :=
  "Cannot duplicate Deployment '" ++ dep_name ++ "'. Reason: Basename '" ++ basename ++
  "' is not unique. Deployment '" ++ other ++ "' with the same base name already exists.".

End Msg.

(** [dep.metadata.name] *)
Definition metadata_name (dep : loc) : prog heap string :=
  (m <- Py.get_metadata dep ;; o <- Py.get_meta m ;; ret (name o))%prog.

(** The loop of [check_deployments], from a given [basenames] dict on. *)
Fixpoint check_deployments_from (basenames : gmap string string) (deployments : list loc)
  : prog heap unit :=
  match deployments with
  | [] => ret tt
  | dep :: rest =>
      (dep_name <- metadata_name dep ;;
       let basename := Naming.getDeploymentBaseName dep_name in
       match basenames !! basename with
       | Some other =>
           raise (K8sBasenameNotUniqueError (Msg.basename_not_unique dep_name basename other))
       | None => check_deployments_from (<[basename := dep_name]> basenames) rest
       end)%prog
  end.

(** [check_deployments(deployments)] *)
Definition check_deployments (deployments : list loc) : prog heap unit :=
  check_deployments_from ∅ deployments.

(** The readiness test of the watch loop. *)
Definition all_replicas_ready (st : DeploymentStatus) : bool :=
  match ready_replicas st, replicas st with
  | Some ready, Some wanted => (wanted <=? ready)%Z
  | _, _ => false
  end.

(** The [for event in stream] loop of [watch_namespaced_deployment], from
    the [i]-th event on, looking at no more than [patience] events.  When the
    stream ends the loop ends, and the function returns [None]. *)
Fixpoint watch_loop {St} (patience : nat) (name_ : string)
  (stream : nat -> option WatchEvent) (i : nat) : prog St (option Deployment) :=
  match patience with
  | O => fun s => Pending s
  | S patience' =>
      match stream i with
      | None => ret None
      | Some event =>
          let deployment := ev_object event in
          if String.eqb (name (metadata deployment)) name_ then
            if all_replicas_ready (status deployment) then ret (Some deployment)
            else watch_loop patience' name_ stream (S i)
          else watch_loop patience' name_ stream (S i)
      end
  end.

Section Controller.
Variable E : Env.
Variable M : Clock.controller_module.
Variable patience : nat.

(** [get_namespaced_deployment(name, namespace)] *)
Definition get_namespaced_deployment (name_ namespace_ : string) : prog World loc :=
  (items <- Api.list_deployments E namespace_ (field_selector_name name_) ;;
   items <- on_objects (new_deployments items) ;;
   match items with
   | [] => raise (K8sDeploymentNotFoundError (Msg.deployment_not_found name_ namespace_))
   | first :: _ => ret first
   end)%prog.

(** [get_namespaced_deployments(label_selector, namespace)] *)
Definition get_namespaced_deployments (label_selector_ namespace_ : string)
  : prog World (list loc) :=
  (items <- Api.list_deployments E namespace_ (label_selector label_selector_) ;;
   items <- on_objects (new_deployments items) ;;
   match items with
   | [] => raise (K8sDeploymentNotFoundError
                    (Msg.deployments_not_found label_selector_ namespace_))
   | _ => ret items
   end)%prog.

(** [create_namespaced_deployment(body, namespace)] *)
Definition create_namespaced_deployment (body : loc) (namespace_ : string) : prog World loc :=
  (h <- on_objects (fun h => Returns h h) ;;
   match read_deployment h body with
   | None => raise AttributeError
   | Some d =>
       (created <- Api.create_deployment E namespace_ d ;;
        on_objects (new_deployment created))
   end)%prog.

(** [get_namespaced_service(name, namespace)] *)
Definition get_namespaced_service (name_ namespace_ : string) : prog World Service :=
  (items <- Api.list_services E namespace_ (field_selector_name name_) ;;
   match items with
   | [] => raise (K8sServiceNotFoundError (Msg.service_not_found name_ namespace_))
   | first :: _ => ret first
   end)%prog.

(** [get_namespaced_services(label_selector, namespace)] *)
Definition get_namespaced_services (label_selector_ namespace_ : string)
  : prog World (list Service) :=
  (items <- Api.list_services E namespace_ (label_selector label_selector_) ;;
   match items with
   | [] => raise (K8sServiceNotFoundError
                    (Msg.services_not_found label_selector_ namespace_))
   | _ => ret items
   end)%prog.

(** [patch_namespaced_service(name, simpleTimestamp, namespace)]; the service
    object is new and has no other reference, so the assignment to its
    selector is an update of the value. *)
Definition patch_namespaced_service (name_ simpleTimestamp namespace_ : string)
  : prog World Service :=
  (serviceBody <- get_namespaced_service name_ namespace_ ;;
   let serviceBody :=
     {| svc_metadata := svc_metadata serviceBody;
        svc_selector := <["patch" := simpleTimestamp]> (svc_selector serviceBody);
        svc_ports := svc_ports serviceBody |} in
   Api.patch_service E namespace_ name_ serviceBody)%prog.

(** [watch_namespaced_deployment(name, namespace)] *)
Definition watch_namespaced_deployment (name_ namespace_ : string)
  : prog World (option Deployment) :=
  (stream <- Api.open_watch E namespace_ ;;
   result <- watch_loop patience name_ stream 0 ;;
   record (watch_returned name_ result) ;;;
   ret result)%prog.

(** [duplicate_deployment(name, namespace)] *)
Definition duplicate_deployment (name_ namespace_ : string) : prog World loc :=
  (dep <- get_namespaced_deployment name_ namespace_ ;;
   let timestamp := Clock.getSimpleTimestamp M None in
   dep_copy <- on_objects (duplicate_deployment_config dep timestamp) ;;
   create_namespaced_deployment dep_copy namespace_)%prog.

(** One turn of the first loop of [trigger_smart_rollout]. *)
Definition duplicate_and_wait (simpleTimestamp namespace_ : string) (dep : loc)
  : prog World unit :=
  (dep_copy <- on_objects (duplicate_deployment_config dep simpleTimestamp) ;;
   create_namespaced_deployment dep_copy namespace_ ;;;
   copy_name <- on_objects (metadata_name dep_copy) ;;
   watch_namespaced_deployment copy_name namespace_ ;;;
   ret tt)%prog.

(** One turn of the clean-up loop. *)
Definition delete_old (namespace_ : string) (dep : loc) : prog World unit :=
  (dep_name <- on_objects (metadata_name dep) ;;
   Api.delete_deployment E namespace_ dep_name)%prog.

(** [trigger_smart_rollout(label_selector, namespace, cleanup)] *)
Definition trigger_smart_rollout (label_selector_ namespace_ : string) (cleanup : bool)
  : prog World unit :=
  (let simpleTimestamp := Clock.getSimpleTimestamp M None in
   deps <- get_namespaced_deployments label_selector_ namespace_ ;;
   on_objects (check_deployments deps) ;;;
   for_each deps (duplicate_and_wait simpleTimestamp namespace_) ;;;
   services <- get_namespaced_services label_selector_ namespace_ ;;
   for_each services (fun svc =>
     patch_namespaced_service (name (svc_metadata svc)) simpleTimestamp namespace_ ;;;
     ret tt) ;;;
   if cleanup then for_each deps (delete_old namespace_) else ret tt)%prog.

End Controller.

(** ** Notions used to state and prove the properties *)

(** What [duplicate_deployment_config] is to produce from a deployment [d]
    and a timestamp [t]: the name is the base name with the timestamp, the
    resource version is empty, both label maps carry [patch = t], and all the
    rest is as in [d]. *)
Definition duplicated (d : Deployment) (t : string) : Deployment :=
  {| metadata :=
       {| name := Naming.getDeploymentBaseName (name (metadata d)) ++ "-" ++ t;
          namespace := namespace (metadata d);
          resource_version := "";
          labels := <["patch" := t]> (labels (metadata d)) |};
     spec_replicas := spec_replicas d;
     spec_strategy := spec_strategy d;
     template_metadata :=
       {| name := name (template_metadata d);
          namespace := namespace (template_metadata d);
          resource_version := resource_version (template_metadata d);
          labels := <["patch" := t]> (labels (template_metadata d)) |};
     template_containers := template_containers d;
     status := status d |}.

(** The objects a [V1Deployment] at [body] is made of. *)
Definition meta_at (h : heap) (m : loc) (o : ObjectMeta loc) (d : gmap string string) : Prop :=
  h !! m = Some (V1ObjectMeta o) /\ h !! labels o = Some (PyDict d).

Record deployment_at (h : heap) (body : loc) (d : Deployment)
    (m s t tm : loc) (o ot : ObjectMeta loc) : Prop := {
  at_body : h !! body = Some (V1Deployment m s (status d));
  at_meta : meta_at h m o (labels (metadata d));
  at_meta_value : metadata d = set_labels (labels (metadata d)) o;
  at_spec : h !! s = Some (V1DeploymentSpec (spec_replicas d) (spec_strategy d) t);
  at_template : h !! t = Some (V1PodTemplateSpec tm (template_containers d));
  at_tmeta : meta_at h tm ot (labels (template_metadata d));
  at_tmeta_value : template_metadata d = set_labels (labels (template_metadata d)) ot
}.

(** The metadata object of the deployment and the one of its pod template
    are two objects, as in every graph the client builds from a response. *)
Definition separate_metadata (h : heap) (body : loc) : Prop :=
  forall m s st r sg t tm cs,
    h !! body = Some (V1Deployment m s st) ->
    h !! s = Some (V1DeploymentSpec r sg t) ->
    h !! t = Some (V1PodTemplateSpec tm cs) ->
    m <> tm.

(** *** The invariant of a deep copy *)

Definition kind (c : cell) : nat :=
  match c with
  | PyDict _ => 0
  | V1ObjectMeta _ => 1
  | V1PodTemplateSpec _ _ => 2
  | V1DeploymentSpec _ _ _ => 3
  | V1Deployment _ _ _ => 4
  end.

(** The cell [c] with its references replaced by their copies. *)
Definition rename (memo : gmap loc loc) (c : cell) : option cell :=
  match c with
  | PyDict d => Some (PyDict d)
  | V1ObjectMeta o =>
      match memo !! labels o with
      | Some l => Some (V1ObjectMeta (set_labels l o))
      | None => None
      end
  | V1PodTemplateSpec m cs =>
      match memo !! m with
      | Some m' => Some (V1PodTemplateSpec m' cs)
      | None => None
      end
  | V1DeploymentSpec r sg t =>
      match memo !! t with
      | Some t' => Some (V1DeploymentSpec r sg t')
      | None => None
      end
  | V1Deployment m s st =>
      match memo !! m, memo !! s with
      | Some m', Some s' => Some (V1Deployment m' s' st)
      | _, _ => None
      end
  end.

(** While copying from the store [h0]: the store has only grown; every copy
    made so far is a new object, holding the original's cell with the
    references renamed; no two originals share a copy. *)
Definition copy_inv (h0 : heap) (s : gmap loc loc * heap) : Prop :=
  h0 ⊆ s.2 /\
  (forall l l', s.1 !! l = Some l' ->
     (l' ∉ dom h0) /\
     exists c c', s.2 !! l = Some c /\ rename s.1 c = Some c' /\ s.2 !! l' = Some c') /\
  (forall l1 l2 l', s.1 !! l1 = Some l' -> s.1 !! l2 = Some l' -> l1 = l2).

Definition extends (s s' : gmap loc loc * heap) : Prop :=
  s.1 ⊆ s'.1 /\ s.2 ⊆ s'.2.

(** The objects memoized between [s] and [s'] hold cells of kind below [K]. *)
Definition memoized_below (K : nat) (s s' : gmap loc loc * heap) : Prop :=
  forall x, s.1 !! x = None -> is_Some (s'.1 !! x) ->
    exists c, s'.2 !! x = Some c /\ kind c < K.

(** The copy of [l] succeeded. *)
Definition copied (h0 : heap) (K : nat) (l : loc) (s : gmap loc loc * heap)
  (o : outcome (gmap loc loc * heap) loc) : Prop :=
  match o with
  | Returns l' s' =>
      copy_inv h0 s' /\ extends s s' /\ s'.1 !! l = Some l' /\ memoized_below (S K) s s'
  | _ => False
  end.

(** What the duplicate of [d] reads as when the pod template shares the
    metadata object of the deployment: the one object carries every change. *)
Definition duplicated_shared (d : Deployment) (t : string) : Deployment :=
  {| metadata := metadata (duplicated d t);
     spec_replicas := spec_replicas d;
     spec_strategy := spec_strategy d;
     template_metadata := metadata (duplicated d t);
     template_containers := template_containers d;
     status := status d |}.

(** The object at [l] stands for the resource [d], with metadata objects of
    their own for the deployment and for its pod template. *)
Definition holds (h : heap) (l : loc) (d : Deployment) : Prop :=
  exists m s t tm o ot, deployment_at h l d m s t tm o ot /\ m <> tm.

(** The names of a list of deployments, and the dict [check_deployments]
    has built after going through names [seen]. *)
Definition names_of (ds : list Deployment) : list string :=
  map (fun d => name (metadata d)) ds.

Definition basenames_after (start : gmap string string) (seen : list string)
  : gmap string string :=
  foldl (fun acc n => <[Naming.getDeploymentBaseName n := n]> acc) start seen.

(** *** The shape of a rollout's log *)

(** The world after one more action. *)
Definition logged (a : action) (w : World) : World :=
  {| objects := objects w; cluster := cluster w; calls := calls w ++ [a] |}.

(** What a readiness wait may return: nothing, or a deployment of the
    awaited name all of whose replicas are ready. *)
Definition watch_result_ok (name_ : string) (r : option Deployment) : Prop :=
  match r with
  | Some dr => name (metadata dr) = name_ /\ all_replicas_ready (status dr) = true
  | None => True
  end.

(** One turn of the first loop on deployment [d], its wait returning [r]. *)
Definition dup_actions (ns ts : string) (d : Deployment) (r : option Deployment)
  : list action :=
  [api_create_namespaced_deployment ns (duplicated d ts);
   watch_stream ns;
   watch_returned (name (metadata (duplicated d ts))) r].

Definition dup_trace (ns ts : string) (ds : list Deployment) (rs : list (option Deployment))
  : list action :=
  concat (zip_with (dup_actions ns ts) ds rs).

(** One turn of the second loop on service [svc], patched with [body]. *)
Definition patch_actions (ns : string) (svc body : Service) : list action :=
  [list_namespaced_service ns (field_selector_name (name (svc_metadata svc)));
   api_patch_namespaced_service ns (name (svc_metadata svc)) body].

Definition patch_trace (ns : string) (svcs bodies : list Service) : list action :=
  concat (zip_with (patch_actions ns) svcs bodies).

Definition delete_trace (ns : string) (ds : list Deployment) : list action :=
  map (fun d => delete_namespaced_deployment ns (name (metadata d))) ds.

(** The log of a whole rollout over deployments [ds] and services [svcs]. *)
Definition rollout_trace (sel ns ts : string) (cleanup : bool)
  (ds : list Deployment) (rs : list (option Deployment)) (svcs bodies : list Service)
  : list action :=
  list_namespaced_deployment ns (label_selector sel) ::
  dup_trace ns ts ds rs ++
  list_namespaced_service ns (label_selector sel) ::
  patch_trace ns svcs bodies ++
  (if cleanup then delete_trace ns ds else []).

(** The calls that change the cluster. *)
Definition is_mutation (a : action) : bool :=
  match a with
  | api_create_namespaced_deployment _ _
  | delete_namespaced_deployment _ _
  | api_patch_namespaced_service _ _ _ => true
  | _ => false
  end.

Definition is_patch (a : action) : bool :=
  match a with api_patch_namespaced_service _ _ _ => true | _ => false end.

(** The identity of a service in the cluster. *)
Definition service_key (s : Service) : string * string :=
  (namespace (svc_metadata s), name (svc_metadata s)).

(** The deployments left after deleting those named as [ds] in [ns]. *)
Definition without (ns : string) (ds : list Deployment) (all : list Deployment)
  : list Deployment :=
  foldl (fun acc d =>
           filter (fun d' => negb (Api.named ns (name (metadata d)) (metadata d'))) acc)
        all ds.

(** What each way a rollout can end says about its log [tr] and the cluster:
    [ds] and [svcs] are the deployments and services under the selector when
    it starts, [rs] what the waits returned, [bodies] the patched services. *)
Definition rollout_outcome (sel ns ts : string) (cleanup : bool) (w : World)
  (ds : list Deployment) (rs : list (option Deployment)) (svcs bodies : list Service)
  (tr : list action) (o : outcome World unit) : Prop :=
  let L0 := list_namespaced_deployment ns (label_selector sel) in
  let LS := list_namespaced_service ns (label_selector sel) in
  let grown := (deployments (cluster w) ++ map (fun d => duplicated d ts) ds)%list in
  match o with
  | Returns _ w' =>
      tr = rollout_trace sel ns ts cleanup ds rs svcs bodies /\
      ds <> [] /\ svcs <> [] /\
      Forall (fun b => svc_selector b !! "patch" = Some ts) bodies /\
      deployments (cluster w') = (if cleanup then without ns ds grown else grown)
  | Raises (K8sDeploymentNotFoundError msg) w' =>
      msg = Msg.deployments_not_found sel ns /\ ds = [] /\ tr = [L0] /\
      cluster w' = cluster w
  | Raises (K8sBasenameNotUniqueError msg) w' =>
      tr = [L0] /\ cluster w' = cluster w /\
      exists deps h,
        Forall2 (fun l d => read_deployment h l = Some d) deps ds /\
        check_deployments deps h = Raises (K8sBasenameNotUniqueError msg) h
  | Raises (K8sServiceNotFoundError msg) w' =>
      msg = Msg.services_not_found sel ns /\ svcs = [] /\ ds <> [] /\
      tr = (L0 :: dup_trace ns ts ds rs ++ [LS])%list /\
      deployments (cluster w') = grown
  | Raises ApiException _ => True
  | Raises AttributeError _ => False
  | Pending _ => tr `prefix_of` L0 :: dup_trace ns ts ds rs
  end.

(** [o'] is what [o] has settled as, if [o] is not still waiting. *)
Definition settles_as {S A} (o o' : outcome S A) : Prop :=
  match o with
  | Pending _ => True
  | _ => o' = o
  end.

(** ** A small cluster to run the controller on *)

Module Sample.

Definition t_import : Clock.datetime :=
  {| Clock.year := 2019; Clock.month := 10; Clock.day := 11;
     Clock.hour := 13; Clock.minute := 48; Clock.second := 34;
     Clock.microsecond := 120 |}.

Definition t_call : Clock.datetime :=
  {| Clock.year := 2019; Clock.month := 10; Clock.day := 11;
     Clock.hour := 13; Clock.minute := 48; Clock.second := 35;
     Clock.microsecond := 480 |}.

(** Later within the second of [t_call]. *)
Definition t_call_later : Clock.datetime :=
  {| Clock.year := 2019; Clock.month := 10; Clock.day := 11;
     Clock.hour := 13; Clock.minute := 48; Clock.second := 35;
     Clock.microsecond := 481 |}.

(** The module, loaded at [t_import]. *)
Definition controller : Clock.controller_module :=
  Clock.import_controller t_import t_import t_import.

Definition meta (n : string) : ObjectMeta (gmap string string) :=
  {| name := n; namespace := "default"; resource_version := "41";
     labels := {["app" := "myapp"]} |}.

Definition pod_meta : ObjectMeta (gmap string string) :=
  {| name := ""; namespace := ""; resource_version := "";
     labels := {["app" := "myapp"]} |}.

Definition deployment (n : string) (ready : option Z) : Deployment :=
  {| metadata := meta n;
     spec_replicas := Some 2%Z;
     spec_strategy := "RollingUpdate";
     template_metadata := pod_meta;
     template_containers := ["nginx:1.17"];
     status := {| replicas := Some 2%Z; ready_replicas := ready |} |}.

Definition web : Service :=
  {| svc_metadata := meta "web";
     svc_selector := {["app" := "myapp"]};
     svc_ports := [80%Z] |}.

Definition api : Service :=
  {| svc_metadata := meta "api";
     svc_selector := {["app" := "myapp"]};
     svc_ports := [8080%Z] |}.

(** The watch stream reports the copy first without, then with all its
    replicas ready. *)
Definition feed_ready (n : string) (i : nat) : option WatchEvent :=
  match i with
  | 0 => Some {| ev_type := "ADDED"; ev_object := deployment n None |}
  | 1 => Some {| ev_type := "MODIFIED"; ev_object := deployment n (Some 1%Z) |}
  | 2 => Some {| ev_type := "MODIFIED"; ev_object := deployment n (Some 2%Z) |}
  | _ => None
  end.

(** The connection closes after one event, before the copy is ready. *)
Definition feed_closed (n : string) (i : nat) : option WatchEvent :=
  match i with
  | 0 => Some {| ev_type := "ADDED"; ev_object := deployment n None |}
  | _ => None
  end.

(** The copy never gets ready and the stream never ends. *)
Definition feed_stuck (n : string) (i : nat) : option WatchEvent :=
  Some {| ev_type := "MODIFIED"; ev_object := deployment n (Some 1%Z) |}.

Definition env (stream : nat -> option WatchEvent) : Env :=
  {| selects := fun s l =>
       String.eqb s "app=myapp" && bool_decide (l !! "app" = Some "myapp");
     fault := fun _ => false;
     feed := fun _ => stream;
     utcnow := fun _ => t_call |}.

Definition world (ds : list Deployment) (svcs : list Service) : World :=
  {| objects := ∅;
     cluster := {| deployments := ds; services := svcs |};
     calls := [] |}.

(** A deployment object as the client builds it, at [7] in the store. *)
Definition store : heap :=
  list_to_map
    [(1%positive, PyDict {["app" := "myapp"]});
     (2%positive, V1ObjectMeta
        {| name := "app-1"; namespace := "default"; resource_version := "41";
           labels := 1%positive |});
     (3%positive, PyDict {["app" := "myapp"]});
     (4%positive, V1ObjectMeta
        {| name := ""; namespace := ""; resource_version := "";
           labels := 3%positive |});
     (5%positive, V1PodTemplateSpec 4%positive ["nginx:1.17"]);
     (6%positive, V1DeploymentSpec (Some 2%Z) "RollingUpdate" 5%positive);
     (7%positive, V1Deployment 2%positive 6%positive
        {| replicas := Some 2%Z; ready_replicas := Some 2%Z |})].

(** A deployment object whose pod template has the metadata object of the
    deployment for its own: at [5], with the one metadata object at [2]. *)
Definition shared_store : heap :=
  list_to_map
    [(1%positive, PyDict {["app" := "myapp"]});
     (2%positive, V1ObjectMeta
        {| name := "app-1"; namespace := "default"; resource_version := "41";
           labels := 1%positive |});
     (3%positive, V1PodTemplateSpec 2%positive ["nginx:1.17"]);
     (4%positive, V1DeploymentSpec (Some 2%Z) "RollingUpdate" 3%positive);
     (5%positive, V1Deployment 2%positive 4%positive
        {| replicas := Some 2%Z; ready_replicas := Some 2%Z |})].

End Sample.

(** *** Reading a log *)

Definition created (tr : list action) : list Deployment :=
  omap (fun a => match a with
                 | api_create_namespaced_deployment _ body => Some body
                 | _ => None
                 end) tr.

Definition patched_names (tr : list action) : list string :=
  omap (fun a => match a with
                 | api_patch_namespaced_service _ n _ => Some n
                 | _ => None
                 end) tr.

Definition deleted_names (tr : list action) : list string :=
  omap (fun a => match a with
                 | delete_namespaced_deployment _ n => Some n
                 | _ => None
                 end) tr.

(** The waits that have returned, with what they returned. *)
Definition waited (tr : list action) : list (string * option Deployment) :=
  omap (fun a => match a with
                 | watch_returned n r => Some (n, r)
                 | _ => None
                 end) tr.

(** The event is about the awaited deployment and reports it ready. *)
Definition is_ready_event (name_ : string) (ev : WatchEvent) : bool :=
  String.eqb (name (metadata (ev_object ev))) name_ &&
  all_replicas_ready (status (ev_object ev)).

(** ** The other operations of the tool *)

(** *** Restarting a deployment *)

(** A Python value made of dicts with string keys and of strings, as the
    body of a patch is. *)
#[warnings="-register-all"] Inductive pyvalue :=
| PyStr (s : string)
| PyMap (items : list (string * pyvalue)).

(** [body["spec"]["template"]...]: the value under a path of keys. *)
Fixpoint getitem (path : list string) (v : pyvalue) : option pyvalue :=
  match path with
  | [] => Some v
  | k :: rest =>
      match v with
      | PyMap items =>
          match list_find (fun kv => bool_decide (kv.1 = k)) items with
          | Some (_, (_, v')) => getitem rest v'
          | None => None
          end
      | PyStr _ => None
      end
  end.

(** [getDeploymentPatchBody(creationTimestamp=...)]; [None] stands for an
    omitted argument. *)
Definition getDeploymentPatchBody (M : Clock.controller_module)
  (creationTimestamp : option Clock.datetime) : pyvalue :=
  let creationTimestamp := default (Clock.getDeploymentPatchBody_default M) creationTimestamp in
  let timestampNow := Clock.getK8sFormattedTimestamp M (Some creationTimestamp) in
  PyMap [("spec",
          PyMap [("template",
                  PyMap [("metadata",
                          PyMap [("creationTimestamp", PyStr timestampNow)])])])].

(** The calls of a process that also patches deployments: those of [action]
    and [patch_namespaced_deployment] of the API client. *)
Inductive call :=
| cluster_call (a : action)
| api_patch_namespaced_deployment (namespace name : string) (body : pyvalue).

(** What the server does with a patch of a deployment lies outside the
    process: which patch calls fail on transport or authorization, and the
    deployment that results from merging a body into one. *)
Record PatchServer := {
  patch_fault : list call -> bool;
  merge_patch : pyvalue -> Deployment -> Deployment
}.

(** The state of such a process: the world, and every call so far in order
    ([calls] of the world has those of them that are of [action]). *)
Record Process := {
  world : World;
  history : list call
}.

(** Code over the world, run in the process: the calls it makes are added to
    the history. *)
Definition in_world {A} (m : prog World A) : prog Process A :=
  fun s =>
    let after w' :=
      {| world := w';
         history := (history s
                     ++ map cluster_call (drop (length (calls (world s))) (calls w')))%list |} in
    match m (world s) with
    | Returns a w' => Returns a (after w')
    | Raises e w' => Raises e (after w')
    | Pending w' => Pending (after w')
    end.

Section Restart.
Variable E : Env.
Variable V : PatchServer.
Variable M : Clock.controller_module.
Variable patience : nat.

(** Modelled from the spec: [patchReplicaSet] of the cluster API (section 6),
    which is outside the source.  The call is logged, fails if the server
    says so or if there is no deployment of that name in the namespace, and
    otherwise the server merges the body into the deployment. *)
Definition patch_deployment (ns n : string) (body : pyvalue) : prog Process unit :=
  fun s =>
    let w := world s in
    let log := (history s ++ [api_patch_namespaced_deployment ns n body])%list in
    if patch_fault V log then Raises ApiException {| world := w; history := log |}
    else if existsb (fun d => Api.named ns n (metadata d)) (deployments (cluster w))
    then Returns tt
           {| world :=
                {| objects := objects w;
                   cluster :=
                     {| deployments :=
                          map (fun d => if Api.named ns n (metadata d)
                                        then merge_patch V body d else d)
                              (deployments (cluster w));
                        services := services (cluster w) |};
                   calls := calls w |};
              history := log |}
    else Raises ApiException {| world := w; history := log |}.

(** [patch_namespaced_deployment(name, namespace, body)]; it returns
    nothing. *)
Definition patch_namespaced_deployment (name_ namespace_ : string) (body : pyvalue)
  : prog Process unit :=
  patch_deployment namespace_ name_ body.

(** [restart_namespaced_deployment(name, namespace)] *)
Definition restart_namespaced_deployment (name_ namespace_ : string) : prog Process unit :=
  (let body := getDeploymentPatchBody M None in
   in_world (get_namespaced_deployment E name_ namespace_) ;;;
   patch_namespaced_deployment name_ namespace_ body)%prog.

(** [duplicate_deployments(label_selector, namespace)]: the function has no
    body beyond the set-up of its client. *)
Definition duplicate_deployments (label_selector_ namespace_ : string) : prog Process unit :=
  ret tt.

(** *** The command line *)

(** What [parser.parse_args()] returns. *)
Record Args := {
  arg_namespace : string;
  deploymentName : option string;
  triggerRollout : bool;
  duplicate : bool;
  labelSelector : option string;
  triggerSmartRollout : bool;
  cleanup : bool;
  loglevel : option Z
}.

(** The defaults of the parser: what [parse_args] gives for no argument. *)
Definition no_arguments : Args :=
  {| arg_namespace := "default"; deploymentName := None; triggerRollout := false;
     duplicate := false; labelSelector := None; triggerSmartRollout := false;
     cleanup := true; loglevel := None |}.

(** How the script ends when no exception is raised: it reaches its last
    line, or [sys.exit(status)]. *)
Inductive ending :=
| end_of_script
| sys_exit (status : Z).

(** The last two branches of the script's [if] chain. *)
Definition smart_rollout_or_usage (args : Args) : prog Process ending :=
  match labelSelector args with
  | Some sel =>
      if triggerSmartRollout args then
        (in_world (trigger_smart_rollout E M patience sel (arg_namespace args) (cleanup args)) ;;;
         ret end_of_script)%prog
      else ret (sys_exit 1)
  | None => ret (sys_exit 1)
  end.

(** The body of [if __name__ == "__main__"], after the arguments are parsed
    and logging is set up. *)
Definition main (args : Args) : prog Process ending :=
  match deploymentName args with
  | Some n =>
      if triggerRollout args then
        (restart_namespaced_deployment n (arg_namespace args) ;;; ret end_of_script)%prog
      else if duplicate args then
        (in_world (dup <- duplicate_deployment E M n (arg_namespace args) ;;
                   on_objects (metadata_name dup)) ;;;
         ret end_of_script)%prog
      else smart_rollout_or_usage args
  | None => smart_rollout_or_usage args
  end.

End Restart.

(** *** Notions for the further properties *)

(** The objects a deployment object at [body] is made of: itself, its
    metadata and spec, the pod template, the template's metadata, and the
    two label dicts. *)
Definition objects_of (h : heap) (body : loc) : list loc :=
  let meta_objects m :=
    match h !! m with
    | Some (V1ObjectMeta o) => [m; labels o]
    | _ => [m]
    end in
  match h !! body with
  | Some (V1Deployment m s _) =>
      (body :: meta_objects m ++
      s :: match h !! s with
           | Some (V1DeploymentSpec _ _ t) =>
               t :: match h !! t with
                    | Some (V1PodTemplateSpec tm _) => meta_objects tm
                    | _ => []
                    end
           | _ => []
           end)%list
  | _ => [body]
  end.

(** The stream reports the deployment [name_] ready within [patience]
    events: some event among the first [patience] is about it with all its
    replicas ready, and the stream has not ended before. *)
Definition reports_ready (patience : nat) (stream : nat -> option WatchEvent)
  (name_ : string) : Prop :=
  exists k ev,
    k < patience /\
    (forall j, j < k -> exists e, stream j = Some e /\ is_ready_event name_ e = false) /\
    stream k = Some ev /\ is_ready_event name_ ev = true.

(** The calls of a history that are of [action]. *)
Definition cluster_calls (hist : list call) : list action :=
  omap (fun c => match c with cluster_call a => Some a | _ => None end) hist.

(** The deployments a history patches, by name. *)
Definition patched_deployments (hist : list call) : list string :=
  omap (fun c => match c with api_patch_namespaced_deployment _ n _ => Some n | _ => None end)
       hist.

(** A process that has made no call yet. *)
Definition start (w : World) : Process :=
  {| world := w; history := map cluster_call (calls w) |}.

(** * Lemmas *)

Local Close Scope string_scope.

(** ** Resource naming *)

Section NamingFacts.
Import Naming.

Local Open Scope string_scope.

Lemma match_digits_eol_all_digits ds :
  all_digits ds = true -> match_digits_eol ds = Some EmptyString.
Proof.
  induction ds as [|c ds IH]; simpl; [done|].
  intros [Hc Hds]%andb_prop. rewrite Hc. auto.
Qed.

Lemma match_digits_eol_final_newline ds :
  all_digits ds = true ->
  match_digits_eol (ds ++ String newline EmptyString) = Some (String newline EmptyString).
Proof.
  induction ds as [|c ds IH]; simpl; [done|].
  intros [Hc Hds]%andb_prop. rewrite Hc. auto.
Qed.

(** A dash further on stops the match: the digits do not reach the end. *)
Lemma match_digits_eol_dash q r : match_digits_eol (q ++ String dash r) = None.
Proof.
  induction q as [|c q IH]; simpl; [done|].
  destruct (is_digit c); [done|].
  destruct (Ascii.eqb c newline); [|done].
  by destruct q.
Qed.

Lemma match_digits_eol_Some s tail :
  match_digits_eol s = Some tail ->
  exists ds, all_digits ds = true /\ s = ds ++ tail /\
             (tail = EmptyString \/ tail = String newline EmptyString).
Proof.
  revert tail. induction s as [|c s IH]; simpl; intros tail H.
  - inversion H. exists EmptyString. auto.
  - destruct (is_digit c) eqn:Hc.
    + destruct (IH _ H) as (ds & Hds & -> & Ht).
      exists (String c ds). simpl. rewrite Hc. auto.
    + destruct (Ascii.eqb c newline) eqn:Hn; [|done].
      apply Ascii.eqb_eq in Hn as ->.
      destruct s; [|done]. inversion H.
      exists EmptyString. auto.
Qed.

Lemma match_digits1_eol_Some s tail :
  match_digits1_eol s = Some tail ->
  exists ds, ds <> EmptyString /\ all_digits ds = true /\ s = ds ++ tail /\
             (tail = EmptyString \/ tail = String newline EmptyString).
Proof.
  destruct s as [|c s]; simpl; [done|].
  destruct (is_digit c) eqn:Hc; [|done].
  intros (ds & Hds & -> & Ht)%match_digits_eol_Some.
  exists (String c ds). simpl. rewrite Hc. auto.
Qed.

Lemma match_digits1_eol_dash q r : match_digits1_eol (q ++ String dash r) = None.
Proof.
  destruct q as [|c q]; simpl; [done|].
  destruct (is_digit c); [|done]. apply match_digits_eol_dash.
Qed.

(** The suffix is stripped, wherever the name has other dashes. *)
Lemma getDeploymentBaseName_strip p ds :
  ds <> EmptyString -> all_digits ds = true ->
  getDeploymentBaseName (p ++ String dash ds) = p.
Proof.
  intros Hne Hds. induction p as [|c p IH]; simpl.
  - destruct ds as [|d ds]; [done|]. simpl in *.
    apply andb_prop in Hds as [Hd Hds]. rewrite Hd.
    by rewrite match_digits_eol_all_digits.
  - rewrite IH. rewrite match_digits1_eol_dash. by destruct (Ascii.eqb c dash).
Qed.

Lemma getDeploymentBaseName_strip_newline p ds :
  ds <> EmptyString -> all_digits ds = true ->
  getDeploymentBaseName (p ++ String dash (ds ++ String newline EmptyString))
  = p ++ String newline EmptyString.
Proof.
  intros Hne Hds. induction p as [|c p IH]; simpl.
  - destruct ds as [|d ds]; [done|]. simpl in *.
    apply andb_prop in Hds as [Hd Hds]. rewrite Hd.
    by rewrite match_digits_eol_final_newline.
  - rewrite IH. rewrite match_digits1_eol_dash. by destruct (Ascii.eqb c dash).
Qed.

(** Every name is either left as it is, or is a prefix, a dash, digits and
    the end (or a final newline), and is cut down to the prefix. *)
Lemma getDeploymentBaseName_cases x :
  getDeploymentBaseName x = x \/
  exists p ds tail,
    ds <> EmptyString /\ all_digits ds = true /\
    (tail = EmptyString \/ tail = String newline EmptyString) /\
    x = p ++ String dash (ds ++ tail) /\ getDeploymentBaseName x = p ++ tail.
Proof.
  induction x as [|c x IH]; simpl; [by left|].
  destruct (Ascii.eqb c dash) eqn:Hc.
  - apply Ascii.eqb_eq in Hc as ->.
    destruct (match_digits1_eol x) as [tail|] eqn:Hm.
    + right. apply match_digits1_eol_Some in Hm as (ds & Hne & Hds & -> & Ht).
      exists EmptyString, ds, tail. auto.
    + destruct IH as [->|(p & ds & tail & ? & ? & ? & -> & ->)]; [by left|].
      right. exists (String dash p), ds, tail. auto.
  - destruct IH as [->|(p & ds & tail & ? & ? & ? & -> & ->)]; [by left|].
    right. exists (String c p), ds, tail. auto.
Qed.

Lemma string_app_cons c (a b : string) : String c a ++ b = String c (a ++ b).
Proof. reflexivity. Qed.

Lemma string_app_length (a b : string) :
  String.length (a ++ b) = String.length a + String.length b.
Proof.
  induction a as [|c a IH]; [done|].
  rewrite string_app_cons. simpl. by rewrite IH.
Qed.

Lemma string_app_empty_r (a : string) : a ++ EmptyString = a.
Proof.
  induction a as [|c a IH]; [done|].
  rewrite string_app_cons. by rewrite IH.
Qed.

Lemma getDeploymentBaseName_fixed x :
  getDeploymentBaseName x = x <-> ~ has_version_suffix x.
Proof.
  split.
  - intros Hfix (p & ds & Hne & Hds & [->| ->]).
    + rewrite getDeploymentBaseName_strip in Hfix by done.
      apply (f_equal String.length) in Hfix.
      rewrite string_app_length in Hfix. simpl in Hfix. lia.
    + rewrite getDeploymentBaseName_strip_newline in Hfix by done.
      apply (f_equal String.length) in Hfix.
      rewrite !string_app_length in Hfix. simpl in Hfix.
      rewrite string_app_length in Hfix. simpl in Hfix. lia.
  - intros Hno. destruct (getDeploymentBaseName_cases x)
      as [H|(p & ds & tail & Hne & Hds & Ht & -> & _)]; [done|].
    destruct Hno. exists p, ds. destruct Ht as [-> | ->].
    + rewrite string_app_empty_r. auto.
    + auto.
Qed.

End NamingFacts.

(** ** Running programs *)

Lemma bind_Returns {S A B} (m : prog S A) (k : A -> prog S B) s a s' :
  m s = Returns a s' -> bind m k s = k a s'.
Proof. unfold bind. by intros ->. Qed.

Lemma for_each_cons {S A} (x : A) (xs : list A) (body : A -> prog S unit) s :
  for_each (x :: xs) body s
  = match body x s with
    | Returns _ s' => for_each xs body s'
    | Raises e s' => Raises e s'
    | Pending s' => Pending s'
    end.
Proof. reflexivity. Qed.

Lemma bind_ret_tt {S A} (m : prog S A) s :
  bind m (fun _ => ret tt) s
  = match m s with
    | Returns _ s' => Returns tt s'
    | Raises e s' => Raises e s'
    | Pending s' => Pending s'
    end.
Proof. reflexivity. Qed.

(** Lists equal up to the bracketing of their concatenation. *)
Ltac list_assoc :=
  repeat first [rewrite <- app_assoc | rewrite <- app_comm_cons]; done.

(** ** Deep copies *)

Section DeepCopy.
Variable h0 : heap.

Lemma rename_weaken memo memo' c c' :
  rename memo c = Some c' -> memo ⊆ memo' -> rename memo' c = Some c'.
Proof.
  intros Hr Hsub. destruct c as [d|o|m cs|r sg t|m s st]; simpl in *.
  - done.
  - destruct (memo !! labels o) as [l|] eqn:Hl; [|done].
    by rewrite (lookup_weaken _ _ _ _ Hl Hsub).
  - destruct (memo !! m) as [l|] eqn:Hl; [|done].
    by rewrite (lookup_weaken _ _ _ _ Hl Hsub).
  - destruct (memo !! t) as [l|] eqn:Hl; [|done].
    by rewrite (lookup_weaken _ _ _ _ Hl Hsub).
  - destruct (memo !! m) as [l|] eqn:Hl; [|done].
    destruct (memo !! s) as [l2|] eqn:Hl2; [|done].
    by rewrite (lookup_weaken _ _ _ _ Hl Hsub), (lookup_weaken _ _ _ _ Hl2 Hsub).
Qed.

Lemma extends_refl s : extends s s.
Proof. by split. Qed.

Lemma extends_trans s1 s2 s3 : extends s1 s2 -> extends s2 s3 -> extends s1 s3.
Proof. intros [? ?] [? ?]. split; by etrans. Qed.

Lemma memoized_below_refl K s : memoized_below K s s.
Proof. intros x Hn [y Hy]. congruence. Qed.

Lemma memoized_below_trans K1 K2 K s1 s2 s3 :
  memoized_below K1 s1 s2 -> memoized_below K2 s2 s3 ->
  extends s2 s3 -> K1 <= K -> K2 <= K ->
  memoized_below K s1 s3.
Proof.
  intros H12 H23 [_ Hh] ? ? x Hn Hs.
  destruct (s2.1 !! x) as [y|] eqn:Hx.
  - destruct (H12 x Hn) as (c & Hc & ?); [by eexists|].
    exists c. split; [by eapply lookup_weaken|lia].
  - destruct (H23 x Hx Hs) as (c & Hc & ?). exists c. split; [done|lia].
Qed.

(** The step every copy goes through: if the fields of the cell at [l] are
    copied, the new object extends the invariant. *)
Lemma memoized_copied K l c copy_fields s :
  copy_inv h0 s ->
  s.2 !! l = Some c -> kind c = K ->
  (s.1 !! l = None ->
   exists c' s', copy_fields c s = Returns c' s' /\
     copy_inv h0 s' /\ extends s s' /\ rename s'.1 c = Some c' /\ memoized_below K s s') ->
  copied h0 K l s (Py.memoized l copy_fields s).
Proof.
  intros Hinv Hc HK Hfields. unfold Py.memoized.
  destruct (s.1 !! l) as [l'|] eqn:Hl.
  - simpl. split; [done|]. split; [apply extends_refl|]. split; [done|].
    apply memoized_below_refl.
  - rewrite Hc. destruct (Hfields eq_refl) as (c' & s' & -> & Hinv' & Hext & Hren & Hbelow).
    simpl. destruct Hinv' as (Hsub & Hcopies & Hinj). destruct Hext as [Hm Hh].
    set (l' := fresh (dom s'.2)).
    assert (Hfresh : s'.2 !! l' = None).
    { apply not_elem_of_dom. apply is_fresh. }
    assert (Hl' : s'.1 !! l = None).
    { destruct (s'.1 !! l) as [y|] eqn:Hy; [|done].
      destruct (Hbelow l Hl) as (c2 & Hc2 & Hk); [by eexists|].
      rewrite (lookup_weaken _ _ _ _ Hc Hh) in Hc2. inversion Hc2; subst. lia. }
    assert (Hmemo : s'.1 ⊆ <[l := l']> s'.1) by by apply insert_subseteq.
    assert (Hheap : s'.2 ⊆ <[l' := c']> s'.2) by by apply insert_subseteq.
    split; [|split; [|split]].
    + split; [|split]; simpl.
      * by etrans.
      * intros x x' Hx. destruct (decide (x = l)) as [->|Hne].
        -- rewrite lookup_insert_eq in Hx. inversion Hx; subst x'. split.
           { intros Hin. apply elem_of_dom in Hin as [c0 Hc0].
             rewrite (lookup_weaken _ _ _ _ Hc0 Hsub) in Hfresh. done. }
           exists c, c'. split; [|split].
           { eapply lookup_weaken; [|exact Hheap]. by eapply lookup_weaken. }
           { by eapply rename_weaken. }
           { by rewrite lookup_insert_eq. }
        -- rewrite lookup_insert_ne in Hx by done.
           destruct (Hcopies x x' Hx) as (Hnew & cx & cx' & Hcx & Hrx & Hcx').
           split; [done|]. exists cx, cx'. split; [|split].
           { by eapply lookup_weaken. }
           { by eapply rename_weaken. }
           { by eapply lookup_weaken. }
      * intros x1 x2 y H1 H2.
        destruct (decide (x1 = l)) as [->|Hne1], (decide (x2 = l)) as [->|Hne2]; [done| | |].
        -- rewrite lookup_insert_eq in H1. rewrite lookup_insert_ne in H2 by done.
           inversion H1; subst y.
           destruct (Hcopies x2 l' H2) as (_ & _ & cx' & _ & _ & Hcx'). congruence.
        -- rewrite lookup_insert_eq in H2. rewrite lookup_insert_ne in H1 by done.
           inversion H2; subst y.
           destruct (Hcopies x1 l' H1) as (_ & _ & cx' & _ & _ & Hcx'). congruence.
        -- rewrite lookup_insert_ne in H1, H2 by done. eauto.
    + split; simpl; by etrans.
    + simpl. by rewrite lookup_insert_eq.
    + intros x Hn Hs. simpl in *. destruct (decide (x = l)) as [->|Hne].
      * exists c. split; [|lia].
        eapply lookup_weaken; [|exact Hheap]. by eapply lookup_weaken.
      * rewrite lookup_insert_ne in Hs by done.
        destruct (Hbelow x Hn Hs) as (cx & Hcx & ?).
        exists cx. split; [by eapply lookup_weaken|lia].
Qed.

Lemma deepcopy_dict_copied s l d :
  copy_inv h0 s -> s.2 !! l = Some (PyDict d) ->
  copied h0 0 l s (Py.deepcopy_dict l s).
Proof.
  intros Hinv Hc. eapply memoized_copied; [done|exact Hc|done|].
  intros _. exists (PyDict d), s. split; [done|].
  split; [done|]. split; [apply extends_refl|]. split; [done|].
  apply memoized_below_refl.
Qed.

Lemma deepcopy_meta_copied s l o d :
  copy_inv h0 s -> meta_at s.2 l o d ->
  copied h0 1 l s (Py.deepcopy_meta l s).
Proof.
  intros Hinv [Hc Hd]. eapply memoized_copied; [done|exact Hc|done|].
  intros _. unfold bind.
  pose proof (deepcopy_dict_copied s (labels o) d Hinv Hd) as Hcp.
  destruct (Py.deepcopy_dict (labels o) s) as [lbl s1| |]; [|done|done].
  destruct Hcp as (Hinv1 & Hext1 & Hl1 & Hb1).
  exists (V1ObjectMeta (set_labels lbl o)), s1. split; [done|].
  split; [done|]. split; [done|]. split; [|done].
  simpl. by rewrite Hl1.
Qed.

Lemma meta_at_weaken h h' m o d : meta_at h m o d -> h ⊆ h' -> meta_at h' m o d.
Proof. intros [? ?] ?. split; by eapply lookup_weaken. Qed.

Lemma deepcopy_template_copied s l m cs o d :
  copy_inv h0 s -> s.2 !! l = Some (V1PodTemplateSpec m cs) -> meta_at s.2 m o d ->
  copied h0 2 l s (Py.deepcopy_template l s).
Proof.
  intros Hinv Hc Hm. eapply memoized_copied; [done|exact Hc|done|].
  intros _. unfold bind.
  pose proof (deepcopy_meta_copied s m o d Hinv Hm) as Hcp.
  destruct (Py.deepcopy_meta m s) as [m' s1| |]; [|done|done].
  destruct Hcp as (Hinv1 & Hext1 & Hl1 & Hb1).
  exists (V1PodTemplateSpec m' cs), s1. split; [done|].
  split; [done|]. split; [done|]. split; [|done].
  simpl. by rewrite Hl1.
Qed.

Lemma deepcopy_spec_copied s l r sg t m cs o d :
  copy_inv h0 s -> s.2 !! l = Some (V1DeploymentSpec r sg t) ->
  s.2 !! t = Some (V1PodTemplateSpec m cs) -> meta_at s.2 m o d ->
  copied h0 3 l s (Py.deepcopy_spec l s).
Proof.
  intros Hinv Hc Ht Hm. eapply memoized_copied; [done|exact Hc|done|].
  intros _. unfold bind.
  pose proof (deepcopy_template_copied s t m cs o d Hinv Ht Hm) as Hcp.
  destruct (Py.deepcopy_template t s) as [t' s1| |]; [|done|done].
  destruct Hcp as (Hinv1 & Hext1 & Hl1 & Hb1).
  exists (V1DeploymentSpec r sg t'), s1. split; [done|].
  split; [done|]. split; [done|]. split; [|done].
  simpl. by rewrite Hl1.
Qed.

Lemma deepcopy_deployment_copied s body d m sp t tm o ot :
  copy_inv h0 s -> deployment_at s.2 body d m sp t tm o ot ->
  copied h0 4 body s (Py.deepcopy_deployment body s).
Proof.
  intros Hinv [Hb Hm _ Hs Ht Htm _].
  eapply memoized_copied; [done|exact Hb|done|].
  intros _. unfold bind.
  pose proof (deepcopy_meta_copied s m o _ Hinv Hm) as Hcp.
  destruct (Py.deepcopy_meta m s) as [m' s1| |]; [|done|done].
  destruct Hcp as (Hinv1 & Hext1 & Hl1 & Hb1).
  pose proof (deepcopy_spec_copied s1 sp _ _ t tm _ ot _ Hinv1
                (lookup_weaken _ _ _ _ Hs (proj2 Hext1))
                (lookup_weaken _ _ _ _ Ht (proj2 Hext1))
                (meta_at_weaken _ _ _ _ _ Htm (proj2 Hext1))) as Hcp.
  destruct (Py.deepcopy_spec sp s1) as [sp' s2| |]; [|done|done].
  destruct Hcp as (Hinv2 & Hext2 & Hl2 & Hb2).
  exists (V1Deployment m' sp' (status d)), s2. split; [done|].
  split; [done|]. split; [by eapply extends_trans|]. split.
  - simpl. rewrite (lookup_weaken _ _ _ _ Hl1 (proj1 Hext2)). by rewrite Hl2.
  - eapply memoized_below_trans; [exact Hb1|exact Hb2|done|lia|lia].
Qed.

End DeepCopy.

(** ** Objects and the resources they stand for *)

Lemma read_meta_at h m o d :
  meta_at h m o d -> read_meta h m = Some (set_labels d o).
Proof. intros [Hm Hd]. unfold read_meta, read_dict. by rewrite Hm, Hd. Qed.

Lemma read_deployment_at h body d m s t tm o ot :
  deployment_at h body d m s t tm o ot -> read_deployment h body = Some d.
Proof.
  intros [Hb Hm Hmv Hs Ht Htm Htmv].
  unfold read_deployment, read_spec, read_template.
  rewrite Hb, (read_meta_at _ _ _ _ Hm), Hs, Ht, (read_meta_at _ _ _ _ Htm).
  rewrite <- Hmv, <- Htmv. by destruct d.
Qed.

Lemma read_meta_inv h m v :
  read_meta h m = Some v ->
  exists o, meta_at h m o (labels v) /\ v = set_labels (labels v) o.
Proof.
  unfold read_meta, read_dict. intros H.
  destruct (h !! m) as [[ | o | | | ]|] eqn:Hm; try done.
  destruct (h !! labels o) as [[d | | | | ]|] eqn:Hd; try done.
  inversion H; subst v. exists o. by split.
Qed.

Lemma read_deployment_inv h body d :
  read_deployment h body = Some d ->
  exists m s t tm o ot, deployment_at h body d m s t tm o ot.
Proof.
  unfold read_deployment, read_spec, read_template. intros H.
  destruct (h !! body) as [[ | | | |m s st]|] eqn:Hb; try done.
  destruct (read_meta h m) as [v|] eqn:Hm; [|done].
  destruct (h !! s) as [[ | | |r sg t| ]|] eqn:Hs; try done.
  destruct (h !! t) as [[ | |tm cs| | ]|] eqn:Ht; try done.
  destruct (read_meta h tm) as [tv|] eqn:Htm; [|done].
  inversion H; subst d; clear H.
  apply read_meta_inv in Hm as (o & Hm & Hv), Htm as (ot & Htm & Htv).
  exists m, s, t, tm, o, ot. by constructor.
Qed.

Lemma deployment_at_weaken h h' body d m s t tm o ot :
  deployment_at h body d m s t tm o ot -> h ⊆ h' ->
  deployment_at h' body d m s t tm o ot.
Proof.
  intros [Hb Hm Hmv Hs Ht Htm Htmv] Hsub.
  constructor; eauto using meta_at_weaken, lookup_weaken.
  all: by eapply lookup_weaken.
Qed.

Lemma read_deployment_weaken h h' body d :
  read_deployment h body = Some d -> h ⊆ h' -> read_deployment h' body = Some d.
Proof.
  intros (m & s & t & tm & o & ot & Hat)%read_deployment_inv Hsub.
  eapply read_deployment_at. by eapply deployment_at_weaken.
Qed.

Lemma copy_inv_init (h : heap) : copy_inv h (∅, h).
Proof.
  split; [done|]. split; simpl.
  - intros l l' H. by rewrite lookup_empty in H.
  - intros l1 l2 l' H. by rewrite lookup_empty in H.
Qed.

(** The copy of an object whose cell in the original store is known. *)
Lemma copy_inv_entry h0 s l l' c :
  copy_inv h0 s -> s.1 !! l = Some l' -> h0 !! l = Some c ->
  (l' ∉ dom h0) /\ exists c', rename s.1 c = Some c' /\ s.2 !! l' = Some c'.
Proof.
  intros (Hsub & Hcopies & _) Hl Hc.
  destruct (Hcopies l l' Hl) as (Hnew & c0 & c' & Hc0 & Hr & Hc').
  rewrite (lookup_weaken _ _ _ _ Hc Hsub) in Hc0. inversion Hc0; subst c0.
  split; [done|]. by exists c'.
Qed.

(** [copy.deepcopy] of a deployment: a graph of new objects that stands for
    the same resource, with two of its objects the same exactly when the two
    originals are. *)
Lemma deepcopy_deployment_at h body d m s t tm o ot :
  deployment_at h body d m s t tm o ot ->
  exists nb h1 nm ns nt ntm nl ntl,
    Py.deepcopy body h = Returns nb h1 /\ h ⊆ h1 /\
    deployment_at h1 nb d nm ns nt ntm (set_labels nl o) (set_labels ntl ot) /\
    (nb ∉ dom h) /\ (nm ∉ dom h) /\ (nl ∉ dom h) /\ (ntm ∉ dom h) /\ (ntl ∉ dom h) /\
    (nm = ntm <-> m = tm) /\ (nl = ntl <-> labels o = labels ot) /\
    (ns ∉ dom h) /\ (nt ∉ dom h).
Proof.
  intros Hat. unfold Py.deepcopy.
  pose proof (deepcopy_deployment_copied h (∅, h) body d m s t tm o ot
                (copy_inv_init h) Hat) as Hcp.
  destruct (Py.deepcopy_deployment body (∅, h)) as [nb [memo h1]| |]; [|done|done].
  destruct Hcp as (Hinv & [_ Hext] & Hnb & _). simpl in *.
  destruct Hat as [Hb [Hm Hl] Hmv Hs Ht [Htm Htl] Htmv].
  destruct (copy_inv_entry _ _ _ _ _ Hinv Hnb Hb) as (Fnb & cb & Hrb & Hcb).
  simpl in Hrb.
  destruct (memo !! m) as [nm|] eqn:Hnm; [|done].
  destruct (memo !! s) as [ns|] eqn:Hns; [|done]. inversion Hrb; subst cb; clear Hrb.
  destruct (copy_inv_entry _ _ _ _ _ Hinv Hnm Hm) as (Fnm & cm & Hrm & Hcm).
  simpl in Hrm. destruct (memo !! labels o) as [nl|] eqn:Hnl; [|done].
  inversion Hrm; subst cm; clear Hrm.
  destruct (copy_inv_entry _ _ _ _ _ Hinv Hnl Hl) as (Fnl & cl & Hrl & Hcl).
  inversion Hrl; subst cl; clear Hrl.
  destruct (copy_inv_entry _ _ _ _ _ Hinv Hns Hs) as (Fns & cs & Hrs & Hcs).
  simpl in Hrs. destruct (memo !! t) as [nt|] eqn:Hnt; [|done].
  inversion Hrs; subst cs; clear Hrs.
  destruct (copy_inv_entry _ _ _ _ _ Hinv Hnt Ht) as (Fnt & ct & Hrt & Hct).
  simpl in Hrt. destruct (memo !! tm) as [ntm|] eqn:Hntm; [|done].
  inversion Hrt; subst ct; clear Hrt.
  destruct (copy_inv_entry _ _ _ _ _ Hinv Hntm Htm) as (Fntm & ctm & Hrtm & Hctm).
  simpl in Hrtm. destruct (memo !! labels ot) as [ntl|] eqn:Hntl; [|done].
  inversion Hrtm; subst ctm; clear Hrtm.
  destruct (copy_inv_entry _ _ _ _ _ Hinv Hntl Htl) as (Fntl & ctl & Hrtl & Hctl).
  inversion Hrtl; subst ctl; clear Hrtl.
  exists nb, h1, nm, ns, nt, ntm, nl, ntl.
  split; [done|]. split; [apply Hinv|]. split.
  { constructor; try done. }
  do 5 (split; [done|]).
  destruct Hinv as (_ & _ & Hinj). simpl in Hinj.
  split; [split|split; [split|by split]].
  - intros ->. eauto.
  - intros ->. congruence.
  - intros ->. eauto.
  - intros E. rewrite E in Hnl. congruence.
Qed.

(** ** The primitives of the object store *)

Lemma load_eq h l c : h !! l = Some c -> Py.load l h = Returns c h.
Proof. unfold Py.load. by intros ->. Qed.

Lemma get_metadata_eq h l m s st :
  h !! l = Some (V1Deployment m s st) -> Py.get_metadata l h = Returns m h.
Proof. intros H. unfold Py.get_metadata. by rewrite (bind_Returns _ _ _ _ _ (load_eq _ _ _ H)). Qed.

Lemma get_metadata_template_eq h l m cs :
  h !! l = Some (V1PodTemplateSpec m cs) -> Py.get_metadata l h = Returns m h.
Proof. intros H. unfold Py.get_metadata. by rewrite (bind_Returns _ _ _ _ _ (load_eq _ _ _ H)). Qed.

Lemma get_spec_eq h l m s st :
  h !! l = Some (V1Deployment m s st) -> Py.get_spec l h = Returns s h.
Proof. intros H. unfold Py.get_spec. by rewrite (bind_Returns _ _ _ _ _ (load_eq _ _ _ H)). Qed.

Lemma get_template_eq h l r sg t :
  h !! l = Some (V1DeploymentSpec r sg t) -> Py.get_template l h = Returns t h.
Proof. intros H. unfold Py.get_template. by rewrite (bind_Returns _ _ _ _ _ (load_eq _ _ _ H)). Qed.

Lemma get_meta_eq h l o :
  h !! l = Some (V1ObjectMeta o) -> Py.get_meta l h = Returns o h.
Proof. intros H. unfold Py.get_meta. by rewrite (bind_Returns _ _ _ _ _ (load_eq _ _ _ H)). Qed.

Lemma setattr_name_eq h l o n :
  h !! l = Some (V1ObjectMeta o) ->
  Py.setattr_name l n h = Returns tt (<[l := V1ObjectMeta (set_name n o)]> h).
Proof. intros H. unfold Py.setattr_name. by rewrite (bind_Returns _ _ _ _ _ (get_meta_eq _ _ _ H)). Qed.

Lemma setattr_resource_version_eq h l o v :
  h !! l = Some (V1ObjectMeta o) ->
  Py.setattr_resource_version l v h
  = Returns tt (<[l := V1ObjectMeta (set_resource_version v o)]> h).
Proof.
  intros H. unfold Py.setattr_resource_version.
  by rewrite (bind_Returns _ _ _ _ _ (get_meta_eq _ _ _ H)).
Qed.

Lemma setitem_eq h l d k v :
  h !! l = Some (PyDict d) ->
  Py.setitem l k v h = Returns tt (<[l := PyDict (<[k := v]> d)]> h).
Proof. intros H. unfold Py.setitem. by rewrite (bind_Returns _ _ _ _ _ (load_eq _ _ _ H)). Qed.

Lemma metadata_name_eq h body d :
  read_deployment h body = Some d ->
  metadata_name body h = Returns (name (metadata d)) h.
Proof.
  intros (m & s & t & tm & o & ot & [Hb [Hm _] Hmv _ _ _ _])%read_deployment_inv.
  unfold metadata_name.
  rewrite (bind_Returns _ _ _ _ _ (get_metadata_eq _ _ _ _ _ Hb)).
  rewrite (bind_Returns _ _ _ _ _ (get_meta_eq _ _ _ Hm)).
  by rewrite Hmv.
Qed.

(** ** The spec duplicator *)

(** Two places of a store that hold cells of two kinds are two places. *)
Ltac two_places :=
  let E := fresh in
  intros E;
  repeat match goal with
         | H : _ !! _ = Some _ |- _ => rewrite E in H
         end;
  congruence.

Ltac find_cell :=
  repeat first
    [ rewrite lookup_insert_eq
    | rewrite lookup_insert_ne by (first [done | two_places]) ];
  first [reflexivity | eassumption].

(** The duplicate is a graph of new objects that stands for the duplicated
    resource; its two metadata objects are one exactly when the original's
    are. *)
Lemma duplicate_deployment_config_graph h body d m s t tm o ot ts :
  deployment_at h body d m s t tm o ot ->
  exists newBody h',
    duplicate_deployment_config body ts h = Returns newBody h' /\
    h ⊆ h' /\ (newBody ∉ dom h) /\
    exists nm ns nt ntm no nto,
      deployment_at h' newBody
        (if decide (m = tm) then duplicated_shared d ts else duplicated d ts)
        nm ns nt ntm no nto /\
      (nm = ntm <-> m = tm) /\
      Forall (fun l => l ∉ dom h) [newBody; nm; labels no; ns; nt; ntm; labels nto].
Proof.
  intros Hat.
  destruct (deepcopy_deployment_at _ _ _ _ _ _ _ _ _ Hat)
    as (nb & h1 & nm & ns & nt & ntm & nl & ntl & Hcopy & Hsub & Hat1 &
        Fnb & Fnm & Fnl & Fntm & Fntl & Hmeq & Hleq & Fns & Fnt).
  pose proof (deployment_at_weaken _ _ _ _ _ _ _ _ _ _ Hat Hsub) as Hat0.
  destruct Hat0 as [Hb [Hm Hl] Hmv _ _ _ _].
  destruct Hat1 as [Hnb [Hnm Hnl] _ Hns Hnt [Hntm Hntl] Htmv].
  simpl in Hnl, Hntl.
  exists nb. unfold duplicate_deployment_config.
  rewrite (bind_Returns _ _ _ _ _ Hcopy).
  rewrite (bind_Returns _ _ _ _ _ (get_metadata_eq _ _ _ _ _ Hb)).
  rewrite (bind_Returns _ _ _ _ _ (get_meta_eq _ _ _ Hm)).
  rewrite (bind_Returns _ _ _ _ _ (get_metadata_eq _ _ _ _ _ Hnb)).
  rewrite (bind_Returns _ _ _ _ _ (setattr_name_eq _ _ _ _ Hnm)).
  set (vn := versionedName _ _).
  set (h2 := <[nm := _]> h1).
  assert (Hnb2 : h2 !! nb = Some (V1Deployment nm ns (status d))) by (unfold h2; find_cell).
  rewrite (bind_Returns _ _ _ _ _ (get_metadata_eq _ _ _ _ _ Hnb2)).
  assert (Hnm2 : h2 !! nm = Some (V1ObjectMeta (set_name vn (set_labels nl o))))
    by (unfold h2; find_cell).
  rewrite (bind_Returns _ _ _ _ _ (get_meta_eq _ _ _ Hnm2)). simpl labels.
  assert (Hnl2 : h2 !! nl = Some (PyDict (labels (metadata d)))) by (unfold h2; find_cell).
  rewrite (bind_Returns _ _ _ _ _ (setitem_eq _ _ _ _ _ Hnl2)).
  set (h3 := <[nl := _]> h2).
  assert (Hnb3 : h3 !! nb = Some (V1Deployment nm ns (status d))) by (unfold h3; find_cell).
  assert (Hns3 : h3 !! ns = Some (V1DeploymentSpec (spec_replicas d) (spec_strategy d) nt))
    by (unfold h3, h2; find_cell).
  assert (Hnt3 : h3 !! nt = Some (V1PodTemplateSpec ntm (template_containers d)))
    by (unfold h3, h2; find_cell).
  assert (Hnm3 : h3 !! nm = Some (V1ObjectMeta (set_name vn (set_labels nl o))))
    by (unfold h3; find_cell).
  assert (Hnl3 : h3 !! nl = Some (PyDict (<["patch" := ts]> (labels (metadata d)))))
    by (unfold h3; find_cell).
  rewrite (bind_Returns _ _ _ _ _ (get_spec_eq _ _ _ _ _ Hnb3)).
  rewrite (bind_Returns _ _ _ _ _ (get_template_eq _ _ _ _ _ Hns3)).
  rewrite (bind_Returns _ _ _ _ _ (get_metadata_template_eq _ _ _ _ Hnt3)).
  assert (Hsub3 : h ⊆ h3).
  { unfold h3, h2. apply insert_subseteq_r; [by apply not_elem_of_dom|].
    apply insert_subseteq_r; [by apply not_elem_of_dom|done]. }
  assert (Hname : vn = Naming.getDeploymentBaseName (name (metadata d)) +:+ "-" +:+ ts).
  { unfold vn, versionedName. by rewrite Hmv. }
  destruct (decide (ntm = nm)) as [Entm|Nntm].
  - (* the template shares the metadata object *)
    subst ntm. rewrite decide_True by by apply Hmeq.
    rewrite (bind_Returns _ _ _ _ _ (get_meta_eq _ _ _ Hnm3)). simpl labels.
    rewrite (bind_Returns _ _ _ _ _ (setitem_eq _ _ _ _ _ Hnl3)).
    rewrite insert_insert_eq.
    set (h4 := <[nl := _]> h3).
    assert (Hnb4 : h4 !! nb = Some (V1Deployment nm ns (status d))) by (unfold h4; find_cell).
    assert (Hnm4 : h4 !! nm = Some (V1ObjectMeta (set_name vn (set_labels nl o))))
      by (unfold h4; find_cell).
    rewrite (bind_Returns _ _ _ _ _ (get_metadata_eq _ _ _ _ _ Hnb4)).
    rewrite (bind_Returns _ _ _ _ _ (setattr_resource_version_eq _ _ _ _ Hnm4)).
    set (h5 := <[nm := _]> h4).
    eexists. split; [reflexivity|]. split; [|split; [done|]].
    { unfold h5, h4. apply insert_subseteq_r; [by apply not_elem_of_dom|].
      apply insert_subseteq_r; [by apply not_elem_of_dom|done]. }
    set (o5 := set_resource_version "" (set_name vn (set_labels nl o))).
    assert (Hnb5 : h5 !! nb = Some (V1Deployment nm ns (status d)))
      by (unfold h5; find_cell).
    assert (Hns5 : h5 !! ns = Some (V1DeploymentSpec (spec_replicas d) (spec_strategy d) nt))
      by (unfold h5, h4; find_cell).
    assert (Hnt5 : h5 !! nt = Some (V1PodTemplateSpec nm (template_containers d)))
      by (unfold h5, h4; find_cell).
    assert (Hnm5 : h5 !! nm = Some (V1ObjectMeta o5)) by (unfold h5; by rewrite lookup_insert_eq).
    assert (Hnl5 : h5 !! nl = Some (PyDict (<["patch" := ts]> (labels (metadata d))))).
    { unfold h5. rewrite lookup_insert_ne by two_places. unfold h4.
      by rewrite lookup_insert_eq. }
    assert (Hval5 : metadata (duplicated d ts)
                    = set_labels (labels (metadata (duplicated d ts))) o5).
    { unfold o5, set_labels, duplicated. simpl. rewrite Hmv. simpl. by rewrite Hname, Hmv. }
    exists nm, ns, nt, nm, o5, o5.
    split; [|split; [done|by repeat constructor]].
    by constructor.
  - (* the template has a metadata object of its own *)
    rewrite decide_False by (intros E; apply Nntm; symmetry; by apply Hmeq).
    assert (Hntm3 : h3 !! ntm = Some (V1ObjectMeta (set_labels ntl ot)))
      by (unfold h3, h2; find_cell).
    rewrite (bind_Returns _ _ _ _ _ (get_meta_eq _ _ _ Hntm3)). simpl labels.
    assert (exists h4,
      Py.setitem ntl "patch" ts h3 = Returns tt h4 /\ h ⊆ h4 /\
      h4 !! nb = Some (V1Deployment nm ns (status d)) /\
      h4 !! ns = Some (V1DeploymentSpec (spec_replicas d) (spec_strategy d) nt) /\
      h4 !! nt = Some (V1PodTemplateSpec ntm (template_containers d)) /\
      h4 !! nm = Some (V1ObjectMeta (set_name vn (set_labels nl o))) /\
      h4 !! ntm = Some (V1ObjectMeta (set_labels ntl ot)) /\
      h4 !! nl = Some (PyDict (<["patch" := ts]> (labels (metadata d)))) /\
      h4 !! ntl = Some (PyDict (<["patch" := ts]> (labels (template_metadata d)))))
      as (h4 & Hset & Hsub4 & Hnb4 & Hns4 & Hnt4 & Hnm4 & Hntm4 & Hnl4 & Hntl4).
    { destruct (decide (ntl = nl)) as [Entl|Nntl].
      - subst ntl.
        assert (Hsame : labels (template_metadata d) = labels (metadata d)).
        { destruct Hat as [_ [_ Hl0] _ _ _ [_ Htl0] _].
          assert (E : labels o = labels ot) by by apply Hleq.
          rewrite E in Hl0. congruence. }
        rewrite (setitem_eq _ _ _ _ _ Hnl3), insert_insert_eq, Hsame.
        eexists. split; [reflexivity|]. split.
        { apply insert_subseteq_r; [by apply not_elem_of_dom|done]. }
        repeat split; find_cell.
      - assert (Hntl3 : h3 !! ntl = Some (PyDict (labels (template_metadata d))))
          by (unfold h3, h2; find_cell).
        rewrite (setitem_eq _ _ _ _ _ Hntl3).
        eexists. split; [reflexivity|]. split.
        { apply insert_subseteq_r; [by apply not_elem_of_dom|done]. }
        repeat split; find_cell. }
    rewrite (bind_Returns _ _ _ _ _ Hset).
    rewrite (bind_Returns _ _ _ _ _ (get_metadata_eq _ _ _ _ _ Hnb4)).
    rewrite (bind_Returns _ _ _ _ _ (setattr_resource_version_eq _ _ _ _ Hnm4)).
    set (h5 := <[nm := _]> h4).
    eexists. split; [reflexivity|]. split; [|split; [done|]].
    { unfold h5. apply insert_subseteq_r; [by apply not_elem_of_dom|done]. }
    set (o5 := set_resource_version "" (set_name vn (set_labels nl o))).
    assert (Hnb5 : h5 !! nb = Some (V1Deployment nm ns (status d)))
      by (unfold h5; find_cell).
    assert (Hns5 : h5 !! ns = Some (V1DeploymentSpec (spec_replicas d) (spec_strategy d) nt))
      by (unfold h5; find_cell).
    assert (Hnt5 : h5 !! nt = Some (V1PodTemplateSpec ntm (template_containers d)))
      by (unfold h5; find_cell).
    assert (Hnm5 : h5 !! nm = Some (V1ObjectMeta o5)) by (unfold h5; by rewrite lookup_insert_eq).
    assert (Hnl5 : h5 !! nl = Some (PyDict (<["patch" := ts]> (labels (metadata d))))).
    { unfold h5. rewrite lookup_insert_ne by two_places. exact Hnl4. }
    assert (Hntm5 : h5 !! ntm = Some (V1ObjectMeta (set_labels ntl ot))).
    { unfold h5. rewrite lookup_insert_ne by done. exact Hntm4. }
    assert (Hntl5 : h5 !! ntl
                    = Some (PyDict (<["patch" := ts]> (labels (template_metadata d))))).
    { unfold h5. rewrite lookup_insert_ne by two_places. exact Hntl4. }
    assert (Hval5 : metadata (duplicated d ts)
                    = set_labels (labels (metadata (duplicated d ts))) o5).
    { unfold o5, set_labels, duplicated. simpl. rewrite Hmv. simpl. by rewrite Hname, Hmv. }
    assert (Htval5 : template_metadata (duplicated d ts)
                     = set_labels (labels (template_metadata (duplicated d ts)))
                                  (set_labels ntl ot)).
    { unfold set_labels, duplicated. simpl. rewrite Htmv. by simpl. }
    exists nm, ns, nt, ntm, o5, (set_labels ntl ot).
    split; [|split; [|by repeat constructor]].
    + constructor; [done|by split|done|done|done|by split|done].
    + split; [intros E; by destruct Nntm|intros E; destruct Nntm; symmetry; by apply Hmeq].
Qed.

Lemma duplicate_deployment_config_exec h body d m s t tm o ot ts :
  deployment_at h body d m s t tm o ot ->
  exists newBody h',
    duplicate_deployment_config body ts h = Returns newBody h' /\
    h ⊆ h' /\ (newBody ∉ dom h) /\
    read_deployment h' newBody
    = Some (if decide (m = tm) then duplicated_shared d ts else duplicated d ts).
Proof.
  intros Hat.
  destruct (duplicate_deployment_config_graph _ _ _ _ _ _ _ _ _ ts Hat)
    as (nb & h' & E & Hsub & Hnew & nm & ns & nt & ntm & no & nto & Hat' & _ & _).
  exists nb, h'. split; [done|]. split; [done|]. split; [done|].
  by eapply read_deployment_at.
Qed.

(** ** Objects built from responses *)

Lemma alloc_eq c h :
  exists l, h !! l = None /\ Py.alloc c h = Returns l (<[l := c]> h).
Proof.
  exists (fresh (dom h)). split; [|done].
  apply not_elem_of_dom. apply is_fresh.
Qed.

Lemma new_meta_eq (o : ObjectMeta (gmap string string)) h :
  exists l m,
    h !! l = None /\ h !! m = None /\ l <> m /\
    new_meta o h = Returns m (<[m := V1ObjectMeta (set_labels l o)]>
                               (<[l := PyDict (labels o)]> h)).
Proof.
  unfold new_meta.
  destruct (alloc_eq (PyDict (labels o)) h) as (l & Fl & El).
  rewrite (bind_Returns _ _ _ _ _ El).
  destruct (alloc_eq (V1ObjectMeta (set_labels l o)) (<[l := PyDict (labels o)]> h))
    as (m & Fm & Em).
  apply lookup_insert_None in Fm as [Fm Nm].
  exists l, m. by rewrite Em.
Qed.

Lemma new_deployment_holds d h :
  exists l h', new_deployment d h = Returns l h' /\ h ⊆ h' /\ h !! l = None /\ holds h' l d.
Proof.
  unfold new_deployment.
  destruct (new_meta_eq (metadata d) h) as (l1 & m & F1 & F2 & N21 & E1).
  rewrite (bind_Returns _ _ _ _ _ E1).
  set (h2 := <[m := _]> (<[l1 := _]> h)) in *.
  destruct (new_meta_eq (template_metadata d) h2) as (l2 & tm & F3 & F4 & N43 & E2).
  rewrite (bind_Returns _ _ _ _ _ E2).
  set (h4 := <[tm := _]> (<[l2 := _]> h2)) in *.
  destruct (alloc_eq (V1PodTemplateSpec tm (template_containers d)) h4) as (t & F5 & E5).
  rewrite (bind_Returns _ _ _ _ _ E5). set (h5 := <[t := _]> h4) in *.
  destruct (alloc_eq (V1DeploymentSpec (spec_replicas d) (spec_strategy d) t) h5)
    as (s & F6 & E6).
  rewrite (bind_Returns _ _ _ _ _ E6). set (h6 := <[s := _]> h5) in *.
  destruct (alloc_eq (V1Deployment m s (status d)) h6) as (b & F7 & E7).
  rewrite E7. set (h7 := <[b := _]> h6) in *.
  unfold h6 in F7. apply lookup_insert_None in F7 as [F7 N76].
  unfold h5 in F7, F6. apply lookup_insert_None in F7 as [F7 N75], F6 as [F6 N65].
  unfold h4 in F7, F6, F5.
  apply lookup_insert_None in F7 as [F7 N74], F6 as [F6 N64], F5 as [F5 N54].
  apply lookup_insert_None in F7 as [F7 N73], F6 as [F6 N63], F5 as [F5 N53].
  unfold h2 in F7, F6, F5, F4, F3.
  apply lookup_insert_None in F7 as [F7 N72], F6 as [F6 N62], F5 as [F5 N52],
    F4 as [F4 N42], F3 as [F3 N32].
  apply lookup_insert_None in F7 as [F7 N71], F6 as [F6 N61], F5 as [F5 N51],
    F4 as [F4 N41], F3 as [F3 N31].
  exists b, h7. split; [done|]. split; [|split; [done|]].
  { unfold h7, h6, h5, h4, h2.
    repeat (apply insert_subseteq_r; [done|]). done. }
  exists m, s, t, tm, (set_labels l1 (metadata d)), (set_labels l2 (template_metadata d)).
  split; [|done].
  unfold h7, h6, h5, h4, h2.
  constructor; [| split | | | | split | ]; simpl;
    try (by destruct d as [[] ? ? [] ? ?]);
    repeat first [ rewrite lookup_insert_eq | rewrite lookup_insert_ne by done ]; done.
Qed.

Lemma holds_weaken h h' l d : holds h l d -> h ⊆ h' -> holds h' l d.
Proof.
  intros (m & s & t & tm & o & ot & Hat & Hne) Hsub.
  exists m, s, t, tm, o, ot. split; [|done]. by eapply deployment_at_weaken.
Qed.

Lemma holds_read h l d : holds h l d -> read_deployment h l = Some d.
Proof. intros (m & s & t & tm & o & ot & Hat & _). by eapply read_deployment_at. Qed.

Lemma Forall2_holds_weaken h h' ls ds :
  Forall2 (holds h) ls ds -> h ⊆ h' -> Forall2 (holds h') ls ds.
Proof. intros H Hsub. eapply Forall2_impl; [exact H|]. eauto using holds_weaken. Qed.

Lemma new_deployments_holds ds h :
  exists ls h', new_deployments ds h = Returns ls h' /\ h ⊆ h' /\ Forall2 (holds h') ls ds.
Proof.
  revert h. induction ds as [|d ds IH]; intros h; simpl.
  - exists [], h. by repeat split.
  - destruct (new_deployment_holds d h) as (l & h1 & E1 & Hsub1 & _ & Hl).
    rewrite (bind_Returns _ _ _ _ _ E1).
    destruct (IH h1) as (ls & h2 & E2 & Hsub2 & Hls).
    rewrite (bind_Returns _ _ _ _ _ E2).
    exists (l :: ls), h2. split; [done|]. split; [by etrans|].
    constructor; [|done]. by eapply holds_weaken.
Qed.

(** On a graph as the client builds it, the duplicator returns a new object
    that stands for the duplicate, and leaves every object there was as it
    was. *)
Lemma duplicate_deployment_config_holds h l d ts :
  holds h l d ->
  exists newBody h',
    duplicate_deployment_config l ts h = Returns newBody h' /\
    h ⊆ h' /\ (newBody ∉ dom h) /\
    read_deployment h' newBody = Some (duplicated d ts).
Proof.
  intros (m & s & t & tm & o & ot & Hat & Hne).
  destruct (duplicate_deployment_config_exec _ _ _ _ _ _ _ _ _ ts Hat)
    as (nb & h' & E & Hsub & Hnew & Hread).
  rewrite decide_False in Hread by done. by exists nb, h'.
Qed.

(** ** The uniqueness validator *)

Section Validator.
Import Naming.

Lemma basenames_after_cons start n seen :
  basenames_after start (n :: seen)
  = basenames_after (<[getDeploymentBaseName n := n]> start) seen.
Proof. reflexivity. Qed.

Lemma basenames_after_other start seen k :
  k ∉ map getDeploymentBaseName seen ->
  basenames_after start seen !! k = start !! k.
Proof.
  revert start. induction seen as [|n seen IH]; intros start Hk; [done|].
  rewrite basenames_after_cons. simpl in Hk.
  apply not_elem_of_cons in Hk as [Hne Hk].
  rewrite IH by done. by rewrite lookup_insert_ne.
Qed.

Lemma basenames_after_member start seen a :
  NoDup (map getDeploymentBaseName seen) -> a ∈ seen ->
  basenames_after start seen !! getDeploymentBaseName a = Some a.
Proof.
  revert start. induction seen as [|n seen IH]; intros start Hnd Ha.
  - by apply elem_of_nil in Ha.
  - rewrite basenames_after_cons. simpl in Hnd. apply NoDup_cons in Hnd as [Hn Hnd].
    apply elem_of_cons in Ha as [->|Ha].
    + rewrite basenames_after_other by done. by rewrite lookup_insert_eq.
    + by apply IH.
Qed.

Lemma check_deployments_from_run h deps ds start :
  Forall2 (fun l d => read_deployment h l = Some d) deps ds ->
  (* no conflict: every name is new when its turn comes *)
  ((forall p n q, names_of ds = p ++ n :: q ->
      basenames_after start p !! getDeploymentBaseName n = None) ->
   check_deployments_from start deps h = Returns tt h) /\
  (* the first name whose base name is taken *)
  (forall p b q a,
     names_of ds = p ++ b :: q ->
     (forall p' n q', p = p' ++ n :: q' ->
        basenames_after start p' !! getDeploymentBaseName n = None) ->
     basenames_after start p !! getDeploymentBaseName b = Some a ->
     check_deployments_from start deps h
     = Raises (K8sBasenameNotUniqueError
                 (Msg.basename_not_unique b (getDeploymentBaseName b) a)) h).
Proof.
  intros Hreads. revert start.
  induction Hreads as [|l d deps ds Hl Hreads IH]; intros start.
  - split; [done|]. intros p b q a Hnames. by destruct p.
  - simpl. rewrite (bind_Returns _ _ _ _ _ (metadata_name_eq _ _ _ Hl)).
    destruct (IH (<[getDeploymentBaseName (name (metadata d)) := name (metadata d)]> start))
      as [IHok IHbad].
    split.
    + intros Hfresh. pose proof (Hfresh [] _ (names_of ds) eq_refl) as H0.
      change (basenames_after start []) with start in H0. rewrite H0.
      apply IHok. intros p n q Hn.
      rewrite <- basenames_after_cons. apply (Hfresh (_ :: p) n q).
      simpl. by rewrite Hn.
    + intros p b q a Hnames Hfresh Hb. destruct p as [|n p]; simpl in Hnames.
      * inversion Hnames; subst. simpl in Hb. by rewrite Hb.
      * inversion Hnames; subst.
        pose proof (Hfresh [] _ p eq_refl) as H0.
        change (basenames_after start []) with start in H0. rewrite H0.
        apply (IHbad p b q a); [done| |done].
        intros p' n q' ->. rewrite <- basenames_after_cons.
        by apply (Hfresh (_ :: p') n q').
Qed.

Lemma NoDup_app_cons_fresh {A B} (f : A -> B) p n q :
  NoDup (map f (p ++ n :: q)) -> f n ∉ map f p.
Proof.
  rewrite map_app. simpl. intros [_ [Hdisj _]]%NoDup_app Hin.
  apply (Hdisj _ Hin). apply elem_of_cons. by left.
Qed.

(** Without a conflict the validator returns and changes nothing. *)
Lemma check_deployments_unique h deps ds :
  Forall2 (fun l d => read_deployment h l = Some d) deps ds ->
  NoDup (map getDeploymentBaseName (names_of ds)) ->
  check_deployments deps h = Returns tt h.
Proof.
  intros Hreads Hnd. apply (check_deployments_from_run h deps ds ∅ Hreads).
  intros p n q Hn. rewrite basenames_after_other; [done|].
  rewrite Hn in Hnd. by eapply NoDup_app_cons_fresh.
Qed.

(** The validator stops at the first name whose base name an earlier name
    has, and names both. *)
Lemma check_deployments_conflict h deps ds l1 a l2 b l3 :
  Forall2 (fun l d => read_deployment h l = Some d) deps ds ->
  names_of ds = l1 ++ a :: l2 ++ b :: l3 ->
  NoDup (map getDeploymentBaseName (l1 ++ a :: l2)) ->
  getDeploymentBaseName a = getDeploymentBaseName b ->
  check_deployments deps h
  = Raises (K8sBasenameNotUniqueError
              (Msg.basename_not_unique b (getDeploymentBaseName b) a)) h.
Proof.
  intros Hreads Hnames Hnd Hab.
  apply (proj2 (check_deployments_from_run h deps ds ∅ Hreads) (l1 ++ a :: l2) b l3 a).
  - rewrite Hnames. by rewrite <- app_assoc.
  - intros p' n q' Hp. rewrite basenames_after_other; [done|].
    rewrite Hp in Hnd. by eapply NoDup_app_cons_fresh.
  - rewrite <- Hab. apply basenames_after_member; [done|].
    apply elem_of_app. right. apply elem_of_cons. by left.
Qed.

(** A list with two elements of one image has a first such pair. *)
Lemma first_duplicate {A B} `{EqDecision B} (f : A -> B) (l : list A) :
  ~ NoDup (map f l) ->
  exists l1 a l2 b l3,
    l = l1 ++ a :: l2 ++ b :: l3 /\ NoDup (map f (l1 ++ a :: l2)) /\ f a = f b.
Proof.
  induction l as [|x l IH] using rev_ind; intros Hdup.
  - destruct Hdup. constructor.
  - destruct (decide (NoDup (map f l))) as [Hnd|Hnd].
    + assert (Hin : f x ∈ map f l).
      { destruct (decide (f x ∈ map f l)) as [|Hnin]; [done|].
        destruct Hdup. rewrite map_app. apply NoDup_app. split; [done|].
        split; [|apply NoDup_singleton].
        intros y Hy Hy'. apply list_elem_of_singleton in Hy' as ->. done. }
      apply list_elem_of_fmap in Hin as (a & Hfa & Ha).
      apply list_elem_of_split in Ha as (l1 & l2 & ->).
      exists l1, a, l2, x, []. split; [by rewrite <- app_assoc|]. by split.
    + destruct (IH Hnd) as (l1 & a & l2 & b & l3 & -> & Hnd' & Hab).
      exists l1, a, l2, b, (l3 ++ [x]). split; [|done].
      rewrite <- app_assoc. simpl. by rewrite <- app_assoc.
Qed.

End Validator.

(** ** Calls to the cluster *)

Section ApiFacts.
Variable E : Env.

Lemma issue_run a w :
  Api.issue E a w
  = if fault E (calls w ++ [a]) then Raises ApiException (logged a w)
    else Returns tt (logged a w).
Proof.
  unfold Api.issue, bind, record, get_calls, logged. simpl.
  by destruct (fault E (calls w ++ [a])).
Qed.

Lemma list_deployments_run ns sel w :
  Api.list_deployments E ns sel w
  = let a := list_namespaced_deployment ns sel in
    if fault E (calls w ++ [a]) then Raises ApiException (logged a w)
    else Returns (filter (fun d => Api.deployment_matches E ns sel d) (deployments (cluster w)))
                 (logged a w).
Proof.
  unfold Api.list_deployments, bind. rewrite issue_run. simpl.
  by destruct (fault E _).
Qed.

Lemma list_services_run ns sel w :
  Api.list_services E ns sel w
  = let a := list_namespaced_service ns sel in
    if fault E (calls w ++ [a]) then Raises ApiException (logged a w)
    else Returns (filter (fun s => Api.service_matches E ns sel s) (services (cluster w)))
                 (logged a w).
Proof.
  unfold Api.list_services, bind. rewrite issue_run. simpl.
  by destruct (fault E _).
Qed.

Lemma on_objects_Returns {A} (m : prog heap A) w a h :
  m (objects w) = Returns a h ->
  on_objects m w = Returns a {| objects := h; cluster := cluster w; calls := calls w |}.
Proof. unfold on_objects. by intros ->. Qed.

Lemma on_objects_Raises {A} (m : prog heap A) w e h :
  m (objects w) = Raises e h ->
  on_objects m w = Raises e {| objects := h; cluster := cluster w; calls := calls w |}.
Proof. unfold on_objects. by intros ->. Qed.

Lemma world_eta w : {| objects := objects w; cluster := cluster w; calls := calls w |} = w.
Proof. by destruct w. Qed.

Lemma get_namespaced_deployments_eq sel ns w :
  get_namespaced_deployments E sel ns w
  = let a := list_namespaced_deployment ns (label_selector sel) in
    if fault E (calls w ++ [a]) then Raises ApiException (logged a w)
    else
      match new_deployments
              (filter (fun d => Api.deployment_matches E ns (label_selector sel) d)
                      (deployments (cluster w))) (objects w) with
      | Returns ls h' =>
          let w' := {| objects := h'; cluster := cluster w; calls := calls w ++ [a] |} in
          match ls with
          | [] => Raises (K8sDeploymentNotFoundError (Msg.deployments_not_found sel ns)) w'
          | _ => Returns ls w'
          end
      | Raises e h' => Raises e {| objects := h'; cluster := cluster w; calls := calls w ++ [a] |}
      | Pending h' => Pending {| objects := h'; cluster := cluster w; calls := calls w ++ [a] |}
      end.
Proof.
  unfold get_namespaced_deployments, bind. rewrite list_deployments_run. simpl.
  destruct (fault E _); [done|]. unfold on_objects. simpl.
  destruct (new_deployments _ _) as [[|l ls] h'|e h'|h']; reflexivity.
Qed.

(** Discovery of the deployments: one list call, no change to the cluster,
    new objects only. *)
Lemma get_namespaced_deployments_run sel ns w :
  let ds := filter (fun d => Api.deployment_matches E ns (label_selector sel) d)
                   (deployments (cluster w)) in
  let a := list_namespaced_deployment ns (label_selector sel) in
  exists w',
    calls w' = calls w ++ [a] /\ cluster w' = cluster w /\ objects w ⊆ objects w' /\
    ((fault E (calls w ++ [a]) = true /\
      get_namespaced_deployments E sel ns w = Raises ApiException w') \/
     (fault E (calls w ++ [a]) = false /\ ds = [] /\
      get_namespaced_deployments E sel ns w
      = Raises (K8sDeploymentNotFoundError (Msg.deployments_not_found sel ns)) w') \/
     (fault E (calls w ++ [a]) = false /\ ds <> [] /\
      exists deps, Forall2 (holds (objects w')) deps ds /\
        get_namespaced_deployments E sel ns w = Returns deps w')).
Proof.
  intros ds a. rewrite get_namespaced_deployments_eq. simpl. fold a. fold ds.
  clearbody ds.
  destruct (fault E (calls w ++ [a])) eqn:Hf.
  - exists (logged a w). repeat split; auto.
  - destruct (new_deployments_holds ds (objects w)) as (ls & h' & -> & Hsub & Hls).
    exists {| objects := h'; cluster := cluster w; calls := calls w ++ [a] |}.
    split; [reflexivity|]. split; [reflexivity|]. split; [done|].
    right. destruct Hls as [|l d ls ds' Hl Hls].
    + left. by repeat split.
    + right. repeat split; [done|]. exists (l :: ls). split; [|done]. by constructor.
Qed.

(** Discovery of the services: one list call and nothing else. *)
Lemma get_namespaced_services_run sel ns w :
  let svcs := filter (fun s => Api.service_matches E ns (label_selector sel) s)
                     (services (cluster w)) in
  let a := list_namespaced_service ns (label_selector sel) in
  (fault E (calls w ++ [a]) = true /\
   get_namespaced_services E sel ns w = Raises ApiException (logged a w)) \/
  (fault E (calls w ++ [a]) = false /\ svcs = [] /\
   get_namespaced_services E sel ns w
   = Raises (K8sServiceNotFoundError (Msg.services_not_found sel ns)) (logged a w)) \/
  (fault E (calls w ++ [a]) = false /\ svcs <> [] /\
   get_namespaced_services E sel ns w = Returns svcs (logged a w)).
Proof.
  intros svcs a. unfold get_namespaced_services.
  unfold bind. rewrite list_services_run. fold a. simpl.
  destruct (fault E (calls w ++ [a])) eqn:Hf; [by left|]. right.
  fold svcs. destruct svcs; [by left|by right].
Qed.

End ApiFacts.

(** ** The readiness watcher *)

(** The loop never raises and never touches the state; what it returns, if a
    deployment, has the awaited name and all its replicas ready. *)
Lemma watch_loop_cases {St} patience n stream i (s : St) :
  match watch_loop patience n stream i s with
  | Returns r s' => s' = s /\ watch_result_ok n r
  | Raises _ _ => False
  | Pending s' => s' = s
  end.
Proof.
  revert i. induction patience as [|p IH]; intros i; simpl; [done|].
  destruct (stream i) as [ev|]; [|done].
  destruct (String.eqb (name (metadata (ev_object ev))) n) eqn:Hn; [|apply IH].
  destruct (all_replicas_ready (status (ev_object ev))) eqn:Hr; [|apply IH].
  simpl. split; [done|]. split; [|done]. by apply String.eqb_eq.
Qed.

Section Orchestration.
Variable E : Env.
Variable patience : nat.

Lemma watch_namespaced_deployment_run n ns w :
  let a := watch_stream ns in
  (fault E (calls w ++ [a]) = true /\
   watch_namespaced_deployment E patience n ns w = Raises ApiException (logged a w)) \/
  (fault E (calls w ++ [a]) = false /\
   watch_namespaced_deployment E patience n ns w = Pending (logged a w)) \/
  (fault E (calls w ++ [a]) = false /\
   exists r, watch_result_ok n r /\
     watch_namespaced_deployment E patience n ns w
     = Returns r (logged (watch_returned n r) (logged a w))).
Proof.
  intros a. unfold watch_namespaced_deployment, Api.open_watch, bind.
  rewrite issue_run. fold a.
  destruct (fault E (calls w ++ [a])) eqn:Hf; [by left|]. right. simpl.
  pose proof (watch_loop_cases patience n (feed E (calls w ++ [a])) 0 (logged a w)) as Hw.
  destruct (watch_loop patience n _ 0 (logged a w)) as [r s'|e s'|s'].
  - destruct Hw as [-> Hok]. right. split; [done|]. by exists r.
  - done.
  - subst s'. by left.
Qed.

(** Creation: one call; on success the body is appended to the cluster's
    deployments and a new object is built from the response. *)
Lemma create_namespaced_deployment_eq body ns dd w :
  read_deployment (objects w) body = Some dd ->
  create_namespaced_deployment E body ns w
  = let a := api_create_namespaced_deployment ns dd in
    if fault E (calls w ++ [a]) then Raises ApiException (logged a w)
    else if negb (String.eqb (namespace (metadata dd)) ns)
            || negb (String.eqb (resource_version (metadata dd)) "")
            || existsb (fun d => Api.named ns (name (metadata dd)) (metadata d))
                       (deployments (cluster w))
    then Raises ApiException (logged a w)
    else
      let W h := {| objects := h;
                    cluster := {| deployments := deployments (cluster w) ++ [dd];
                                  services := services (cluster w) |};
                    calls := calls w ++ [a] |} in
      match new_deployment dd (objects w) with
      | Returns l h' => Returns l (W h')
      | Raises e h' => Raises e (W h')
      | Pending h' => Pending (W h')
      end.
Proof.
  destruct w as [h c log]. simpl. intros Hread.
  unfold create_namespaced_deployment, bind, on_objects. simpl. rewrite Hread.
  unfold Api.create_deployment, bind. rewrite issue_run. simpl.
  destruct (fault E _); [done|]. simpl.
  destruct (_ || _ || _); [done|]. simpl.
  unfold on_objects. simpl. by destruct (new_deployment dd h).
Qed.

Lemma create_namespaced_deployment_run body ns dd w :
  read_deployment (objects w) body = Some dd ->
  let a := api_create_namespaced_deployment ns dd in
  (create_namespaced_deployment E body ns w = Raises ApiException (logged a w)) \/
  (exists l h',
     objects w ⊆ h' /\
     create_namespaced_deployment E body ns w
     = Returns l {| objects := h';
                    cluster := {| deployments := deployments (cluster w) ++ [dd];
                                  services := services (cluster w) |};
                    calls := calls w ++ [a] |}).
Proof.
  intros Hread a. rewrite (create_namespaced_deployment_eq _ _ _ _ Hread). cbv zeta. fold a.
  destruct (fault E (calls w ++ [a])); [by left|].
  destruct (_ || _ || _); [by left|]. right.
  destruct (new_deployment_holds dd (objects w)) as (l & h' & -> & Hsub & _ & _).
  by exists l, h'.
Qed.

(** One turn of the first loop. *)
Lemma duplicate_and_wait_run ts ns dep d w :
  holds (objects w) dep d ->
  let create := api_create_namespaced_deployment ns (duplicated d ts) in
  let o := duplicate_and_wait E patience ts ns dep w in
  objects w ⊆ objects (final o) /\
  services (cluster (final o)) = services (cluster w) /\
  match o with
  | Returns _ w' =>
      exists r, watch_result_ok (name (metadata (duplicated d ts))) r /\
        calls w' = calls w ++ dup_actions ns ts d r /\
        deployments (cluster w') = deployments (cluster w) ++ [duplicated d ts]
  | Raises e w' =>
      e = ApiException /\
      (calls w' = calls w ++ [create] \/ calls w' = calls w ++ [create; watch_stream ns])
  | Pending w' =>
      calls w' = calls w ++ [create; watch_stream ns] /\
      deployments (cluster w') = deployments (cluster w) ++ [duplicated d ts]
  end.
Proof.
  intros Hd create o.
  destruct (duplicate_deployment_config_holds _ _ _ ts Hd)
    as (nb & h1 & Edup & Hsub1 & _ & Hread).
  set (w1 := {| objects := h1; cluster := cluster w; calls := calls w |}).
  assert (Hcases :
    o = Raises ApiException (logged create w1) \/
    exists h2, h1 ⊆ h2 /\
      let w2 := {| objects := h2;
                   cluster := {| deployments := deployments (cluster w) ++ [duplicated d ts];
                                 services := services (cluster w) |};
                   calls := calls w ++ [create] |} in
      o = Raises ApiException (logged (watch_stream ns) w2) \/
      o = Pending (logged (watch_stream ns) w2) \/
      exists r, watch_result_ok (name (metadata (duplicated d ts))) r /\
        o = Returns tt (logged (watch_returned (name (metadata (duplicated d ts))) r)
                          (logged (watch_stream ns) w2))).
  { assert (Ho1 : o = (create_namespaced_deployment E nb ns ;;;
                       copy_name <- on_objects (metadata_name nb) ;;
                       watch_namespaced_deployment E patience copy_name ns ;;;
                       ret tt)%prog w1).
    { unfold o, duplicate_and_wait. unfold bind at 1.
      by rewrite (on_objects_Returns _ w nb h1 Edup). }
    destruct (create_namespaced_deployment_run nb ns _ w1 Hread)
      as [Ec|(l & h2 & Hsub2 & Ec)].
    { left. rewrite Ho1. unfold bind at 1. by rewrite Ec. }
    right. exists h2. split; [done|]. cbv zeta.
    set (w2 := {| objects := h2; cluster := _; calls := _ |}).
    assert (Hread2 : read_deployment (objects w2) nb = Some (duplicated d ts))
      by (by eapply read_deployment_weaken).
    assert (Ho2 : o = (watch_namespaced_deployment E patience
                         (name (metadata (duplicated d ts))) ns ;;; ret tt)%prog w2).
    { rewrite Ho1. unfold bind at 1. rewrite Ec. unfold bind at 1.
      erewrite on_objects_Returns by (apply metadata_name_eq; exact Hread2).
      reflexivity. }
    destruct (watch_namespaced_deployment_run (name (metadata (duplicated d ts))) ns w2)
      as [[_ Ew]|[[_ Ew]|[_ (r & Hok & Ew)]]].
    - left. rewrite Ho2. unfold bind. by rewrite Ew.
    - right. left. rewrite Ho2. unfold bind. by rewrite Ew.
    - right. right. exists r. split; [done|]. rewrite Ho2. unfold bind. by rewrite Ew. }
  clearbody o.
  destruct Hcases as [->|(h2 & Hsub2 & [->|[->|(r & Hok & ->)]])]; simpl.
  - split; [done|]. split; [done|]. split; [done|]. by left.
  - split; [by etrans|]. split; [done|]. split; [done|]. right.
    by rewrite <- app_assoc.
  - split; [by etrans|]. split; [done|]. split; [|done]. by rewrite <- app_assoc.
  - split; [by etrans|]. split; [done|]. exists r. split; [done|]. split; [|done].
    unfold dup_actions. by rewrite <- !app_assoc.
Qed.

Lemma watch_result_ok_None ts (ds : list Deployment) :
  Forall2 (fun d r => watch_result_ok (name (metadata (duplicated d ts))) r)
          ds (replicate (length ds) None).
Proof. induction ds as [|d ds IH]; simpl; by constructor. Qed.

Lemma dup_trace_cons ns ts d ds r rs :
  dup_trace ns ts (d :: ds) (r :: rs) = dup_actions ns ts d r ++ dup_trace ns ts ds rs.
Proof. reflexivity. Qed.

(** The first loop: after it returns, every deployment has been duplicated,
    created and awaited, in order; when it does not return, the log is a
    beginning of that. *)
Lemma duplicate_loop_run ts ns deps ds w :
  Forall2 (holds (objects w)) deps ds ->
  let o := for_each deps (duplicate_and_wait E patience ts ns) w in
  objects w ⊆ objects (final o) /\
  services (cluster (final o)) = services (cluster w) /\
  exists rs tr,
    length rs = length ds /\
    Forall2 (fun d r => watch_result_ok (name (metadata (duplicated d ts))) r) ds rs /\
    calls (final o) = calls w ++ tr /\
    match o with
    | Returns _ w' =>
        tr = dup_trace ns ts ds rs /\
        deployments (cluster w')
        = deployments (cluster w) ++ map (fun d => duplicated d ts) ds
    | Raises e _ => e = ApiException /\ tr `prefix_of` dup_trace ns ts ds rs
    | Pending _ => tr `prefix_of` dup_trace ns ts ds rs
    end.
Proof.
  revert ds w. induction deps as [|l deps IH]; intros ds w Hds o.
  - inversion Hds; subst. subst o. simpl. split; [done|]. split; [done|].
    exists [], []. split; [done|]. split; [constructor|].
    split; [by rewrite app_nil_r|]. split; [done|by rewrite app_nil_r].
  - inversion Hds as [|? d ? ds' Hl Hrest]; subst.
    pose proof (duplicate_and_wait_run ts ns l d w Hl) as Hstep. cbv zeta in Hstep.
    subst o. simpl for_each. unfold bind.
    destruct (duplicate_and_wait E patience ts ns l w) as [[] w1|e w1|w1]; simpl in Hstep.
    + destruct Hstep as (Hsub1 & Hsvc1 & r & Hok & Hcalls1 & Hdeps1).
      specialize (IH ds' w1 (Forall2_holds_weaken _ _ _ _ Hrest Hsub1)). cbv zeta in IH.
      destruct IH as (Hsub2 & Hsvc2 & rs & tr & Hlen & Hoks & Hcalls2 & Hout).
      split; [by etrans|]. split; [congruence|].
      exists (r :: rs), (dup_actions ns ts d r ++ tr).
      split; [simpl; congruence|]. split; [by constructor|].
      split; [rewrite Hcalls2, Hcalls1; by rewrite <- app_assoc|].
      rewrite dup_trace_cons.
      destruct (for_each deps _ w1) as [[] w2|e w2|w2].
      * destruct Hout as [-> Hdeps2]. split; [done|].
        rewrite Hdeps2, Hdeps1. simpl. by rewrite <- app_assoc.
      * destruct Hout as [-> Hpre]. split; [done|]. by apply prefix_app.
      * by apply prefix_app.
    + destruct Hstep as (Hsub1 & Hsvc1 & -> & Hcalls1).
      split; [done|]. split; [done|].
      exists (replicate (length (d :: ds')) None).
      destruct Hcalls1 as [Hc|Hc]; eexists; (split; [by rewrite length_replicate|]);
        (split; [apply watch_result_ok_None|]); (split; [exact Hc|]);
        (split; [done|]); simpl; rewrite dup_trace_cons; unfold dup_actions; simpl;
        eexists; reflexivity.
    + destruct Hstep as (Hsub1 & Hsvc1 & Hc & _).
      split; [done|]. split; [done|].
      exists (replicate (length (d :: ds')) None).
      eexists. split; [by rewrite length_replicate|].
      split; [apply watch_result_ok_None|]. split; [exact Hc|].
      simpl. rewrite dup_trace_cons. unfold dup_actions. simpl. eexists. reflexivity.
Qed.

(** *** Cutover *)

Lemma named_key {L} ns n (m : ObjectMeta L) :
  Api.named ns n m = true <-> (namespace m, name m) = (ns, n).
Proof.
  unfold Api.named. rewrite andb_true_iff, !String.eqb_eq. split.
  - by intros [-> ->].
  - intros H. by inversion H.
Qed.

Lemma existsb_named_key ns n (svcs : list Service) :
  existsb (fun s => Api.named ns n (svc_metadata s)) svcs = true
  <-> (ns, n) ∈ map service_key svcs.
Proof.
  rewrite existsb_exists. split.
  - intros (s & Hin & Hnamed). apply named_key in Hnamed.
    apply list_elem_of_fmap. exists s. split; [by symmetry|]. by apply list_elem_of_In.
  - intros (s & Hkey & Hin)%list_elem_of_fmap. exists s.
    split; [by apply list_elem_of_In|]. apply named_key. by symmetry.
Qed.

Lemma patch_keeps_keys ns n body (svcs : list Service) :
  service_key body = (ns, n) ->
  map service_key (map (fun s => if Api.named ns n (svc_metadata s) then body else s) svcs)
  = map service_key svcs.
Proof.
  intros Hbody. induction svcs as [|s svcs IH]; simpl; [done|].
  rewrite IH. f_equal. destruct (Api.named ns n (svc_metadata s)) eqn:Hn; [|done].
  apply named_key in Hn. by rewrite Hbody.
Qed.

Lemma patch_namespaced_service_eq n ts ns w :
  patch_namespaced_service E n ts ns w
  = let L := list_namespaced_service ns (field_selector_name n) in
    if fault E (calls w ++ [L]) then Raises ApiException (logged L w)
    else
      match filter (fun s => Api.service_matches E ns (field_selector_name n) s)
                   (services (cluster w)) with
      | [] => Raises (K8sServiceNotFoundError (Msg.service_not_found n ns)) (logged L w)
      | first :: _ =>
          let body := {| svc_metadata := svc_metadata first;
                         svc_selector := <["patch" := ts]> (svc_selector first);
                         svc_ports := svc_ports first |} in
          let P := api_patch_namespaced_service ns n body in
          if fault E ((calls w ++ [L]) ++ [P]) then Raises ApiException (logged P (logged L w))
          else if existsb (fun s => Api.named ns n (svc_metadata s)) (services (cluster w))
          then Returns body
                 {| objects := objects w;
                    cluster :=
                      {| deployments := deployments (cluster w);
                         services := map (fun s => if Api.named ns n (svc_metadata s)
                                                   then body else s)
                                         (services (cluster w)) |};
                    calls := (calls w ++ [L]) ++ [P] |}
          else Raises ApiException (logged P (logged L w))
      end.
Proof.
  unfold patch_namespaced_service, get_namespaced_service.
  unfold bind at 1. unfold bind at 1. rewrite list_services_run. cbv zeta.
  destruct (fault E _); [done|].
  destruct (filter _ _) as [|first rest]; [done|].
  unfold ret at 1. unfold Api.patch_service. unfold bind at 1. rewrite issue_run.
  destruct (fault E _); [done|].
  unfold bind, get_cluster, put_cluster, ret, raise. simpl.
  by destruct (existsb _ _).
Qed.

Lemma service_matches_named ns n s :
  Api.service_matches E ns (field_selector_name n) s = Api.named ns n (svc_metadata s).
Proof. reflexivity. Qed.

(** One turn of the second loop: the service is looked up by name and
    patched; the deployments and the identities of the services stay. *)
Lemma patch_namespaced_service_run n ts ns w :
  let L := list_namespaced_service ns (field_selector_name n) in
  let o := patch_namespaced_service E n ts ns w in
  objects (final o) = objects w /\
  deployments (cluster (final o)) = deployments (cluster w) /\
  map service_key (services (cluster (final o))) = map service_key (services (cluster w)) /\
  match o with
  | Returns body w' =>
      calls w' = calls w ++ [L; api_patch_namespaced_service ns n body] /\
      svc_selector body !! "patch" = Some ts
  | Raises e w' =>
      (e = ApiException /\
       (calls w' = calls w ++ [L] \/
        exists body, calls w' = calls w ++ [L; api_patch_namespaced_service ns n body])) \/
      (e = K8sServiceNotFoundError (Msg.service_not_found n ns) /\
       ((ns, n) ∉ map service_key (services (cluster w))) /\
       calls w' = calls w ++ [L])
  | Pending _ => False
  end.
Proof.
  intros L o. subst o. rewrite patch_namespaced_service_eq. cbv zeta. fold L.
  destruct (fault E (calls w ++ [L])); simpl.
  { repeat split; auto. }
  destruct (filter _ (services (cluster w))) as [|first rest] eqn:Hfilter; simpl.
  { split; [done|]. split; [done|]. split; [done|]. right. split; [done|]. split; [|done].
    intros Hin. apply existsb_named_key, existsb_exists in Hin as (s & Hin & Hnamed).
    assert (Hs : s ∈ filter (fun s => Api.service_matches E ns (field_selector_name n) s)
                        (services (cluster w))).
    { apply list_elem_of_filter. split; [|by apply list_elem_of_In].
      rewrite service_matches_named, Hnamed. done. }
    rewrite Hfilter in Hs. by apply elem_of_nil in Hs. }
  assert (Hfirst : first ∈ filter (fun s => Api.service_matches E ns (field_selector_name n) s)
                             (services (cluster w))).
  { rewrite Hfilter. apply elem_of_cons. by left. }
  apply list_elem_of_filter in Hfirst as [Hnamed Hin].
  rewrite service_matches_named in Hnamed. apply Is_true_true in Hnamed.
  destruct (fault E _); simpl.
  { split; [done|]. split; [done|]. split; [done|]. left. split; [done|]. right.
    eexists. by rewrite <- app_assoc. }
  assert (Hex : existsb (fun s => Api.named ns n (svc_metadata s)) (services (cluster w)) = true).
  { apply existsb_exists. exists first. split; [by apply list_elem_of_In|done]. }
  rewrite Hex. simpl. split; [done|]. split; [done|]. split.
  { apply patch_keeps_keys. unfold service_key. simpl. by apply named_key. }
  split; [by rewrite <- app_assoc|]. by rewrite lookup_insert_eq.
Qed.

Lemma patch_trace_cons ns svc svcs b bodies :
  patch_trace ns (svc :: svcs) (b :: bodies) = patch_actions ns svc b ++ patch_trace ns svcs bodies.
Proof. reflexivity. Qed.

(** The second loop, over services that are in the cluster. *)
Lemma patch_loop_run ts ns svcs w :
  (forall svc, svc ∈ svcs ->
     (ns, name (svc_metadata svc)) ∈ map service_key (services (cluster w))) ->
  let o := for_each svcs (fun svc =>
             (patch_namespaced_service E (name (svc_metadata svc)) ts ns ;;; ret tt)%prog) w in
  objects (final o) = objects w /\
  deployments (cluster (final o)) = deployments (cluster w) /\
  exists bodies tr,
    length bodies = length svcs /\
    calls (final o) = calls w ++ tr /\
    match o with
    | Returns _ _ =>
        tr = patch_trace ns svcs bodies /\
        Forall (fun b => svc_selector b !! "patch" = Some ts) bodies
    | Raises e _ => e = ApiException /\ tr `prefix_of` patch_trace ns svcs bodies
    | Pending _ => False
    end.
Proof.
  revert w. induction svcs as [|svc svcs IH]; intros w Hin o.
  - subst o. simpl. split; [done|]. split; [done|].
    exists [], []. split; [done|]. split; [by rewrite app_nil_r|]. by split.
  - pose proof (patch_namespaced_service_run (name (svc_metadata svc)) ts ns w) as Hstep.
    cbv zeta in Hstep. subst o. rewrite for_each_cons. cbv beta. rewrite bind_ret_tt.
    destruct (patch_namespaced_service E (name (svc_metadata svc)) ts ns w)
      as [body w1|e w1|w1]; simpl in Hstep.
    + destruct Hstep as (Hobj1 & Hdep1 & Hkeys1 & Hcalls1 & Hsel).
      assert (Hin1 : forall svc', svc' ∈ svcs ->
                (ns, name (svc_metadata svc')) ∈ map service_key (services (cluster w1))).
      { intros svc' Hs. rewrite Hkeys1. apply Hin. apply elem_of_cons. by right. }
      specialize (IH w1 Hin1). cbv zeta in IH.
      destruct IH as (Hobj2 & Hdep2 & bodies & tr & Hlen & Hcalls2 & Hout).
      split; [congruence|]. split; [congruence|].
      exists (body :: bodies), (patch_actions ns svc body ++ tr).
      split; [simpl; congruence|].
      split; [rewrite Hcalls2, Hcalls1; by rewrite <- app_assoc|].
      rewrite patch_trace_cons.
      destruct (for_each svcs _ w1) as [[] w2|e w2|w2].
      * destruct Hout as [-> Hsels]. split; [done|]. by constructor.
      * destruct Hout as [-> Hpre]. split; [done|]. by apply prefix_app.
      * done.
    + destruct Hstep as (Hobj1 & Hdep1 & Hkeys1 & Hraise).
      split; [done|]. split; [done|].
      destruct Hraise as [[-> Hcalls]|(_ & Hnot & _)].
      * destruct Hcalls as [Hc|[body Hc]].
        -- exists (svc :: svcs). eexists. split; [done|]. split; [exact Hc|].
           split; [done|]. rewrite patch_trace_cons. unfold patch_actions. simpl.
           eexists. reflexivity.
        -- exists (body :: svcs). eexists. split; [done|]. split; [exact Hc|].
           split; [done|]. rewrite patch_trace_cons. unfold patch_actions. simpl.
           eexists. reflexivity.
      * destruct Hnot. apply Hin. apply elem_of_cons. by left.
    + by destruct Hstep as (_ & _ & _ & []).
Qed.

(** *** Clean-up *)

Lemma delete_old_eq ns dep d w :
  read_deployment (objects w) dep = Some d ->
  delete_old E ns dep w
  = let D := delete_namespaced_deployment ns (name (metadata d)) in
    if fault E (calls w ++ [D]) then Raises ApiException (logged D w)
    else if existsb (fun d' => Api.named ns (name (metadata d)) (metadata d'))
                    (deployments (cluster w))
    then Returns tt
           {| objects := objects w;
              cluster :=
                {| deployments :=
                     filter (fun d' => negb (Api.named ns (name (metadata d)) (metadata d')))
                            (deployments (cluster w));
                   services := services (cluster w) |};
              calls := calls w ++ [D] |}
    else Raises ApiException (logged D w).
Proof.
  intros Hread. unfold delete_old. unfold bind at 1.
  rewrite (on_objects_Returns _ _ _ _ (metadata_name_eq _ _ _ Hread)), world_eta.
  unfold Api.delete_deployment. unfold bind at 1. rewrite issue_run. cbv zeta.
  destruct (fault E _); [done|].
  unfold bind, get_cluster, put_cluster, raise. simpl.
  by destruct (existsb _ _).
Qed.

Lemma without_cons ns d ds all :
  without ns (d :: ds) all
  = without ns ds (filter (fun d' => negb (Api.named ns (name (metadata d)) (metadata d'))) all).
Proof. reflexivity. Qed.

(** The clean-up loop deletes the deployments by the names their objects
    carry, in order. *)
Lemma cleanup_loop_run ns deps ds w :
  Forall2 (fun l d => read_deployment (objects w) l = Some d) deps ds ->
  let o := for_each deps (delete_old E ns) w in
  objects (final o) = objects w /\
  services (cluster (final o)) = services (cluster w) /\
  exists tr,
    calls (final o) = calls w ++ tr /\
    match o with
    | Returns _ w' =>
        tr = delete_trace ns ds /\
        deployments (cluster w') = without ns ds (deployments (cluster w))
    | Raises e _ => e = ApiException /\ tr `prefix_of` delete_trace ns ds
    | Pending _ => False
    end.
Proof.
  revert ds w. induction deps as [|l deps IH]; intros ds w Hds o.
  - inversion Hds; subst. subst o. simpl. split; [done|]. split; [done|].
    exists []. split; [by rewrite app_nil_r|]. by split.
  - inversion Hds as [|? d ? ds' Hl Hrest]; subst.
    subst o. rewrite for_each_cons, (delete_old_eq _ _ _ _ Hl). cbv zeta.
    set (D := delete_namespaced_deployment ns (name (metadata d))).
    destruct (fault E (calls w ++ [D])).
    { simpl. split; [done|]. split; [done|]. exists [D]. split; [done|]. split; [done|].
      simpl. fold D. eexists. reflexivity. }
    destruct (existsb _ _); cycle 1.
    { simpl. split; [done|]. split; [done|]. exists [D]. split; [done|]. split; [done|].
      simpl. fold D. eexists. reflexivity. }
    set (w1 := {| objects := objects w; cluster := _; calls := _ |}).
    specialize (IH ds' w1 Hrest). cbv zeta in IH.
    destruct IH as (Hobj & Hsvc & tr & Hcalls & Hout).
    split; [done|]. split; [done|]. exists (D :: tr).
    split; [rewrite Hcalls; simpl; by rewrite <- app_assoc|].
    destruct (for_each deps (delete_old E ns) w1) as [[] w2|e w2|w2].
    + destruct Hout as [-> Hdeps]. split; [done|]. by rewrite without_cons.
    + destruct Hout as [-> Hpre]. split; [done|]. simpl. fold D. by apply prefix_cons.
    + done.
Qed.

(** *** The whole rollout *)

Lemma matching_service_key sel ns svc (svcs : list Service) :
  svc ∈ filter (fun s => Api.service_matches E ns (label_selector sel) s) svcs ->
  (ns, name (svc_metadata svc)) ∈ map service_key svcs.
Proof.
  intros [Hm Hin]%list_elem_of_filter.
  apply list_elem_of_fmap. exists svc. split; [|done].
  unfold Api.service_matches, Api.matches in Hm.
  apply Is_true_true, andb_true_iff in Hm as [Hns _].
  apply String.eqb_eq in Hns. unfold service_key. by rewrite Hns.
Qed.


(** Every run of [trigger_smart_rollout]: its log is a beginning of the log
    of a whole rollout, and how it ends tells how far it got. *)
Lemma trigger_smart_rollout_run M sel ns cleanup w :
  let ts := Clock.getSimpleTimestamp M None in
  let ds := filter (fun d => Api.deployment_matches E ns (label_selector sel) d)
                   (deployments (cluster w)) in
  let svcs := filter (fun s => Api.service_matches E ns (label_selector sel) s)
                     (services (cluster w)) in
  let o := trigger_smart_rollout E M patience sel ns cleanup w in
  objects w ⊆ objects (final o) /\
  exists rs bodies tr,
    length rs = length ds /\ length bodies = length svcs /\
    Forall2 (fun d r => watch_result_ok (name (metadata (duplicated d ts))) r) ds rs /\
    calls (final o) = calls w ++ tr /\
    tr `prefix_of` rollout_trace sel ns ts cleanup ds rs svcs bodies /\
    rollout_outcome sel ns ts cleanup w ds rs svcs bodies tr o.
Proof.
  intros ts ds svcs o.
  set (L0 := list_namespaced_deployment ns (label_selector sel)).
  set (LS := list_namespaced_service ns (label_selector sel)).
  destruct (get_namespaced_deployments_run E sel ns w)
    as (w0 & Hcalls0 & Hcl0 & Hsub0 & Hcase0).
  fold ds L0 in Hcalls0, Hcase0.
  assert (Hstop0 : forall e,
    o = Raises e w0 ->
    rollout_outcome sel ns ts cleanup w ds (replicate (length ds) None) svcs svcs [L0]
                    (Raises e w0) ->
    objects w ⊆ objects (final o) /\
    exists rs bodies tr,
      length rs = length ds /\ length bodies = length svcs /\
      Forall2 (fun d r => watch_result_ok (name (metadata (duplicated d ts))) r) ds rs /\
      calls (final o) = calls w ++ tr /\
      tr `prefix_of` rollout_trace sel ns ts cleanup ds rs svcs bodies /\
      rollout_outcome sel ns ts cleanup w ds rs svcs bodies tr o).
  { intros e -> Hout. split; [done|].
    exists (replicate (length ds) None), svcs, [L0].
    split; [by rewrite length_replicate|]. split; [done|].
    split; [apply watch_result_ok_None|]. split; [done|].
    split; [|done]. apply prefix_cons, prefix_nil. }
  destruct Hcase0 as [[Hf E0]|[(Hf & Hnil & E0)|(Hf & Hne & deps & Hdeps & E0)]].
  { apply (Hstop0 ApiException); [|done].
    unfold o, trigger_smart_rollout. cbv zeta. unfold bind at 1. by rewrite E0. }
  { apply (Hstop0 (K8sDeploymentNotFoundError (Msg.deployments_not_found sel ns))).
    - unfold o, trigger_smart_rollout. cbv zeta. unfold bind at 1. by rewrite E0.
    - by repeat split. }
  assert (Hreads0 : Forall2 (fun l d => read_deployment (objects w0) l = Some d) deps ds).
  { eapply Forall2_impl; [exact Hdeps|]. eauto using holds_read. }
  destruct (decide (NoDup (map Naming.getDeploymentBaseName (names_of ds)))) as [Hnd|Hdup];
    cycle 1.
  { destruct (first_duplicate _ _ Hdup) as (l1 & a & l2 & b & l3 & Hnames & Hnd & Hab).
    pose proof (check_deployments_conflict _ _ _ _ _ _ _ _ Hreads0 Hnames Hnd Hab) as Echeck.
    eapply Hstop0.
    - unfold o, trigger_smart_rollout. cbv zeta. unfold bind at 1. rewrite E0.
      unfold bind at 1. rewrite (on_objects_Raises _ _ _ _ Echeck). by rewrite world_eta.
    - split; [done|]. split; [done|]. by exists deps, (objects w0). }
  pose proof (check_deployments_unique _ _ _ Hreads0 Hnd) as Echeck.
  pose proof (duplicate_loop_run ts ns deps ds w0 Hdeps) as Hloop. cbv zeta in Hloop.
  assert (Ho1 : o = (for_each deps (duplicate_and_wait E patience ts ns) ;;;
                     services <- get_namespaced_services E sel ns ;;
                     for_each services (fun svc =>
                       patch_namespaced_service E (name (svc_metadata svc)) ts ns ;;;
                       ret tt) ;;;
                     if cleanup then for_each deps (delete_old E ns) else ret tt)%prog w0).
  { unfold o, trigger_smart_rollout. cbv zeta. unfold bind at 1. rewrite E0.
    unfold bind at 1. rewrite (on_objects_Returns _ _ _ _ Echeck). by rewrite world_eta. }
  clearbody o. clear Hstop0.
  destruct (for_each deps (duplicate_and_wait E patience ts ns) w0)
    as [[] w1|e w1|w1] eqn:Eloop; simpl in Hloop;
    destruct Hloop as (Hsub1 & Hsvc1 & rs & trD & Hlen & Hoks & Hcalls1 & Hout1).
  2: { destruct Hout1 as [-> Hpre].
       assert (o = Raises ApiException w1) as ->
         by (rewrite Ho1; unfold bind at 1; by rewrite Eloop).
       simpl. split; [by etrans|]. exists rs, svcs, (L0 :: trD).
       split; [done|]. split; [done|]. split; [done|].
       split; [rewrite Hcalls1, Hcalls0; by rewrite <- app_assoc|].
       split; [|done]. by apply prefix_cons, prefix_app_r. }
  2: { assert (o = Pending w1) as -> by (rewrite Ho1; unfold bind at 1; by rewrite Eloop).
       simpl. split; [by etrans|]. exists rs, svcs, (L0 :: trD).
       split; [done|]. split; [done|]. split; [done|].
       split; [rewrite Hcalls1, Hcalls0; by rewrite <- app_assoc|].
       split; [by apply prefix_cons, prefix_app_r|]. by apply prefix_cons. }
  destruct Hout1 as [-> Hdeps1].
  assert (Ho2 : o = (services <- get_namespaced_services E sel ns ;;
                     for_each services (fun svc =>
                       patch_namespaced_service E (name (svc_metadata svc)) ts ns ;;;
                       ret tt) ;;;
                     if cleanup then for_each deps (delete_old E ns) else ret tt)%prog w1).
  { rewrite Ho1. unfold bind at 1. by rewrite Eloop. }
  clear Ho1.
  assert (Hsvcs : filter (fun s => Api.service_matches E ns (label_selector sel) s)
                         (services (cluster w1)) = svcs).
  { by rewrite Hsvc1, Hcl0. }
  assert (Hgrown : deployments (cluster w1)
                   = deployments (cluster w) ++ map (fun d => duplicated d ts) ds).
  { by rewrite Hdeps1, Hcl0. }
  assert (Hstop1 : forall e,
    o = Raises e (logged LS w1) ->
    rollout_outcome sel ns ts cleanup w ds rs svcs svcs (L0 :: dup_trace ns ts ds rs ++ [LS])
                    (Raises e (logged LS w1)) ->
    objects w ⊆ objects (final o) /\
    exists rs bodies tr,
      length rs = length ds /\ length bodies = length svcs /\
      Forall2 (fun d r => watch_result_ok (name (metadata (duplicated d ts))) r) ds rs /\
      calls (final o) = calls w ++ tr /\
      tr `prefix_of` rollout_trace sel ns ts cleanup ds rs svcs bodies /\
      rollout_outcome sel ns ts cleanup w ds rs svcs bodies tr o).
  { intros e -> Hout. split; [simpl; by etrans|].
    exists rs, svcs, (L0 :: dup_trace ns ts ds rs ++ [LS]).
    split; [done|]. split; [done|]. split; [done|].
    split; [simpl; rewrite Hcalls1, Hcalls0; by rewrite <- !app_assoc|].
    split; [|done]. apply prefix_cons, prefix_app. apply prefix_cons, prefix_nil. }
  destruct (get_namespaced_services_run E sel ns w1) as [[Hf3 E3]|[(Hf3 & Hnil3 & E3)|(Hf3 & Hne3 & E3)]];
    cbv zeta in *; rewrite ?Hsvcs in *; fold LS in E3.
  { apply (Hstop1 ApiException); [|done].
    rewrite Ho2. unfold bind at 1. by rewrite E3. }
  { apply (Hstop1 (K8sServiceNotFoundError (Msg.services_not_found sel ns))).
    - rewrite Ho2. unfold bind at 1. by rewrite E3.
    - by repeat split. }
  clear Hstop1.
  set (w2 := logged LS w1) in *.
  assert (Ho3 : o = (for_each svcs (fun svc =>
                       patch_namespaced_service E (name (svc_metadata svc)) ts ns ;;;
                       ret tt) ;;;
                     if cleanup then for_each deps (delete_old E ns) else ret tt)%prog w2).
  { rewrite Ho2. unfold bind at 1. by rewrite E3. }
  clear Ho2.
  assert (Hin : forall svc, svc ∈ svcs ->
            (ns, name (svc_metadata svc)) ∈ map service_key (services (cluster w2))).
  { intros svc Hsvc. simpl. rewrite <- Hsvcs in Hsvc. by eapply matching_service_key. }
  pose proof (patch_loop_run ts ns svcs w2 Hin) as Hpatch. cbv zeta in Hpatch.
  destruct (for_each svcs _ w2) as [[] w3|e w3|w3] eqn:Epatch; simpl in Hpatch;
    destruct Hpatch as (Hobj3 & Hdep3 & bodies & trP & Hlenb & Hcalls3 & Hout3); [| |done].
  2: { destruct Hout3 as [-> Hpre].
       assert (o = Raises ApiException w3) as ->
         by (rewrite Ho3; unfold bind at 1; by rewrite Epatch).
       simpl. split; [rewrite Hobj3; simpl; by etrans|].
       exists rs, bodies, (L0 :: dup_trace ns ts ds rs ++ LS :: trP).
       split; [done|]. split; [done|]. split; [done|].
       split; [rewrite Hcalls3; simpl; rewrite Hcalls1, Hcalls0; by rewrite <- !app_assoc|].
       split; [|done]. apply prefix_cons, prefix_app, prefix_cons. by apply prefix_app_r. }
  destruct Hout3 as [-> Hsels].
  assert (Ho4 : o = (if cleanup then for_each deps (delete_old E ns) else ret tt) w3).
  { rewrite Ho3. unfold bind at 1. by rewrite Epatch. }
  clear Ho3.
  assert (Hcalls : calls w3 = calls w ++ L0 :: dup_trace ns ts ds rs ++
                                         LS :: patch_trace ns svcs bodies).
  { rewrite Hcalls3. simpl. rewrite Hcalls1, Hcalls0. by rewrite <- !app_assoc. }
  assert (Hsub3 : objects w ⊆ objects w3).
  { rewrite Hobj3. simpl. by etrans. }
  destruct cleanup.
  - assert (Hreads3 : Forall2 (fun l d => read_deployment (objects w3) l = Some d) deps ds).
    { rewrite Hobj3. simpl. eapply Forall2_impl; [exact Hreads0|].
      intros l d Hl. eapply read_deployment_weaken; [exact Hl|exact Hsub1]. }
    pose proof (cleanup_loop_run ns deps ds w3 Hreads3) as Hclean. cbv zeta in Hclean.
    rewrite <- Ho4 in Hclean. clear Ho4.
    destruct Hclean as (Hobj4 & Hsvc4 & trC & Hcalls4 & Hout4).
    split; [by rewrite Hobj4|].
    exists rs, bodies, (L0 :: dup_trace ns ts ds rs ++ LS :: patch_trace ns svcs bodies ++ trC).
    split; [done|]. split; [done|]. split; [done|].
    split; [rewrite Hcalls4, Hcalls; list_assoc|].
    destruct o as [[] w4|e w4|w4]; [| |done].
    + destruct Hout4 as [-> Hdeps4]. split; [done|]. simpl.
      split; [done|]. split; [done|]. split; [done|]. split; [done|].
      rewrite Hdeps4, Hdep3. simpl. by rewrite Hgrown.
    + destruct Hout4 as [-> Hpre]. split; [|done].
      apply prefix_cons, prefix_app, prefix_cons. by apply prefix_app.
  - subst o. simpl. split; [done|].
    exists rs, bodies, (L0 :: dup_trace ns ts ds rs ++ LS :: patch_trace ns svcs bodies).
    split; [done|]. split; [done|]. split; [done|]. split; [done|].
    unfold rollout_trace. rewrite app_nil_r. split; [done|].
    split; [done|]. split; [done|]. split; [done|]. split; [done|].
    rewrite Hdep3. simpl. by rewrite Hgrown.
Qed.

End Orchestration.

(** * The properties of the specification *)

(** ** Resource naming (C3) *)

Section NamingClaims.
Import Naming.
Local Open Scope string_scope.

(** C3, as stated, fails: [getDeploymentBaseName] is not idempotent.  On
    ["app-1-2"] it strips ["-2"]; applied again it strips ["-1"]. *)
Lemma getDeploymentBaseName_not_idempotent :
  getDeploymentBaseName (getDeploymentBaseName "app-1-2")
  <> getDeploymentBaseName "app-1-2".
Proof. discriminate. Qed.

(** C3, amended: [getDeploymentBaseName] strips exactly one trailing
    dash-and-digits suffix when there is one (a final newline after the
    digits is kept) and returns every other name unchanged; applying it twice
    gives the same as applying it once exactly when what it returns carries
    no further such suffix; and the three examples of the specification
    hold. *)
Theorem getDeploymentBaseName_strips_one_suffix :
  (forall p ds, ds <> "" -> all_digits ds = true ->
     getDeploymentBaseName (p ++ "-" ++ ds) = p) /\
  (forall p ds, ds <> "" -> all_digits ds = true ->
     getDeploymentBaseName (p ++ "-" ++ ds ++ String newline "") = p ++ String newline "") /\
  (forall x, ~ has_version_suffix x -> getDeploymentBaseName x = x) /\
  (forall x, getDeploymentBaseName (getDeploymentBaseName x) = getDeploymentBaseName x
             <-> ~ has_version_suffix (getDeploymentBaseName x)) /\
  getDeploymentBaseName "app-20191011134834" = "app" /\
  getDeploymentBaseName "app" = "app" /\
  getDeploymentBaseName "app-v2" = "app-v2".
Proof.
  split; [exact getDeploymentBaseName_strip|].
  split; [exact getDeploymentBaseName_strip_newline|].
  split; [intros x; apply getDeploymentBaseName_fixed|].
  split; [intros x; apply getDeploymentBaseName_fixed|].
  by repeat split.
Qed.

Lemma getDeploymentBaseName_strips_one_suffix_witness :
  getDeploymentBaseName ("my-app" ++ "-" ++ "20191011134834") = "my-app" /\
  getDeploymentBaseName ("my-app" ++ "-" ++ "7" ++ String newline "")
  = "my-app" ++ String newline "" /\
  getDeploymentBaseName "app-v2" = "app-v2" /\
  getDeploymentBaseName (getDeploymentBaseName "app-12") = getDeploymentBaseName "app-12".
Proof.
  pose proof getDeploymentBaseName_strips_one_suffix as (Hstrip & Hnl & Hfix & Hidem & _).
  assert (Hno : forall x, getDeploymentBaseName x = x -> ~ has_version_suffix x).
  { intros x Hx. by apply getDeploymentBaseName_fixed. }
  split; [apply Hstrip; [discriminate|reflexivity]|].
  split; [apply Hnl; [discriminate|reflexivity]|].
  split; [apply Hfix, Hno; reflexivity|].
  apply Hidem, Hno. reflexivity.
Defined.

End NamingClaims.

(** ** The spec duplicator (C7, C8, C10) *)

Lemma deployment_at_separate h body d m s t tm o ot :
  deployment_at h body d m s t tm o ot -> separate_metadata h body -> m <> tm.
Proof. intros [Hb _ _ Hs Ht _ _] Hsep. by eapply Hsep. Qed.

(** C7: for every deployment object [body] that stands for a resource [d],
    with metadata objects of their own for the deployment and for its pod
    template, and every timestamp [t], [duplicate_deployment_config body t]
    returns an object that stands for a resource [d'] whose name is
    [getDeploymentBaseName] of the name of [d], a dash and [t], whose
    resource version is empty, whose label map and pod-template label map
    have [patch = t], and all of whose other fields and labels are those of
    [d]: [d'] is [duplicated d t]. *)
Theorem duplicate_deployment_config_spec h body d t :
  read_deployment h body = Some d ->
  separate_metadata h body ->
  exists newBody h' d',
    duplicate_deployment_config body t h = Returns newBody h' /\
    read_deployment h' newBody = Some d' /\
    name (metadata d') = Naming.getDeploymentBaseName (name (metadata d)) +:+ "-" +:+ t /\
    resource_version (metadata d') = "" /\
    labels (metadata d') !! "patch" = Some t /\
    labels (template_metadata d') !! "patch" = Some t /\
    (forall k, k <> "patch" ->
       labels (metadata d') !! k = labels (metadata d) !! k /\
       labels (template_metadata d') !! k = labels (template_metadata d) !! k) /\
    namespace (metadata d') = namespace (metadata d) /\
    name (template_metadata d') = name (template_metadata d) /\
    namespace (template_metadata d') = namespace (template_metadata d) /\
    resource_version (template_metadata d') = resource_version (template_metadata d) /\
    spec_replicas d' = spec_replicas d /\
    spec_strategy d' = spec_strategy d /\
    template_containers d' = template_containers d /\
    status d' = status d /\
    d' = duplicated d t.
Proof.
  intros (m & s & tp & tm & o & ot & Hat)%read_deployment_inv Hsep.
  pose proof (deployment_at_separate _ _ _ _ _ _ _ _ _ Hat Hsep) as Hne.
  destruct (duplicate_deployment_config_exec _ _ _ _ _ _ _ _ _ t Hat)
    as (nb & h' & E & _ & _ & Hread).
  rewrite decide_False in Hread by done.
  exists nb, h', (duplicated d t). split; [done|]. split; [done|]. simpl.
  split; [done|]. split; [done|].
  split; [by rewrite lookup_insert_eq|]. split; [by rewrite lookup_insert_eq|].
  split; [|done]. intros k Hk. by rewrite !lookup_insert_ne.
Qed.

Lemma store_separate : separate_metadata Sample.store 7%positive.
Proof.
  intros m s st r sg t tm cs Hb Hs Ht.
  vm_compute in Hb. inversion Hb; subst.
  vm_compute in Hs. inversion Hs; subst.
  vm_compute in Ht. inversion Ht; subst. done.
Qed.

Lemma duplicate_deployment_config_spec_witness :
  exists newBody h' d',
    duplicate_deployment_config 7%positive "20191011134834" Sample.store
    = Returns newBody h' /\
    read_deployment h' newBody = Some d' /\
    name (metadata d') = "app-20191011134834" /\
    d' = duplicated (Sample.deployment "app-1" (Some 2%Z)) "20191011134834".
Proof.
  destruct (duplicate_deployment_config_spec Sample.store 7%positive
              (Sample.deployment "app-1" (Some 2%Z)) "20191011134834")
    as (nb & h' & d' & E & Hread & Hname & _ & _ & _ & _ & _ & _ & _ & _ & _ & _ & _ & _ & Hd').
  - vm_compute. reflexivity.
  - exact store_separate.
  - exists nb, h', d'. split; [exact E|]. split; [exact Hread|]. split; [exact Hname|exact Hd'].
Defined.

(** C8: [duplicate_deployment_config] does not change its input: on a
    deployment object [body] that stands for [d] it returns a new object,
    every object that was in the store is in it as it was, and [body] still
    stands for [d]: its name, its resource version and both its label maps
    are what they were. *)
Theorem duplicate_deployment_config_keeps_input h body d t :
  read_deployment h body = Some d ->
  exists newBody h',
    duplicate_deployment_config body t h = Returns newBody h' /\
    (newBody ∉ dom h) /\
    (forall l c, h !! l = Some c -> h' !! l = Some c) /\
    read_deployment h' body = Some d /\
    metadata_name body h' = Returns (name (metadata d)) h'.
Proof.
  intros Hread.
  destruct (read_deployment_inv _ _ _ Hread) as (m & s & tp & tm & o & ot & Hat).
  destruct (duplicate_deployment_config_exec _ _ _ _ _ _ _ _ _ t Hat)
    as (nb & h' & E & Hsub & Hnew & _).
  exists nb, h'. split; [done|]. split; [done|].
  split; [intros l c Hl; by eapply lookup_weaken|].
  assert (Hread' : read_deployment h' body = Some d) by by eapply read_deployment_weaken.
  split; [done|]. by apply metadata_name_eq.
Qed.

Lemma duplicate_deployment_config_keeps_input_witness :
  exists newBody h',
    duplicate_deployment_config 7%positive "20191011134834" Sample.store
    = Returns newBody h' /\
    read_deployment h' 7%positive = Some (Sample.deployment "app-1" (Some 2%Z)).
Proof.
  destruct (duplicate_deployment_config_keeps_input Sample.store 7%positive
              (Sample.deployment "app-1" (Some 2%Z)) "20191011134834")
    as (nb & h' & E & _ & _ & Hread & _).
  - vm_compute. reflexivity.
  - exists nb, h'. split; [exact E|exact Hread].
Defined.

(** C10: duplication keeps the base name: for every deployment object that
    stands for a resource [d] and every timestamp [t] of one or more digits,
    the duplicate stands for a resource whose name has the base name of the
    name of [d]. *)
Theorem duplicate_deployment_config_base_name h body d t :
  read_deployment h body = Some d ->
  t <> "" -> Naming.all_digits t = true ->
  exists newBody h' d',
    duplicate_deployment_config body t h = Returns newBody h' /\
    read_deployment h' newBody = Some d' /\
    Naming.getDeploymentBaseName (name (metadata d'))
    = Naming.getDeploymentBaseName (name (metadata d)).
Proof.
  intros (m & s & tp & tm & o & ot & Hat)%read_deployment_inv Hne Hdigits.
  destruct (duplicate_deployment_config_exec _ _ _ _ _ _ _ _ _ t Hat)
    as (nb & h' & E & _ & _ & Hread).
  eexists nb, h', _. split; [done|]. split; [exact Hread|].
  assert (Hname : forall b, Naming.getDeploymentBaseName (b +:+ "-" +:+ t) = b).
  { intros b. by apply getDeploymentBaseName_strip. }
  destruct (decide (m = tm)); simpl; apply Hname.
Qed.

Lemma duplicate_deployment_config_base_name_witness :
  exists newBody h' d',
    duplicate_deployment_config 7%positive "20191011134834" Sample.store
    = Returns newBody h' /\
    read_deployment h' newBody = Some d' /\
    Naming.getDeploymentBaseName (name (metadata d')) = "app".
Proof.
  destruct (duplicate_deployment_config_base_name Sample.store 7%positive
              (Sample.deployment "app-1" (Some 2%Z)) "20191011134834")
    as (nb & h' & d' & E & Hread & Hbase).
  - vm_compute. reflexivity.
  - discriminate.
  - reflexivity.
  - exists nb, h', d'. split; [exact E|]. split; [exact Hread|exact Hbase].
Defined.

(** ** The readiness watcher (C4) *)

Lemma watch_loop_not_ready {St} patience n stream i ev (s : St) :
  stream i = Some ev -> is_ready_event n ev = false ->
  watch_loop (S patience) n stream i s = watch_loop patience n stream (S i) s.
Proof.
  intros Hev Hnot. simpl. rewrite Hev. unfold is_ready_event in Hnot.
  destruct (String.eqb _ n); [|done]. simpl in Hnot. by rewrite Hnot.
Qed.

(** The wait returns the object of the first event that is about the
    awaited deployment and reports it ready, if patience lasts that long. *)
Lemma watch_loop_first_ready {St} patience n stream i k ev (s : St) :
  (forall j, i <= j < i + k -> exists e, stream j = Some e /\ is_ready_event n e = false) ->
  stream (i + k) = Some ev -> is_ready_event n ev = true ->
  k < patience ->
  watch_loop patience n stream i s = Returns (Some (ev_object ev)) s.
Proof.
  revert i patience. induction k as [|k IH]; intros i patience Hbefore Hev Hready Hk.
  - destruct patience as [|p]; [lia|]. simpl. rewrite Nat.add_0_r in Hev. rewrite Hev.
    unfold is_ready_event in Hready. apply andb_true_iff in Hready as [-> ->]. done.
  - destruct patience as [|p]; [lia|].
    destruct (Hbefore i) as (e & He & Hnot); [lia|].
    rewrite (watch_loop_not_ready _ _ _ _ _ _ He Hnot).
    apply IH; [|by replace (S i + k) with (i + S k) by lia|done|lia].
    intros j Hj. apply Hbefore. lia.
Qed.

(** When the stream ends before such an event, the wait returns [None]. *)
Lemma watch_loop_stream_ends {St} patience n stream i k (s : St) :
  (forall j, i <= j < i + k -> exists e, stream j = Some e /\ is_ready_event n e = false) ->
  stream (i + k) = None ->
  k < patience ->
  watch_loop patience n stream i s = Returns None s.
Proof.
  revert i patience. induction k as [|k IH]; intros i patience Hbefore Hend Hk.
  - destruct patience as [|p]; [lia|]. simpl. rewrite Nat.add_0_r in Hend. by rewrite Hend.
  - destruct patience as [|p]; [lia|].
    destruct (Hbefore i) as (e & He & Hnot); [lia|].
    rewrite (watch_loop_not_ready _ _ _ _ _ _ He Hnot).
    apply IH; [|by replace (S i + k) with (i + S k) by lia|lia].
    intros j Hj. apply Hbefore. lia.
Qed.

(** While the stream goes on without such an event, the wait goes on. *)
Lemma watch_loop_waits {St} patience n stream i (s : St) :
  (forall j, i <= j < i + patience ->
     exists e, stream j = Some e /\ is_ready_event n e = false) ->
  watch_loop patience n stream i s = Pending s.
Proof.
  revert i. induction patience as [|p IH]; intros i Hall; [done|].
  destruct (Hall i) as (e & He & Hnot); [lia|].
  rewrite (watch_loop_not_ready _ _ _ _ _ _ He Hnot).
  apply IH. intros j Hj. apply Hall. lia.
Qed.

Lemma watch_namespaced_deployment_eq E patience n ns w :
  watch_namespaced_deployment E patience n ns w
  = let a := watch_stream ns in
    if fault E (calls w ++ [a]) then Raises ApiException (logged a w)
    else
      match watch_loop patience n (feed E (calls w ++ [a])) 0 (logged a w) with
      | Returns r s' => Returns r (logged (watch_returned n r) s')
      | Raises e s' => Raises e s'
      | Pending s' => Pending s'
      end.
Proof.
  unfold watch_namespaced_deployment, Api.open_watch, bind.
  rewrite issue_run. cbv zeta. destruct (fault E _); [done|].
  unfold get_calls, ret. simpl.
  by destruct (watch_loop patience n _ 0 _).
Qed.

(** C4, where the code departs from it: the stream of [Sample.feed_closed]
    ends after one event that does not report the copy ready; with patience
    for two events or more the call returns, and returns [None].  (On
    [Sample.feed_ready] the same call returns the deployment of the first
    event that reports it ready, and on [Sample.feed_stuck] it never
    returns.) *)
Theorem watch_namespaced_deployment_returns_when_stream_ends patience :
  let w := Sample.world [Sample.deployment "app-20191011134834" None] [Sample.web] in
  watch_namespaced_deployment (Sample.env (Sample.feed_closed "app-20191011134834"))
    (S (S patience)) "app-20191011134834" "default" w
  = Returns None
      (logged (watch_returned "app-20191011134834" None)
              (logged (watch_stream "default") w)) /\
  watch_namespaced_deployment (Sample.env (Sample.feed_ready "app-20191011134834"))
    (S (S (S patience))) "app-20191011134834" "default" w
  = Returns (Some (Sample.deployment "app-20191011134834" (Some 2%Z)))
      (logged (watch_returned "app-20191011134834"
                 (Some (Sample.deployment "app-20191011134834" (Some 2%Z))))
              (logged (watch_stream "default") w)) /\
  watch_namespaced_deployment (Sample.env (Sample.feed_stuck "app-20191011134834"))
    patience "app-20191011134834" "default" w
  = Pending (logged (watch_stream "default") w).
Proof.
  intros w. rewrite !watch_namespaced_deployment_eq. cbv zeta. simpl fault. cbv iota.
  simpl feed.
  split; [|split].
  - rewrite (watch_loop_stream_ends (S (S patience)) _ _ 0 1); [done| |done|lia].
    intros j Hj. assert (j = 0) as -> by lia. eexists. split; [reflexivity|]. reflexivity.
  - rewrite (watch_loop_first_ready (S (S (S patience))) _ _ 0 2
               {| ev_type := "MODIFIED";
                  ev_object := Sample.deployment "app-20191011134834" (Some 2%Z) |});
      [done| |done|done|lia].
    intros j Hj. assert (j = 0 \/ j = 1) as [-> | ->] by lia;
      (eexists; split; [reflexivity|]; reflexivity).
  - rewrite watch_loop_waits; [done|].
    intros j Hj. eexists. split; [reflexivity|]. reflexivity.
Qed.

(** ** Reading the log of a rollout *)

Section Logs.
Context (ns ts : string).

Lemma created_dup_trace ds rs :
  length rs = length ds ->
  created (dup_trace ns ts ds rs) = map (fun d => duplicated d ts) ds.
Proof.
  revert rs. induction ds as [|d ds IH]; intros [|r rs] Hlen; try done.
  rewrite dup_trace_cons. simpl. f_equal. apply IH. by inversion Hlen.
Qed.

Lemma waited_dup_trace ds rs :
  length rs = length ds ->
  waited (dup_trace ns ts ds rs)
  = zip (map (fun d => name (metadata (duplicated d ts))) ds) rs.
Proof.
  revert rs. induction ds as [|d ds IH]; intros [|r rs] Hlen; try done.
  rewrite dup_trace_cons. simpl. f_equal. apply IH. by inversion Hlen.
Qed.

Lemma patched_names_dup_trace ds rs : patched_names (dup_trace ns ts ds rs) = [].
Proof.
  revert rs. induction ds as [|d ds IH]; intros [|r rs]; try done.
  rewrite dup_trace_cons. simpl. apply IH.
Qed.

Lemma deleted_names_dup_trace ds rs : deleted_names (dup_trace ns ts ds rs) = [].
Proof.
  revert rs. induction ds as [|d ds IH]; intros [|r rs]; try done.
  rewrite dup_trace_cons. simpl. apply IH.
Qed.

Lemma patched_names_patch_trace svcs bodies :
  length bodies = length svcs ->
  patched_names (patch_trace ns svcs bodies) = map (fun s => name (svc_metadata s)) svcs.
Proof.
  revert bodies. induction svcs as [|s svcs IH]; intros [|b bodies] Hlen; try done.
  rewrite patch_trace_cons. simpl. f_equal. apply IH. by inversion Hlen.
Qed.

Lemma created_patch_trace svcs bodies : created (patch_trace ns svcs bodies) = [].
Proof.
  revert bodies. induction svcs as [|s svcs IH]; intros [|b bodies]; try done.
  rewrite patch_trace_cons. simpl. apply IH.
Qed.

Lemma deleted_names_patch_trace svcs bodies : deleted_names (patch_trace ns svcs bodies) = [].
Proof.
  revert bodies. induction svcs as [|s svcs IH]; intros [|b bodies]; try done.
  rewrite patch_trace_cons. simpl. apply IH.
Qed.

Lemma waited_patch_trace svcs bodies : waited (patch_trace ns svcs bodies) = [].
Proof.
  revert bodies. induction svcs as [|s svcs IH]; intros [|b bodies]; try done.
  rewrite patch_trace_cons. simpl. apply IH.
Qed.

Lemma deleted_names_delete_trace ds : deleted_names (delete_trace ns ds) = names_of ds.
Proof. induction ds as [|d ds IH]; simpl; [done|]. f_equal. apply IH. Qed.

Lemma created_delete_trace ds : created (delete_trace ns ds) = [].
Proof. induction ds as [|d ds IH]; simpl; [done|]. apply IH. Qed.

End Logs.

(** ** The rollout orchestrator (C1, C5, C9) *)

Section Rollout.
Variable E : Env.
Variable M : Clock.controller_module.
Variable patience : nat.

(** With no deployment under the selector, the rollout stops at once. *)
Lemma trigger_smart_rollout_no_deployment sel ns cleanup w :
  let L0 := list_namespaced_deployment ns (label_selector sel) in
  fault E (calls w ++ [L0]) = false ->
  filter (fun d => Api.deployment_matches E ns (label_selector sel) d)
         (deployments (cluster w)) = [] ->
  exists w',
    trigger_smart_rollout E M patience sel ns cleanup w
    = Raises (K8sDeploymentNotFoundError (Msg.deployments_not_found sel ns)) w' /\
    calls w' = calls w ++ [L0] /\ cluster w' = cluster w.
Proof.
  intros L0 Hf Hnil.
  destruct (get_namespaced_deployments_run E sel ns w)
    as (w0 & Hcalls0 & Hcl0 & _ & Hcase0).
  fold L0 in Hcalls0, Hcase0.
  destruct Hcase0 as [[Hf' _]|[(_ & _ & E0)|(_ & Hne & _)]]; [congruence| |done].
  exists w0. split; [|done].
  unfold trigger_smart_rollout. cbv zeta. unfold bind at 1. by rewrite E0.
Qed.

(** With two deployments of one base name under the selector, the rollout
    stops at validation, naming the first one that repeats a base name. *)
Lemma trigger_smart_rollout_conflict sel ns cleanup w l1 a l2 b l3 :
  let L0 := list_namespaced_deployment ns (label_selector sel) in
  let ds := filter (fun d => Api.deployment_matches E ns (label_selector sel) d)
                   (deployments (cluster w)) in
  fault E (calls w ++ [L0]) = false ->
  names_of ds = l1 ++ a :: l2 ++ b :: l3 ->
  NoDup (map Naming.getDeploymentBaseName (l1 ++ a :: l2)) ->
  Naming.getDeploymentBaseName a = Naming.getDeploymentBaseName b ->
  exists w',
    trigger_smart_rollout E M patience sel ns cleanup w
    = Raises (K8sBasenameNotUniqueError
                (Msg.basename_not_unique b (Naming.getDeploymentBaseName b) a)) w' /\
    calls w' = calls w ++ [L0] /\ cluster w' = cluster w.
Proof.
  intros L0 ds Hf Hnames Hnd Hab.
  destruct (get_namespaced_deployments_run E sel ns w)
    as (w0 & Hcalls0 & Hcl0 & _ & Hcase0).
  fold L0 ds in Hcalls0, Hcase0.
  destruct Hcase0 as [[Hf' _]|[(_ & Hnil & _)|(_ & Hne & deps & Hdeps & E0)]];
    [congruence| |].
  { rewrite Hnil in Hnames. by destruct l1. }
  assert (Hreads0 : Forall2 (fun l d => read_deployment (objects w0) l = Some d) deps ds).
  { eapply Forall2_impl; [exact Hdeps|]. eauto using holds_read. }
  pose proof (check_deployments_conflict _ _ _ _ _ _ _ _ Hreads0 Hnames Hnd Hab) as Echeck.
  exists w0. split; [|done].
  unfold trigger_smart_rollout. cbv zeta. unfold bind at 1. rewrite E0.
  unfold bind at 1. rewrite (on_objects_Raises _ _ _ _ Echeck). by rewrite world_eta.
Qed.

End Rollout.

(** C5: [check_deployments] returns when the base names are all different;
    when two deployments share a base name it raises
    [K8sBasenameNotUniqueError] at the first deployment, in the order of the
    list, whose base name an earlier one has, naming both; and a
    [trigger_smart_rollout] that finds such deployments under the selector
    raises that error having made the list call only: no create, patch or
    delete call, and the cluster as it was. *)
Theorem check_deployments_first_duplicate :
  (forall h deps ds,
     Forall2 (fun l d => read_deployment h l = Some d) deps ds ->
     (NoDup (map Naming.getDeploymentBaseName (names_of ds)) ->
      check_deployments deps h = Returns tt h) /\
     (~ NoDup (map Naming.getDeploymentBaseName (names_of ds)) ->
      exists l1 a l2 b l3,
        names_of ds = l1 ++ a :: l2 ++ b :: l3 /\
        NoDup (map Naming.getDeploymentBaseName (l1 ++ a :: l2)) /\
        Naming.getDeploymentBaseName a = Naming.getDeploymentBaseName b /\
        check_deployments deps h
        = Raises (K8sBasenameNotUniqueError
                    (Msg.basename_not_unique b (Naming.getDeploymentBaseName b) a)) h)) /\
  (forall E M patience sel ns cleanup w,
     let L0 := list_namespaced_deployment ns (label_selector sel) in
     let ds := filter (fun d => Api.deployment_matches E ns (label_selector sel) d)
                      (deployments (cluster w)) in
     (fault E (calls w ++ [L0]) = false ->
      ~ NoDup (map Naming.getDeploymentBaseName (names_of ds)) ->
      exists msg w',
        trigger_smart_rollout E M patience sel ns cleanup w
        = Raises (K8sBasenameNotUniqueError msg) w' /\
        calls w' = calls w ++ [L0] /\ cluster w' = cluster w) /\
     (forall msg w',
        trigger_smart_rollout E M patience sel ns cleanup w
        = Raises (K8sBasenameNotUniqueError msg) w' ->
        calls w' = calls w ++ [L0] /\ is_mutation L0 = false /\ cluster w' = cluster w)).
Proof.
  split.
  - intros h deps ds Hreads. split.
    + by apply check_deployments_unique.
    + intros Hdup.
      destruct (first_duplicate _ _ Hdup) as (l1 & a & l2 & b & l3 & Hnames & Hnd & Hab).
      exists l1, a, l2, b, l3. split; [done|]. split; [done|]. split; [done|].
      by eapply check_deployments_conflict.
  - intros E M patience sel ns cleanup w L0 ds. split.
    + intros Hf Hdup.
      destruct (first_duplicate _ _ Hdup) as (l1 & a & l2 & b & l3 & Hnames & Hnd & Hab).
      destruct (trigger_smart_rollout_conflict E M patience sel ns cleanup w
                  l1 a l2 b l3 Hf Hnames Hnd Hab) as (w' & Hrun & Hcalls & Hcl).
      by eexists _, w'.
    + intros msg w' Hrun.
      destruct (trigger_smart_rollout_run E patience M sel ns cleanup w)
        as (_ & rs & bodies & tr & _ & _ & _ & Hcalls & _ & Hout).
      rewrite Hrun in Hcalls, Hout. simpl in Hcalls, Hout.
      destruct Hout as (-> & Hcl & _). done.
Qed.

Lemma check_deployments_first_duplicate_witness :
  let w := Sample.world [Sample.deployment "svc-20190101000000" (Some 2%Z);
                         Sample.deployment "svc-20190102000000" (Some 2%Z)]
                        [Sample.web] in
  exists msg w',
    trigger_smart_rollout (Sample.env (Sample.feed_ready "svc-20191011134834"))
      Sample.controller 5 "app=myapp" "default" true w
    = Raises (K8sBasenameNotUniqueError msg) w' /\
    calls w' = calls w ++ [list_namespaced_deployment "default" (label_selector "app=myapp")] /\
    cluster w' = cluster w.
Proof.
  intros w.
  apply (proj1 (proj2 check_deployments_first_duplicate
                  (Sample.env (Sample.feed_ready "svc-20191011134834"))
                  Sample.controller 5 "app=myapp" "default" true w)).
  - reflexivity.
  - intros Hnd. vm_compute in Hnd.
    apply NoDup_cons in Hnd as [Hnotin _]. apply Hnotin. apply elem_of_cons. by left.
Defined.

Lemma elem_of_without ns ds all d' :
  d' ∈ without ns ds all <->
  d' ∈ all /\ forall d, d ∈ ds -> Api.named ns (name (metadata d)) (metadata d') = false.
Proof.
  revert all. induction ds as [|d ds IH]; intros all.
  - simpl. split; [|by intros [? _]]. intros H. split; [done|]. intros d Hd.
    by apply elem_of_nil in Hd.
  - rewrite without_cons, IH, list_elem_of_filter. split.
    + intros [[Hn Hin] Hrest]. split; [done|]. intros d0 [->|Hd0]%elem_of_cons; [|by apply Hrest].
      by destruct (Api.named ns _ _).
    + intros [Hin Hall]. split; [split; [|done]|].
      * rewrite (Hall d); [done|]. apply elem_of_cons. by left.
      * intros d0 Hd0. apply Hall. apply elem_of_cons. by right.
Qed.

(** C9: in a run of [trigger_smart_rollout] that returns, the log is: what
    comes before the clean-up, in which every discovered deployment has been
    duplicated and every discovered service patched and nothing deleted;
    then, if [cleanup] is true, one delete call for each discovered
    deployment, by its name and in the order of discovery, after which none
    of them is in the cluster; if [cleanup] is false, no delete call at all,
    and the cluster has the deployments it had and the new ones. *)
Theorem trigger_smart_rollout_cleanup E M patience sel ns cleanup w w' :
  trigger_smart_rollout E M patience sel ns cleanup w = Returns tt w' ->
  let ts := Clock.getSimpleTimestamp M None in
  let ds := filter (fun d => Api.deployment_matches E ns (label_selector sel) d)
                   (deployments (cluster w)) in
  let svcs := filter (fun s => Api.service_matches E ns (label_selector sel) s)
                     (services (cluster w)) in
  let new := map (fun d => duplicated d ts) ds in
  exists before,
    calls w' = calls w ++ before ++ (if cleanup then delete_trace ns ds else []) /\
    created before = new /\
    patched_names before = map (fun s => name (svc_metadata s)) svcs /\
    deleted_names before = [] /\
    deleted_names (before ++ (if cleanup then delete_trace ns ds else []))
    = (if cleanup then names_of ds else []) /\
    (if cleanup
     then deployments (cluster w') = without ns ds (deployments (cluster w) ++ new) /\
          forall d, d ∈ ds -> d ∉ deployments (cluster w')
     else deployments (cluster w') = deployments (cluster w) ++ new /\
          (forall d, d ∈ deployments (cluster w) -> d ∈ deployments (cluster w')) /\
          (forall d, d ∈ ds -> duplicated d ts ∈ deployments (cluster w'))).
Proof.
  intros Hrun ts ds svcs new.
  destruct (trigger_smart_rollout_run E patience M sel ns cleanup w)
    as (_ & rs & bodies & tr & Hlen & Hlenb & _ & Hcalls & _ & Hout).
  rewrite Hrun in Hcalls, Hout. simpl in Hcalls, Hout. fold ts ds svcs in Hout, Hlen, Hlenb.
  destruct Hout as (-> & Hne & Hsne & _ & Hcluster). fold new in Hcluster.
  set (L0 := list_namespaced_deployment ns (label_selector sel)).
  set (LS := list_namespaced_service ns (label_selector sel)).
  set (before := L0 :: dup_trace ns ts ds rs ++ LS :: patch_trace ns svcs bodies).
  assert (Hcreated : created before = new).
  { unfold before, created. simpl. rewrite omap_app. simpl.
    fold (created (dup_trace ns ts ds rs)). fold (created (patch_trace ns svcs bodies)).
    rewrite created_dup_trace, created_patch_trace by done. by rewrite app_nil_r. }
  assert (Hpatched : patched_names before = map (fun s => name (svc_metadata s)) svcs).
  { unfold before, patched_names. simpl. rewrite omap_app. simpl.
    fold (patched_names (dup_trace ns ts ds rs)).
    fold (patched_names (patch_trace ns svcs bodies)).
    by rewrite patched_names_dup_trace, patched_names_patch_trace. }
  assert (Hdeleted : deleted_names before = []).
  { unfold before, deleted_names. simpl. rewrite omap_app. simpl.
    fold (deleted_names (dup_trace ns ts ds rs)).
    fold (deleted_names (patch_trace ns svcs bodies)).
    by rewrite deleted_names_dup_trace, deleted_names_patch_trace. }
  exists before. split.
  { rewrite Hcalls. unfold rollout_trace, before. f_equal. list_assoc. }
  split; [done|]. split; [done|]. split; [done|].
  split.
  { unfold deleted_names in *. rewrite omap_app, Hdeleted. simpl.
    destruct cleanup; [|done]. apply deleted_names_delete_trace. }
  destruct cleanup.
  - split; [done|]. intros d Hd Hin. rewrite Hcluster in Hin.
    apply elem_of_without in Hin as [_ Hall].
    specialize (Hall d Hd).
    apply list_elem_of_filter in Hd as [Hm _].
    unfold Api.deployment_matches, Api.matches in Hm.
    apply Is_true_true, andb_true_iff in Hm as [Hns _].
    unfold Api.named in Hall. rewrite Hns, String.eqb_refl in Hall. done.
  - split; [done|]. rewrite Hcluster. split.
    + intros d Hd. apply elem_of_app. by left.
    + intros d Hd. apply elem_of_app. right. unfold new.
      apply list_elem_of_fmap. by exists d.
Qed.

Lemma trigger_smart_rollout_cleanup_witness :
  let E := Sample.env (Sample.feed_ready "app-20191011134834") in
  let M := Sample.controller in
  let w := Sample.world [Sample.deployment "app-1" (Some 2%Z)] [Sample.web] in
  exists w' before,
    trigger_smart_rollout E M 5 "app=myapp" "default" true w = Returns tt w' /\
    calls w' = before ++ [delete_namespaced_deployment "default" "app-1"] /\
    patched_names before = ["web"] /\
    deleted_names before = [] /\
    forall d, d ∈ deployments (cluster w) -> d ∉ deployments (cluster w').
Proof.
  intros E M w.
  assert (Hrun : trigger_smart_rollout E M 5 "app=myapp" "default" true w
                 = Returns tt (final (trigger_smart_rollout E M 5 "app=myapp" "default" true w)))
    by (vm_compute; reflexivity).
  destruct (trigger_smart_rollout_cleanup E M 5 "app=myapp" "default" true w _ Hrun)
    as (before & Hcalls & _ & Hpatched & Hdeleted & _ & _ & Hgone).
  eexists _, before. split; [exact Hrun|]. split; [exact Hcalls|].
  split; [exact Hpatched|]. split; [exact Hdeleted|exact Hgone].
Defined.

(** ** Discovery (C1) *)

(** The messages of the two service lookups never coincide: a
    [K8sServiceNotFoundError] tells which lookup has raised it. *)
Lemma service_not_found_messages n ns sel ns' :
  Msg.service_not_found n ns <> Msg.services_not_found sel ns'.
Proof.
  intros Heq. apply (f_equal (String.get 22)) in Heq. vm_compute in Heq. discriminate Heq.
Qed.

(** The second loop on any cluster and any list of services: when it raises
    [K8sServiceNotFoundError], that is for the first service of the list
    that has no service of its name in the cluster, and the services before
    it have been patched. *)
Lemma patch_loop_not_found E ts ns svcs w msg w' :
  for_each svcs (fun svc =>
    (patch_namespaced_service E (name (svc_metadata svc)) ts ns ;;; ret tt)%prog) w
  = Raises (K8sServiceNotFoundError msg) w' ->
  exists before svc after_ bodies,
    svcs = before ++ svc :: after_ /\ length bodies = length before /\
    msg = Msg.service_not_found (name (svc_metadata svc)) ns /\
    ((ns, name (svc_metadata svc)) ∉ map service_key (services (cluster w))) /\
    calls w' = calls w ++ patch_trace ns before bodies
                 ++ [list_namespaced_service ns
                       (field_selector_name (name (svc_metadata svc)))].
Proof.
  revert w. induction svcs as [|svc svcs IH]; intros w Hrun.
  - discriminate Hrun.
  - rewrite for_each_cons in Hrun. cbv beta in Hrun. rewrite bind_ret_tt in Hrun.
    pose proof (patch_namespaced_service_run E (name (svc_metadata svc)) ts ns w) as Hstep.
    cbv zeta in Hstep.
    destruct (patch_namespaced_service E (name (svc_metadata svc)) ts ns w)
      as [body w1|e w1|w1]; simpl in Hstep.
    + destruct Hstep as (_ & _ & Hkeys & Hcalls & _).
      destruct (IH w1 Hrun) as (before & s & after_ & bodies & -> & Hlen & -> & Hnot & Hc).
      exists (svc :: before), s, after_, (body :: bodies).
      split; [done|]. split; [simpl; congruence|]. split; [done|].
      split; [by rewrite <- Hkeys|].
      rewrite Hc, Hcalls, patch_trace_cons. unfold patch_actions. list_assoc.
    + inversion Hrun; subst e w1.
      destruct Hstep as (_ & _ & _ & [[Hbad _]|(Hmsg & Hnot & Hc)]); [discriminate Hbad|].
      inversion Hmsg; subst msg.
      exists [], svc, svcs, []. by rewrite Hc.
    + discriminate Hrun.
Qed.

(** C1, as stated, fails: with a deployment but no service under the
    selector, [K8sServiceNotFoundError] is raised after the duplicate has
    been created and awaited. *)
Lemma trigger_smart_rollout_creates_before_services :
  let E := Sample.env (Sample.feed_ready "app-20191011134834") in
  let M := Sample.controller in
  let w := Sample.world [Sample.deployment "app-1" (Some 2%Z)] [] in
  exists w',
    trigger_smart_rollout E M 5 "app=myapp" "default" true w
    = Raises (K8sServiceNotFoundError
                (Msg.services_not_found "app=myapp" "default")) w' /\
    map is_mutation (calls w') = [false; true; false; false; false] /\
    names_of (created (calls w')) = ["app-20191011134834"] /\
    names_of (deployments (cluster w')) = ["app-1"; "app-20191011134834"].
Proof.
  intros E M w. eexists. split; [vm_compute; reflexivity|].
  split; [|split]; vm_compute; reflexivity.
Qed.

(** C1, amended: [trigger_smart_rollout] discovers the deployments before
    any call that changes the cluster: with none under the selector it raises
    [K8sDeploymentNotFoundError] having made the list call only.  The
    services are discovered after the first loop: when the discovery of the
    services raises [K8sServiceNotFoundError] (the error with the message of
    [get_namespaced_services]) there is no service under the selector, every
    discovered deployment has been duplicated, created and awaited, and no
    patch or delete call has been made.  The lookup by name in the second
    loop raises the same class of error with another message: on whatever
    cluster and list of services the loop runs, it does so for the first
    service of the list that is not in the cluster, after the services
    before it have been patched. *)
Theorem trigger_smart_rollout_discovery E M patience sel ns cleanup w :
  let ts := Clock.getSimpleTimestamp M None in
  let ds := filter (fun d => Api.deployment_matches E ns (label_selector sel) d)
                   (deployments (cluster w)) in
  let svcs := filter (fun s => Api.service_matches E ns (label_selector sel) s)
                     (services (cluster w)) in
  let L0 := list_namespaced_deployment ns (label_selector sel) in
  let LS := list_namespaced_service ns (label_selector sel) in
  let o := trigger_smart_rollout E M patience sel ns cleanup w in
  (fault E (calls w ++ [L0]) = false -> ds = [] ->
   exists w', o = Raises (K8sDeploymentNotFoundError (Msg.deployments_not_found sel ns)) w' /\
              calls w' = calls w ++ [L0] /\ cluster w' = cluster w) /\
  (forall msg w', o = Raises (K8sDeploymentNotFoundError msg) w' ->
     ds = [] /\ calls w' = calls w ++ [L0] /\ cluster w' = cluster w) /\
  (forall w', o = Raises (K8sServiceNotFoundError (Msg.services_not_found sel ns)) w' ->
     svcs = [] /\ ds <> [] /\
     exists rs,
       length rs = length ds /\
       calls w' = calls w ++ L0 :: dup_trace ns ts ds rs ++ [LS] /\
       created (L0 :: dup_trace ns ts ds rs ++ [LS]) = map (fun d => duplicated d ts) ds /\
       waited (L0 :: dup_trace ns ts ds rs ++ [LS])
       = zip (map (fun d => name (metadata (duplicated d ts))) ds) rs /\
       patched_names (L0 :: dup_trace ns ts ds rs ++ [LS]) = [] /\
       deleted_names (L0 :: dup_trace ns ts ds rs ++ [LS]) = [] /\
       deployments (cluster w')
       = deployments (cluster w) ++ map (fun d => duplicated d ts) ds) /\
  (forall found w2 msg w3,
     for_each found (fun svc =>
       (patch_namespaced_service E (name (svc_metadata svc)) ts ns ;;; ret tt)%prog) w2
     = Raises (K8sServiceNotFoundError msg) w3 ->
     msg <> Msg.services_not_found sel ns /\
     exists before svc after_ bodies,
       found = before ++ svc :: after_ /\ length bodies = length before /\
       msg = Msg.service_not_found (name (svc_metadata svc)) ns /\
       ((ns, name (svc_metadata svc)) ∉ map service_key (services (cluster w2))) /\
       calls w3 = calls w2 ++ patch_trace ns before bodies
                    ++ [list_namespaced_service ns
                          (field_selector_name (name (svc_metadata svc)))] /\
       patched_names (patch_trace ns before bodies)
       = map (fun s => name (svc_metadata s)) before).
Proof.
  intros ts ds svcs L0 LS o. split; [|split; [|split]].
  - intros Hf Hnil. by apply trigger_smart_rollout_no_deployment.
  - intros msg w' Hrun.
    destruct (trigger_smart_rollout_run E patience M sel ns cleanup w)
      as (_ & rs & bodies & tr & _ & _ & _ & Hcalls & _ & Hout).
    fold o in Hcalls, Hout. rewrite Hrun in Hcalls, Hout. simpl in Hcalls, Hout.
    destruct Hout as (_ & Hnil & -> & Hcl). done.
  - intros w' Hrun.
    destruct (trigger_smart_rollout_run E patience M sel ns cleanup w)
      as (_ & rs & bodies & tr & Hlen & _ & _ & Hcalls & _ & Hout).
    fold o in Hcalls, Hout. rewrite Hrun in Hcalls, Hout. simpl in Hcalls, Hout.
    destruct Hout as (_ & Hnil & Hne & -> & Hcl).
    split; [done|]. split; [done|]. exists rs. split; [done|]. split; [done|].
    fold ts ds in Hlen |- *.
    unfold created, waited, patched_names, deleted_names. simpl. rewrite !omap_app. simpl.
    fold (created (dup_trace ns ts ds rs)). fold (waited (dup_trace ns ts ds rs)).
    fold (patched_names (dup_trace ns ts ds rs)). fold (deleted_names (dup_trace ns ts ds rs)).
    rewrite created_dup_trace, waited_dup_trace by done.
    rewrite patched_names_dup_trace, deleted_names_dup_trace, !app_nil_r. done.
  - intros found w2 msg w3 Hrun.
    destruct (patch_loop_not_found E ts ns found w2 msg w3 Hrun)
      as (before & svc & after_ & bodies & Hfound & Hlen & Hmsg & Hnot & Hc).
    split; [rewrite Hmsg; apply service_not_found_messages|].
    exists before, svc, after_, bodies.
    split; [done|]. split; [done|]. split; [done|]. split; [done|]. split; [done|].
    by apply patched_names_patch_trace.
Qed.

Lemma trigger_smart_rollout_discovery_witness :
  let E := Sample.env (Sample.feed_ready "app-20191011134834") in
  let M := Sample.controller in
  (exists w',
     trigger_smart_rollout E M 5 "app=myapp" "default" true (Sample.world [] [Sample.web])
     = Raises (K8sDeploymentNotFoundError
                 (Msg.deployments_not_found "app=myapp" "default")) w' /\
     calls w' = [list_namespaced_deployment "default" (label_selector "app=myapp")]) /\
  (exists w',
     trigger_smart_rollout E M 5 "app=myapp" "default" true
       (Sample.world [Sample.deployment "app-1" (Some 2%Z)] [])
     = Raises (K8sServiceNotFoundError
                 (Msg.services_not_found "app=myapp" "default")) w' /\
     deployments (cluster w')
     = [Sample.deployment "app-1" (Some 2%Z);
        duplicated (Sample.deployment "app-1" (Some 2%Z)) "20191011134834"]) /\
  (exists w3,
     for_each [Sample.web; Sample.api] (fun svc =>
       (patch_namespaced_service E (name (svc_metadata svc))
          (Clock.getSimpleTimestamp M None) "default" ;;; ret tt)%prog)
       (Sample.world [] [Sample.web])
     = Raises (K8sServiceNotFoundError (Msg.service_not_found "api" "default")) w3 /\
     patched_names (calls w3) = ["web"] /\
     Msg.service_not_found "api" "default" <> Msg.services_not_found "app=myapp" "default").
Proof.
  intros E M. split; [|split].
  - destruct (proj1 (trigger_smart_rollout_discovery E M 5 "app=myapp" "default" true
                       (Sample.world [] [Sample.web])))
      as (w' & Hrun & Hcalls & _); [reflexivity|reflexivity|].
    exists w'. split; [exact Hrun|exact Hcalls].
  - set (w := Sample.world [Sample.deployment "app-1" (Some 2%Z)] []).
    assert (Hrun : trigger_smart_rollout E M 5 "app=myapp" "default" true w
                   = Raises (K8sServiceNotFoundError
                               (Msg.services_not_found "app=myapp" "default"))
                       (final (trigger_smart_rollout E M 5 "app=myapp" "default" true w)))
      by (vm_compute; reflexivity).
    destruct (proj1 (proj2 (proj2 (trigger_smart_rollout_discovery E M 5 "app=myapp"
                                     "default" true w)))
                _ Hrun) as (_ & _ & rs & _ & _ & _ & _ & _ & _ & Hcluster).
    eexists. split; [exact Hrun|]. rewrite Hcluster. vm_compute. reflexivity.
  - set (loop := for_each [Sample.web; Sample.api] (fun svc =>
       (patch_namespaced_service E (name (svc_metadata svc))
          (Clock.getSimpleTimestamp M None) "default" ;;; ret tt)%prog)).
    set (w2 := Sample.world [] [Sample.web]).
    assert (Hrun : loop w2
                   = Raises (K8sServiceNotFoundError (Msg.service_not_found "api" "default"))
                       (final (loop w2)))
      by (vm_compute; reflexivity).
    exists (final (loop w2)). split; [exact Hrun|]. split; [vm_compute; reflexivity|].
    exact (proj1 (proj2 (proj2 (proj2 (trigger_smart_rollout_discovery E M 5 "app=myapp"
                                         "default" true w2)))
                    _ _ _ _ Hrun)).
Defined.

(** ** Waiting and patience *)

Lemma omap_prefix {A B} (f : A -> option B) (l1 l2 : list A) :
  l1 `prefix_of` l2 -> omap f l1 `prefix_of` omap f l2.
Proof. intros [k ->]. rewrite omap_app. by eexists. Qed.

(** A patch call in a log that begins like [X ++ Y], with no patch call in
    [X], comes after the whole of [X]. *)
Lemma patch_after (X Y tr1 tr2 : list action) a :
  tr1 ++ a :: tr2 `prefix_of` X ++ Y ->
  patched_names X = [] -> is_patch a = true ->
  exists k, tr1 = X ++ k /\ k ++ a :: tr2 `prefix_of` Y.
Proof.
  revert tr1. induction X as [|x X IH]; intros tr1 Hpre HX Ha.
  - by exists tr1.
  - destruct tr1 as [|y tr1].
    + destruct Hpre as [k Hk]. simpl in Hk. inversion Hk; subst x.
      unfold patched_names in HX. simpl in HX. by destruct a.
    + destruct Hpre as [k Hk]. simpl in Hk. inversion Hk; subst y.
      destruct (IH tr1) as (k' & -> & Hk'); [by exists k| |done|].
      * unfold patched_names in *. simpl in HX. by destruct x.
      * by exists k'.
Qed.

(** In every run, when a patch call is made every discovered deployment has
    been duplicated and created, and the wait for each copy has returned. *)
Lemma trigger_smart_rollout_waits_before_patch E M patience sel ns cleanup w tr1 a tr2 :
  let ts := Clock.getSimpleTimestamp M None in
  let ds := filter (fun d => Api.deployment_matches E ns (label_selector sel) d)
                   (deployments (cluster w)) in
  calls (final (trigger_smart_rollout E M patience sel ns cleanup w))
  = calls w ++ tr1 ++ a :: tr2 ->
  is_patch a = true ->
  created tr1 = map (fun d => duplicated d ts) ds /\
  map fst (waited tr1) = map (fun d => name (metadata (duplicated d ts))) ds.
Proof.
  intros ts ds Hcalls Ha.
  destruct (trigger_smart_rollout_run E patience M sel ns cleanup w)
    as (_ & rs & bodies & tr & Hlen & Hlenb & _ & Hcalls' & Hpre & _).
  fold ts ds in Hlen, Hpre. rewrite Hcalls in Hcalls'.
  apply app_inv_head in Hcalls'. subst tr.
  set (L0 := list_namespaced_deployment ns (label_selector sel)) in *.
  set (LS := list_namespaced_service ns (label_selector sel)) in *.
  set (svcs := filter _ (services (cluster w))) in *.
  set (X := L0 :: dup_trace ns ts ds rs ++ [LS]).
  set (Y := patch_trace ns svcs bodies ++ (if cleanup then delete_trace ns ds else [])).
  assert (Hfull : rollout_trace sel ns ts cleanup ds rs svcs bodies = X ++ Y).
  { unfold rollout_trace, X, Y. fold L0 LS. list_assoc. }
  rewrite Hfull in Hpre.
  assert (HX : patched_names X = []).
  { unfold X, patched_names. simpl. rewrite omap_app. simpl.
    fold (patched_names (dup_trace ns ts ds rs)).
    by rewrite patched_names_dup_trace. }
  destruct (patch_after X Y tr1 tr2 a Hpre HX Ha) as (k & -> & Hk).
  assert (Hk' : k `prefix_of` Y) by (by eapply prefix_app_l).
  assert (Hck : created k = []).
  { apply prefix_nil_inv. replace [] with (created Y); [by apply omap_prefix|].
    unfold Y, created. rewrite omap_app.
    fold (created (patch_trace ns svcs bodies)). rewrite created_patch_trace.
    destruct cleanup; [|done]. apply created_delete_trace. }
  assert (Hwk : waited k = []).
  { apply prefix_nil_inv. replace [] with (waited Y); [by apply omap_prefix|].
    unfold Y, waited. rewrite omap_app.
    fold (waited (patch_trace ns svcs bodies)). rewrite waited_patch_trace.
    destruct cleanup; [|done]. simpl. clear. by induction ds. }
  unfold created, waited in *. rewrite !omap_app, Hck, Hwk, !app_nil_r.
  unfold X. simpl. rewrite !omap_app. simpl.
  fold (created (dup_trace ns ts ds rs)). fold (waited (dup_trace ns ts ds rs)).
  rewrite created_dup_trace, waited_dup_trace, !app_nil_r by done.
  split; [done|]. rewrite fst_zip; [done|]. rewrite length_map. lia.
Qed.

(** More patience does not change a call that has returned or raised. *)
Lemma settles_as_refl {S A} (o : outcome S A) : settles_as o o.
Proof. by destruct o. Qed.

Lemma settles_as_bind {S A B} (m m' : prog S A) (k k' : A -> prog S B) s :
  settles_as (m s) (m' s) ->
  (forall a s1, settles_as (k a s1) (k' a s1)) ->
  settles_as (bind m k s) (bind m' k' s).
Proof.
  intros Hm Hk. unfold bind. destruct (m s) as [a s1|e s1|s1]; simpl in Hm.
  - rewrite Hm. apply Hk.
  - by rewrite Hm.
  - done.
Qed.

Lemma settles_as_for_each {S A} (xs : list A) (body body' : A -> prog S unit) s :
  (forall x s1, settles_as (body x s1) (body' x s1)) ->
  settles_as (for_each xs body s) (for_each xs body' s).
Proof.
  intros Hbody. revert s. induction xs as [|x xs IH]; intros s; simpl.
  - done.
  - apply settles_as_bind; [apply Hbody|]. intros _ s1. apply IH.
Qed.

Lemma watch_loop_patience {St} p p' n stream i (s : St) :
  p <= p' -> settles_as (watch_loop p n stream i s) (watch_loop p' n stream i s).
Proof.
  revert p' i. induction p as [|p IH]; intros p' i Hle; [done|].
  destruct p' as [|p']; [lia|]. simpl.
  destruct (stream i) as [ev|]; [|done].
  destruct (String.eqb _ n); [|apply IH; lia].
  destruct (all_replicas_ready _); [done|apply IH; lia].
Qed.

Lemma duplicate_and_wait_patience E p p' ts ns dep w :
  p <= p' ->
  settles_as (duplicate_and_wait E p ts ns dep w) (duplicate_and_wait E p' ts ns dep w).
Proof.
  intros Hle. unfold duplicate_and_wait.
  apply settles_as_bind; [apply settles_as_refl|]. intros nb w1.
  apply settles_as_bind; [apply settles_as_refl|]. intros _ w2.
  apply settles_as_bind; [apply settles_as_refl|]. intros n w3.
  apply settles_as_bind; [|intros; apply settles_as_refl].
  unfold watch_namespaced_deployment.
  apply settles_as_bind; [apply settles_as_refl|]. intros stream w4.
  apply settles_as_bind; [by apply watch_loop_patience|].
  intros; apply settles_as_refl.
Qed.

(** A rollout that has returned or raised with some patience does the same
    with more. *)
Lemma trigger_smart_rollout_patience E M p p' sel ns cleanup w :
  p <= p' ->
  settles_as (trigger_smart_rollout E M p sel ns cleanup w)
             (trigger_smart_rollout E M p' sel ns cleanup w).
Proof.
  intros Hle. unfold trigger_smart_rollout. cbv zeta.
  apply settles_as_bind; [apply settles_as_refl|]. intros deps w1.
  apply settles_as_bind; [apply settles_as_refl|]. intros _ w2.
  apply settles_as_bind; [|intros; apply settles_as_refl].
  apply settles_as_for_each. intros dep w3. by apply duplicate_and_wait_patience.
Qed.

(** ** The version timestamp (C2) *)

(** Whatever the time of a call, the helper called without argument formats
    the time at which the module was loaded. *)
Lemma getSimpleTimestamp_default_is_import_time t1 t_import t3 :
  Clock.getSimpleTimestamp (Clock.import_controller t1 t_import t3) None
  = Clock.strftime_simple t_import.
Proof. reflexivity. Qed.

(** C2, where the code departs from it: the module is loaded at 13:48:34 and
    the calls are made when the clock reads 13:48:35; the copies made by
    [duplicate_deployment] and by [trigger_smart_rollout] are both named
    after 13:48:34, the time of loading. *)
Theorem version_timestamp_is_import_time :
  let E := Sample.env (Sample.feed_ready "app-20191011134834") in
  let M := Sample.controller in
  let w := Sample.world [Sample.deployment "app-1" (Some 2%Z)] [Sample.web] in
  Clock.strftime_simple (utcnow E (calls w)) = "20191011134835" /\
  Clock.getSimpleTimestamp M None = "20191011134834" /\
  (exists l w',
     duplicate_deployment E M "app-1" "default" w = Returns l w' /\
     names_of (created (calls w')) = ["app-20191011134834"]) /\
  (exists w',
     trigger_smart_rollout E M 5 "app=myapp" "default" true w = Returns tt w' /\
     names_of (created (calls w')) = ["app-20191011134834"] /\
     map (fun s => svc_selector s !! "patch") (services (cluster w'))
     = [Some "20191011134834"]).
Proof.
  intros E M w. split; [reflexivity|]. split; [reflexivity|]. split.
  - eexists _, _. split; [vm_compute; reflexivity|]. vm_compute. reflexivity.
  - eexists. split; [vm_compute; reflexivity|]. split; vm_compute; reflexivity.
Qed.

(** ** Cutover and readiness (C6) *)

(** C6, where the code departs from it: the watch stream ends before it has
    reported the copy ready; the wait returns [None], the rollout goes on,
    patches the service to select the copy and deletes the old deployment. *)
Theorem cutover_after_stream_ended :
  let E := Sample.env (Sample.feed_closed "app-20191011134834") in
  let M := Sample.controller in
  let w := Sample.world [Sample.deployment "app-1" (Some 2%Z)] [Sample.web] in
  exists w' body,
    trigger_smart_rollout E M 5 "app=myapp" "default" true w = Returns tt w' /\
    calls w' =
      [list_namespaced_deployment "default" (label_selector "app=myapp");
       api_create_namespaced_deployment "default"
         (duplicated (Sample.deployment "app-1" (Some 2%Z)) "20191011134834");
       watch_stream "default";
       watch_returned "app-20191011134834" None;
       list_namespaced_service "default" (label_selector "app=myapp");
       list_namespaced_service "default" (field_selector_name "web");
       api_patch_namespaced_service "default" "web" body;
       delete_namespaced_deployment "default" "app-1"] /\
    svc_selector body !! "patch" = Some "20191011134834" /\
    waited (calls w') = [("app-20191011134834", None)].
Proof.
  intros E M w. eexists _, _. split; [vm_compute; reflexivity|].
  split; [vm_compute; reflexivity|]. split; vm_compute; reflexivity.
Qed.

(** * Further properties of the code *)

(** ** Version timestamps *)

Section Timestamps.
Import Clock Naming.
Local Open Scope string_scope.

Lemma all_digits_app a b :
  all_digits a = true -> all_digits b = true -> all_digits (a ++ b) = true.
Proof.
  intros Ha Hb. induction a as [|c a IH]; [done|].
  rewrite string_app_cons. simpl in *. apply andb_prop in Ha as [-> Ha]. auto.
Qed.

Lemma string_app_inj (a a' b b' : string) :
  String.length a = String.length a' -> a ++ b = a' ++ b' -> a = a' /\ b = b'.
Proof.
  revert a'. induction a as [|c a IH]; intros [|c' a'] Hlen Heq; try done.
  rewrite !string_app_cons in Heq. inversion Heq; subst c'.
  destruct (IH a') as [-> ->]; [by inversion Hlen|done|done].
Qed.

Lemma field_ok_spec width n :
  field_ok width n = true ->
  String.length (zero_pad width n) = width /\ all_digits (zero_pad width n) = true /\
  decimal_value (zero_pad width n) = n.
Proof.
  unfold field_ok. intros [[H1 H2]%andb_prop H3]%andb_prop.
  apply Nat.eqb_eq in H1, H3. done.
Qed.

Lemma zero_pad_2 n : n < 100 -> field_ok 2 n = true.
Proof.
  intros Hn.
  assert (Hall : forallb (field_ok 2) (seq 0 100) = true) by (vm_compute; reflexivity).
  rewrite forallb_forall in Hall. apply Hall, in_seq. lia.
Qed.

Lemma zero_pad_4 n : (Z.of_nat n < 10000)%Z -> field_ok 4 n = true.
Proof.
  intros Hn.
  assert (Hall : forallb (field_ok 4) (seq 0 (Z.to_nat 10000)) = true)
    by (vm_compute; reflexivity).
  rewrite forallb_forall in Hall. apply Hall, in_seq. lia.
Qed.

(** The timestamp of a clock reading is fourteen digits. *)
Lemma strftime_simple_digits t :
  clock_reading t ->
  String.length (strftime_simple t) = 14 /\ all_digits (strftime_simple t) = true.
Proof.
  intros (Hy & Hmo & Hd & Hh & Hmi & Hs).
  destruct (field_ok_spec 4 (year t)) as (L1 & D1 & _); [apply zero_pad_4; lia|].
  destruct (field_ok_spec 2 (month t)) as (L2 & D2 & _); [apply zero_pad_2; lia|].
  destruct (field_ok_spec 2 (day t)) as (L3 & D3 & _); [apply zero_pad_2; lia|].
  destruct (field_ok_spec 2 (hour t)) as (L4 & D4 & _); [apply zero_pad_2; lia|].
  destruct (field_ok_spec 2 (minute t)) as (L5 & D5 & _); [apply zero_pad_2; lia|].
  destruct (field_ok_spec 2 (second t)) as (L6 & D6 & _); [apply zero_pad_2; lia|].
  unfold strftime_simple. split.
  - rewrite !string_app_length, L1, L2, L3, L4, L5, L6. reflexivity.
  - repeat (apply all_digits_app; [done|]). done.
Qed.

(** X1: for every reading of the clock, the version timestamp is a string of
    fourteen decimal digits; so a name made with it is one from which
    [getDeploymentBaseName] gives back the base name it was made from. *)
Theorem getSimpleTimestamp_round_trip M dtTimestamp baseName :
  clock_reading (default (getSimpleTimestamp_default M) dtTimestamp) ->
  let simpleTimestamp := getSimpleTimestamp M dtTimestamp in
  String.length simpleTimestamp = 14 /\ all_digits simpleTimestamp = true /\
  getDeploymentBaseName (versionedName baseName simpleTimestamp) = baseName.
Proof.
  intros Hclock ts. unfold ts, getSimpleTimestamp.
  destruct (strftime_simple_digits _ Hclock) as [Hlen Hdigits].
  split; [done|]. split; [done|].
  unfold versionedName. apply getDeploymentBaseName_strip; [|done].
  intros E. rewrite E in Hlen. discriminate.
Qed.

Lemma getSimpleTimestamp_round_trip_witness :
  getDeploymentBaseName
    (versionedName "my-app" (getSimpleTimestamp Sample.controller (Some Sample.t_call)))
  = "my-app".
Proof.
  apply (getSimpleTimestamp_round_trip Sample.controller (Some Sample.t_call) "my-app").
  unfold clock_reading. simpl. lia.
Defined.

(** X2: the version timestamp tells two readings of the clock apart to the
    second, and no further: two readings give the same timestamp exactly
    when they agree on year, month, day, hour, minute and second.  Readings
    in two different seconds give two different version names; readings
    within one second, whatever their microseconds, give the same one. *)
Theorem getSimpleTimestamp_to_the_second M t1 t2 :
  clock_reading t1 -> clock_reading t2 ->
  (getSimpleTimestamp M (Some t1) = getSimpleTimestamp M (Some t2) <->
   year t1 = year t2 /\ month t1 = month t2 /\ day t1 = day t2 /\
   hour t1 = hour t2 /\ minute t1 = minute t2 /\ second t1 = second t2).
Proof.
  intros (Hy1 & Hmo1 & Hd1 & Hh1 & Hmi1 & Hs1) (Hy2 & Hmo2 & Hd2 & Hh2 & Hmi2 & Hs2).
  unfold getSimpleTimestamp, strftime_simple. simpl. split.
  - intros Heq.
    destruct (field_ok_spec 4 (year t1)) as (L1 & _ & V1); [apply zero_pad_4; lia|].
    destruct (field_ok_spec 2 (month t1)) as (L2 & _ & V2); [apply zero_pad_2; lia|].
    destruct (field_ok_spec 2 (day t1)) as (L3 & _ & V3); [apply zero_pad_2; lia|].
    destruct (field_ok_spec 2 (hour t1)) as (L4 & _ & V4); [apply zero_pad_2; lia|].
    destruct (field_ok_spec 2 (minute t1)) as (L5 & _ & V5); [apply zero_pad_2; lia|].
    destruct (field_ok_spec 2 (second t1)) as (L6 & _ & V6); [apply zero_pad_2; lia|].
    destruct (field_ok_spec 4 (year t2)) as (L1' & _ & V1'); [apply zero_pad_4; lia|].
    destruct (field_ok_spec 2 (month t2)) as (L2' & _ & V2'); [apply zero_pad_2; lia|].
    destruct (field_ok_spec 2 (day t2)) as (L3' & _ & V3'); [apply zero_pad_2; lia|].
    destruct (field_ok_spec 2 (hour t2)) as (L4' & _ & V4'); [apply zero_pad_2; lia|].
    destruct (field_ok_spec 2 (minute t2)) as (L5' & _ & V5'); [apply zero_pad_2; lia|].
    destruct (field_ok_spec 2 (second t2)) as (L6' & _ & V6'); [apply zero_pad_2; lia|].
    apply string_app_inj in Heq as [E1 Heq]; [|congruence].
    apply string_app_inj in Heq as [E2 Heq]; [|congruence].
    apply string_app_inj in Heq as [E3 Heq]; [|congruence].
    apply string_app_inj in Heq as [E4 Heq]; [|congruence].
    apply string_app_inj in Heq as [E5 E6]; [|congruence].
    rewrite E1 in V1. rewrite E2 in V2. rewrite E3 in V3. rewrite E4 in V4.
    rewrite E5 in V5. rewrite E6 in V6.
    repeat split; congruence.
  - intros (-> & -> & -> & -> & -> & ->). reflexivity.
Qed.

Lemma getSimpleTimestamp_to_the_second_witness :
  getSimpleTimestamp Sample.controller (Some Sample.t_import)
  <> getSimpleTimestamp Sample.controller (Some Sample.t_call) /\
  (Sample.t_call <> Sample.t_call_later /\
   getSimpleTimestamp Sample.controller (Some Sample.t_call)
   = getSimpleTimestamp Sample.controller (Some Sample.t_call_later)).
Proof.
  split.
  - intros Heq.
    apply (getSimpleTimestamp_to_the_second Sample.controller) in Heq;
      [|unfold clock_reading; simpl; lia|unfold clock_reading; simpl; lia].
    destruct Heq as (_ & _ & _ & _ & _ & Hsec). discriminate Hsec.
  - split; [discriminate|].
    apply (getSimpleTimestamp_to_the_second Sample.controller);
      [unfold clock_reading; simpl; lia|unfold clock_reading; simpl; lia|].
    repeat split; reflexivity.
Defined.

End Timestamps.

(** ** The duplicate as a graph of objects *)

Section Duplicates.
Import Naming.

Lemma duplicated_duplicated d t1 t2 :
  t1 <> EmptyString -> all_digits t1 = true ->
  duplicated (duplicated d t1) t2 = duplicated d t2.
Proof.
  intros Hne Hdigits. unfold duplicated. simpl.
  rewrite !insert_insert_eq.
  change (getDeploymentBaseName (name (metadata d)) +:+ "-" +:+ t1)
    with (getDeploymentBaseName (name (metadata d)) +:+ String dash t1).
  by rewrite getDeploymentBaseName_strip.
Qed.

Lemma objects_of_at h body d m s t tm o ot :
  deployment_at h body d m s t tm o ot ->
  objects_of h body = [body; m; labels o; s; t; tm; labels ot].
Proof.
  intros [Hb [Hm _] _ Hs Ht [Htm _] _]. unfold objects_of.
  by rewrite Hb, Hm, Hs, Ht, Htm.
Qed.

(** X3: the duplicate shares no object with the deployment it was made
    from: the seven objects it is made of (the deployment, its metadata and
    spec, the pod template and its metadata, the two label dicts) are all new
    to the store, so whatever is done to the duplicate later leaves the
    original as it is. *)
Theorem duplicate_deployment_config_shares_nothing h body d t :
  read_deployment h body = Some d ->
  exists newBody h',
    duplicate_deployment_config body t h = Returns newBody h' /\
    length (objects_of h' newBody) = 7 /\
    (forall l, l ∈ objects_of h' newBody -> l ∉ dom h) /\
    (forall l, l ∈ objects_of h body -> l ∉ objects_of h' newBody).
Proof.
  intros (m & s & tp & tm & o & ot & Hat)%read_deployment_inv.
  destruct (duplicate_deployment_config_graph _ _ _ _ _ _ _ _ _ t Hat)
    as (nb & h' & E & Hsub & _ & nm & ns & nt & ntm & no & nto & Hat' & _ & Hfresh).
  exists nb, h'. split; [done|].
  rewrite (objects_of_at _ _ _ _ _ _ _ _ _ Hat'). split; [done|].
  rewrite Forall_forall in Hfresh. split; [exact Hfresh|].
  intros l Hl Hl'. apply Hfresh in Hl'. apply Hl'.
  rewrite (objects_of_at _ _ _ _ _ _ _ _ _ Hat) in Hl.
  destruct Hat as [Hb [Hm Hlm] _ Hs Ht [Htm Hltm] _].
  apply elem_of_dom.
  repeat (apply elem_of_cons in Hl as [->|Hl]; [eauto|]).
  by apply elem_of_nil in Hl.
Qed.

Lemma duplicate_deployment_config_shares_nothing_witness :
  exists newBody h',
    duplicate_deployment_config 7%positive "20191011134834" Sample.store
    = Returns newBody h' /\
    length (objects_of h' newBody) = 7 /\
    (forall l, l ∈ objects_of h' newBody -> l ∉ dom Sample.store) /\
    (forall l, l ∈ objects_of Sample.store 7%positive -> l ∉ objects_of h' newBody).
Proof.
  apply (duplicate_deployment_config_shares_nothing Sample.store 7%positive
           (Sample.deployment "app-1" (Some 2%Z)) "20191011134834").
  reflexivity.
Defined.

(** X4: duplicating a duplicate gives what duplicating the original gives:
    the name is the original's base name with the new timestamp, not the
    duplicate's name with a second suffix, and the [patch] labels are
    replaced; the original and the first duplicate stay as they are. *)
Theorem duplicate_deployment_config_twice h body d t1 t2 :
  read_deployment h body = Some d ->
  separate_metadata h body ->
  t1 <> EmptyString -> all_digits t1 = true ->
  exists copy1 h1 copy2 h2,
    duplicate_deployment_config body t1 h = Returns copy1 h1 /\
    duplicate_deployment_config copy1 t2 h1 = Returns copy2 h2 /\
    read_deployment h2 copy2 = Some (duplicated d t2) /\
    read_deployment h2 copy1 = Some (duplicated d t1) /\
    read_deployment h2 body = Some d.
Proof.
  intros Hread Hsep Hne Hdigits.
  pose proof Hread as (m & s & tp & tm & o & ot & Hat)%read_deployment_inv.
  pose proof (deployment_at_separate _ _ _ _ _ _ _ _ _ Hat Hsep) as Hmtm.
  destruct (duplicate_deployment_config_graph _ _ _ _ _ _ _ _ _ t1 Hat)
    as (c1 & h1 & E1 & Hsub1 & _ & nm & ns & nt & ntm & no & nto & Hat1 & Hiff & _).
  rewrite decide_False in Hat1 by done.
  assert (Hne1 : nm <> ntm) by (intros E; by apply Hmtm, Hiff).
  destruct (duplicate_deployment_config_graph _ _ _ _ _ _ _ _ _ t2 Hat1)
    as (c2 & h2 & E2 & Hsub2 & _ & nm2 & ns2 & nt2 & ntm2 & no2 & nto2 & Hat2 & _ & _).
  rewrite decide_False in Hat2 by done.
  rewrite duplicated_duplicated in Hat2 by done.
  exists c1, h1, c2, h2. split; [done|]. split; [done|].
  split; [by eapply read_deployment_at|].
  split.
  - eapply read_deployment_weaken; [|exact Hsub2]. by eapply read_deployment_at.
  - eapply read_deployment_weaken; [exact Hread|]. by etrans.
Qed.

Lemma duplicate_deployment_config_twice_witness :
  exists copy1 h1 copy2 h2,
    duplicate_deployment_config 7%positive "20191011134834" Sample.store = Returns copy1 h1 /\
    duplicate_deployment_config copy1 "20191011134835" h1 = Returns copy2 h2 /\
    read_deployment h2 copy2
    = Some (duplicated (Sample.deployment "app-1" (Some 2%Z)) "20191011134835") /\
    read_deployment h2 copy1
    = Some (duplicated (Sample.deployment "app-1" (Some 2%Z)) "20191011134834") /\
    read_deployment h2 7%positive = Some (Sample.deployment "app-1" (Some 2%Z)).
Proof.
  apply (duplicate_deployment_config_twice Sample.store 7%positive
           (Sample.deployment "app-1" (Some 2%Z)) "20191011134834" "20191011134835").
  - reflexivity.
  - exact store_separate.
  - discriminate.
  - reflexivity.
Defined.

(** X5: sharing inside the input is kept in the copy.  When the pod template
    of [body] has the metadata object of the deployment for its own, the
    duplicate has one metadata object for both too, so the new name and the
    empty resource version show in the pod template's metadata as well. *)
Theorem duplicate_deployment_config_shared_metadata h body d m s st r sg tp cs t :
  read_deployment h body = Some d ->
  h !! body = Some (V1Deployment m s st) ->
  h !! s = Some (V1DeploymentSpec r sg tp) ->
  h !! tp = Some (V1PodTemplateSpec m cs) ->
  exists newBody h' d',
    duplicate_deployment_config body t h = Returns newBody h' /\
    read_deployment h' newBody = Some d' /\
    template_metadata d' = metadata d' /\
    name (metadata d') = versionedName (getDeploymentBaseName (name (metadata d))) t /\
    resource_version (metadata d') = EmptyString /\
    labels (metadata d') = <["patch" := t]> (labels (metadata d)) /\
    read_deployment h' body = Some d.
Proof.
  intros Hread Hb Hs Htp.
  pose proof Hread as (m' & s' & tp' & tm' & o & ot & Hat)%read_deployment_inv.
  pose proof Hat as [Hb' _ _ Hs' Htp' _ _].
  rewrite Hb in Hb'. inversion Hb'; subst m' s'.
  rewrite Hs in Hs'. inversion Hs'; subst tp'.
  rewrite Htp in Htp'. inversion Htp'; subst tm'.
  destruct (duplicate_deployment_config_exec _ _ _ _ _ _ _ _ _ t Hat)
    as (nb & h' & E & Hsub & _ & Hread').
  rewrite decide_True in Hread' by done.
  exists nb, h', (duplicated_shared d t). split; [done|]. split; [done|].
  split; [done|]. split; [done|]. split; [done|]. split; [done|].
  by eapply read_deployment_weaken.
Qed.

Lemma duplicate_deployment_config_shared_metadata_witness :
  exists newBody h' d',
    duplicate_deployment_config 5%positive "20191011134834" Sample.shared_store
    = Returns newBody h' /\
    read_deployment h' newBody = Some d' /\
    name (template_metadata d') = "app-20191011134834"%string /\
    resource_version (template_metadata d') = EmptyString.
Proof.
  destruct (duplicate_deployment_config_shared_metadata Sample.shared_store 5%positive
              {| metadata := Sample.meta "app-1"; spec_replicas := Some 2%Z;
                 spec_strategy := "RollingUpdate";
                 template_metadata := Sample.meta "app-1";
                 template_containers := ["nginx:1.17"%string];
                 status := {| replicas := Some 2%Z; ready_replicas := Some 2%Z |} |}
              2%positive 4%positive {| replicas := Some 2%Z; ready_replicas := Some 2%Z |}
              (Some 2%Z) "RollingUpdate" 3%positive ["nginx:1.17"%string]
              "20191011134834" eq_refl eq_refl eq_refl eq_refl)
    as (nb & h' & d' & E & Hread & Hshared & Hname & Hrv & _).
  exists nb, h', d'. split; [exact E|]. split; [exact Hread|].
  rewrite Hshared. split; [exact Hname|exact Hrv].
Defined.

End Duplicates.

(** ** Looking resources up *)

(** The objects built from a response are new to the store and are as many
    objects as there are items. *)
Lemma new_deployments_new ds h :
  exists ls h',
    new_deployments ds h = Returns ls h' /\ h ⊆ h' /\
    Forall2 (holds h') ls ds /\ Forall (fun l => h !! l = None) ls /\ NoDup ls.
Proof.
  revert h. induction ds as [|d ds IH]; intros h; simpl.
  - exists [], h. repeat split; auto; constructor.
  - destruct (new_deployment_holds d h) as (l & h1 & E1 & Hsub1 & Hnew & Hl).
    rewrite (bind_Returns _ _ _ _ _ E1).
    destruct (IH h1) as (ls & h2 & E2 & Hsub2 & Hls & Hfresh & Hnd).
    rewrite (bind_Returns _ _ _ _ _ E2).
    exists (l :: ls), h2. split; [done|]. split; [by etrans|].
    split; [constructor; [by eapply holds_weaken|done]|].
    assert (Hl1 : is_Some (h1 !! l)).
    { destruct Hl as (m & s & t & tm & o & ot & [Hb _ _ _ _ _ _] & _). eauto. }
    split.
    + constructor; [done|]. eapply Forall_impl; [exact Hfresh|].
      intros l' Hl'. simpl in Hl'. eapply lookup_weaken_None; eauto.
    + constructor; [|done]. intros Hin.
      rewrite Forall_forall in Hfresh. apply Hfresh in Hin.
      rewrite Hin in Hl1. by destruct Hl1.
Qed.

Lemma filter_named_all {A} (f : A -> ObjectMeta (gmap string string)) ns n (l : list A) :
  Forall (fun x => name (f x) = n /\ namespace (f x) = ns)
         (filter (fun x => Api.named ns n (f x)) l).
Proof.
  apply Forall_forall. intros x [Hnamed _]%list_elem_of_filter.
  apply Is_true_true, andb_true_iff in Hnamed as [Hns Hn].
  by apply String.eqb_eq in Hns, Hn.
Qed.

Lemma get_namespaced_deployment_eq E n ns w :
  get_namespaced_deployment E n ns w
  = let a := list_namespaced_deployment ns (field_selector_name n) in
    if fault E (calls w ++ [a]) then Raises ApiException (logged a w)
    else
      match new_deployments
              (filter (fun d => Api.named ns n (metadata d)) (deployments (cluster w)))
              (objects w) with
      | Returns ls h' =>
          let w' := {| objects := h'; cluster := cluster w; calls := calls w ++ [a] |} in
          match ls with
          | [] => Raises (K8sDeploymentNotFoundError (Msg.deployment_not_found n ns)) w'
          | first :: _ => Returns first w'
          end
      | Raises e h' => Raises e {| objects := h'; cluster := cluster w; calls := calls w ++ [a] |}
      | Pending h' => Pending {| objects := h'; cluster := cluster w; calls := calls w ++ [a] |}
      end.
Proof.
  unfold get_namespaced_deployment, bind. rewrite list_deployments_run. simpl.
  destruct (fault E _); [done|]. unfold on_objects. simpl.
  change (filter (fun d => Api.deployment_matches E ns (field_selector_name n) d)
                 (deployments (cluster w)))
    with (filter (fun d => Api.named ns n (metadata d)) (deployments (cluster w))).
  destruct (new_deployments _ _) as [[|l ls] h'|e h'|h']; reflexivity.
Qed.

(** X6: [get_namespaced_deployment] makes one list call and leaves the
    cluster as it is.  If the call fails, it raises the [ApiException]; if
    no deployment of the namespace has the name, it raises
    [K8sDeploymentNotFoundError] with the name and the namespace in the
    message; otherwise it returns a new object that stands for the first
    deployment of that name. *)
Theorem get_namespaced_deployment_by_name E n ns w :
  let L := list_namespaced_deployment ns (field_selector_name n) in
  let found := filter (fun d => Api.named ns n (metadata d)) (deployments (cluster w)) in
  let o := get_namespaced_deployment E n ns w in
  calls (final o) = calls w ++ [L] /\ cluster (final o) = cluster w /\
  objects w ⊆ objects (final o) /\
  match o with
  | Returns dep w' =>
      fault E (calls w ++ [L]) = false /\
      exists d rest,
        found = d :: rest /\ read_deployment (objects w') dep = Some d /\
        name (metadata d) = n /\ namespace (metadata d) = ns /\
        objects w !! dep = None
  | Raises e w' =>
      if fault E (calls w ++ [L]) then e = ApiException
      else found = [] /\ e = K8sDeploymentNotFoundError (Msg.deployment_not_found n ns)
  | Pending _ => False
  end.
Proof.
  intros L found o. subst o. rewrite get_namespaced_deployment_eq. cbv zeta. fold L found.
  destruct (fault E (calls w ++ [L])) eqn:Hf; [done|].
  pose proof (filter_named_all metadata ns n (deployments (cluster w))) as Hall.
  fold found in Hall. clearbody found.
  destruct (new_deployments_new found (objects w))
    as (ls & h' & -> & Hsub & Hls & Hfresh & _).
  destruct Hls as [|l d ls ds Hl Hls]; simpl.
  - by repeat split.
  - split; [done|]. split; [done|]. split; [done|]. split; [done|].
    exists d, ds. split; [done|]. split; [by apply holds_read|].
    inversion Hall as [|? ? [Hn Hns] _]; subst.
    split; [done|]. split; [done|]. by inversion Hfresh.
Qed.

(** X7: [get_namespaced_deployments] makes one list call and leaves the
    cluster as it is.  It never returns an empty list: when nothing matches
    the selector it raises [K8sDeploymentNotFoundError]; otherwise it returns
    one new object for each matching deployment, in the order of the
    response, no object twice. *)
Theorem get_namespaced_deployments_by_selector E sel ns w :
  let L := list_namespaced_deployment ns (label_selector sel) in
  let found := filter (fun d => Api.deployment_matches E ns (label_selector sel) d)
                      (deployments (cluster w)) in
  let o := get_namespaced_deployments E sel ns w in
  calls (final o) = calls w ++ [L] /\ cluster (final o) = cluster w /\
  objects w ⊆ objects (final o) /\
  match o with
  | Returns deps w' =>
      fault E (calls w ++ [L]) = false /\ deps <> [] /\
      Forall2 (fun dep d => read_deployment (objects w') dep = Some d) deps found /\
      Forall (fun dep => objects w !! dep = None) deps /\ NoDup deps
  | Raises e w' =>
      if fault E (calls w ++ [L]) then e = ApiException
      else found = [] /\ e = K8sDeploymentNotFoundError (Msg.deployments_not_found sel ns)
  | Pending _ => False
  end.
Proof.
  intros L found o. subst o. rewrite get_namespaced_deployments_eq. cbv zeta. fold L found.
  destruct (fault E (calls w ++ [L])) eqn:Hf; [done|]. clearbody found.
  destruct (new_deployments_new found (objects w))
    as (ls & h' & -> & Hsub & Hls & Hfresh & Hnd).
  destruct Hls as [|l d ls ds Hl Hls]; simpl.
  - by repeat split.
  - split; [done|]. split; [done|]. split; [done|]. split; [done|]. split; [done|].
    split; [|done]. constructor; [by apply holds_read|].
    eapply Forall2_impl; [exact Hls|]. eauto using holds_read.
Qed.

(** X8: the two service lookups make one list call each and change
    nothing.  [get_namespaced_service] raises [K8sServiceNotFoundError]
    exactly when no service of the namespace has the name, and otherwise
    returns the first one that has; [get_namespaced_services] raises it
    exactly when no service matches the selector, and otherwise returns all
    that match: never an empty list.  A list call that fails is re-raised. *)
Theorem get_namespaced_service_lookups E ns w :
  (forall n,
     let L := list_namespaced_service ns (field_selector_name n) in
     let found := filter (fun s => Api.named ns n (svc_metadata s)) (services (cluster w)) in
     let o := get_namespaced_service E n ns w in
     final o = logged L w /\
     match o with
     | Returns svc _ =>
         fault E (calls w ++ [L]) = false /\ (exists rest, found = svc :: rest) /\
         svc ∈ services (cluster w) /\
         name (svc_metadata svc) = n /\ namespace (svc_metadata svc) = ns
     | Raises e _ =>
         if fault E (calls w ++ [L]) then e = ApiException
         else found = [] /\ e = K8sServiceNotFoundError (Msg.service_not_found n ns)
     | Pending _ => False
     end) /\
  (forall sel,
     let L := list_namespaced_service ns (label_selector sel) in
     let found := filter (fun s => Api.service_matches E ns (label_selector sel) s)
                         (services (cluster w)) in
     let o := get_namespaced_services E sel ns w in
     final o = logged L w /\
     match o with
     | Returns svcs _ => fault E (calls w ++ [L]) = false /\ svcs = found /\ svcs <> []
     | Raises e _ =>
         if fault E (calls w ++ [L]) then e = ApiException
         else found = [] /\ e = K8sServiceNotFoundError (Msg.services_not_found sel ns)
     | Pending _ => False
     end).
Proof.
  split.
  - intros n L found o. subst o. unfold get_namespaced_service, bind.
    rewrite list_services_run. cbv zeta. fold L.
    destruct (fault E (calls w ++ [L])); [done|].
    change (filter (fun s => Api.service_matches E ns (field_selector_name n) s)
                   (services (cluster w))) with found.
    pose proof (filter_named_all svc_metadata ns n (services (cluster w))) as Hall.
    fold found in Hall.
    assert (Hsub : forall s, s ∈ found -> s ∈ services (cluster w)).
    { intros s Hs. by apply list_elem_of_filter in Hs as [_ Hs]. }
    clearbody found. destruct found as [|first rest]; [done|]. simpl.
    split; [done|]. split; [done|]. split; [by exists rest|].
    split; [apply Hsub, elem_of_cons; by left|].
    by inversion Hall as [|? ? [Hn Hns] _].
  - intros sel L found o. subst o. unfold get_namespaced_services, bind.
    rewrite list_services_run. cbv zeta. fold L.
    destruct (fault E (calls w ++ [L])); [done|]. fold found. by destruct found.
Qed.

(** ** Cutting a service over *)

Lemma patched_body_eq (svc : Service) ts :
  svc_selector svc !! "patch" = Some ts ->
  {| svc_metadata := svc_metadata svc;
     svc_selector := <["patch" := ts]> (svc_selector svc);
     svc_ports := svc_ports svc |} = svc.
Proof. intros Hsel. destruct svc. simpl in *. f_equal. by apply insert_id. Qed.

(** X9: [patch_namespaced_service] looks the service up by name and sends it
    back with [patch] set to the timestamp in its selector: every other key
    of the selector, the ports and the metadata are as they were found.  The
    other services and all deployments stay as they are.  When no service of
    the namespace has the name it raises [K8sServiceNotFoundError] and no
    patch call is made. *)
Theorem patch_namespaced_service_frame E n ts ns w :
  let L := list_namespaced_service ns (field_selector_name n) in
  let o := patch_namespaced_service E n ts ns w in
  objects (final o) = objects w /\
  deployments (cluster (final o)) = deployments (cluster w) /\
  match o with
  | Returns body w' =>
      exists svc,
        svc ∈ services (cluster w) /\
        name (svc_metadata svc) = n /\ namespace (svc_metadata svc) = ns /\
        svc_metadata body = svc_metadata svc /\ svc_ports body = svc_ports svc /\
        svc_selector body !! "patch" = Some ts /\
        (forall k, k <> "patch"%string -> svc_selector body !! k = svc_selector svc !! k) /\
        calls w' = calls w ++ [L; api_patch_namespaced_service ns n body] /\
        services (cluster w')
        = map (fun s => if Api.named ns n (svc_metadata s) then body else s)
              (services (cluster w))
  | Raises (K8sServiceNotFoundError msg) w' =>
      msg = Msg.service_not_found n ns /\
      (forall s, s ∈ services (cluster w) -> Api.named ns n (svc_metadata s) = false) /\
      calls w' = calls w ++ [L] /\ cluster w' = cluster w
  | Raises e w' => e = ApiException /\ cluster w' = cluster w
  | Pending _ => False
  end.
Proof.
  intros L o. subst o. rewrite patch_namespaced_service_eq. cbv zeta. fold L.
  destruct (fault E (calls w ++ [L])); [done|].
  pose proof (filter_named_all svc_metadata ns n (services (cluster w))) as Hall.
  change (filter (fun s => Api.service_matches E ns (field_selector_name n) s)
                 (services (cluster w)))
    with (filter (fun s => Api.named ns n (svc_metadata s)) (services (cluster w))).
  destruct (filter _ (services (cluster w))) as [|first rest] eqn:Hfound.
  { simpl. split; [done|]. split; [done|]. split; [done|]. split; [|done].
    intros s Hs. destruct (Api.named ns n (svc_metadata s)) eqn:Hn; [|done].
    assert (Hin : s ∈ filter (fun s => Api.named ns n (svc_metadata s))
                            (services (cluster w))).
    { apply list_elem_of_filter. split; [by rewrite Hn|done]. }
    rewrite Hfound in Hin. by apply elem_of_nil in Hin. }
  destruct (fault E _); [done|].
  destruct (existsb _ _); [|done]. simpl.
  split; [done|]. split; [done|]. exists first.
  assert (Hin : first ∈ filter (fun s => Api.named ns n (svc_metadata s))
                              (services (cluster w))).
  { rewrite Hfound. apply elem_of_cons. by left. }
  apply list_elem_of_filter in Hin as [_ Hin].
  inversion Hall as [|? ? [Hn Hns] _]; subst.
  split; [done|]. split; [done|]. split; [done|]. split; [done|]. split; [done|].
  split; [by rewrite lookup_insert_eq|].
  split; [intros k Hk; by rewrite lookup_insert_ne|].
  split; [by rewrite <- app_assoc|done].
Qed.

Lemma filter_named_patched ns n body (svcs : list Service) :
  Api.named ns n (svc_metadata body) = true ->
  filter (fun s => Api.named ns n (svc_metadata s))
         (map (fun s => if Api.named ns n (svc_metadata s) then body else s) svcs)
  = map (fun _ => body) (filter (fun s => Api.named ns n (svc_metadata s)) svcs).
Proof.
  intros Hbody. induction svcs as [|s svcs IH]; [done|]. simpl.
  destruct (Api.named ns n (svc_metadata s)) eqn:Hs.
  - rewrite filter_cons_True by (by rewrite Hbody).
    rewrite filter_cons_True by (by rewrite Hs). simpl. by rewrite IH.
  - rewrite filter_cons_False by (rewrite Hs; exact id).
    rewrite filter_cons_False by (rewrite Hs; exact id). done.
Qed.

Lemma map_patched_twice ns n body (svcs : list Service) :
  Api.named ns n (svc_metadata body) = true ->
  map (fun s => if Api.named ns n (svc_metadata s) then body else s)
      (map (fun s => if Api.named ns n (svc_metadata s) then body else s) svcs)
  = map (fun s => if Api.named ns n (svc_metadata s) then body else s) svcs.
Proof.
  intros Hbody. induction svcs as [|s svcs IH]; [done|]. simpl. rewrite IH. f_equal.
  destruct (Api.named ns n (svc_metadata s)) eqn:Hs; [by rewrite Hbody|by rewrite Hs].
Qed.

Lemma existsb_named_patched ns n body (svcs : list Service) :
  Api.named ns n (svc_metadata body) = true ->
  existsb (fun s => Api.named ns n (svc_metadata s))
          (map (fun s => if Api.named ns n (svc_metadata s) then body else s) svcs)
  = existsb (fun s => Api.named ns n (svc_metadata s)) svcs.
Proof.
  intros Hbody. induction svcs as [|s svcs IH]; [done|]. simpl. rewrite IH. f_equal.
  destruct (Api.named ns n (svc_metadata s)) eqn:Hs; [by rewrite Hbody|by rewrite Hs].
Qed.

(** X10: cutting a service over twice to one timestamp is cutting it over
    once: the second call sends the same body and leaves the cluster as the
    first call left it. *)
Theorem patch_namespaced_service_twice E n ts ns w body w1 :
  patch_namespaced_service E n ts ns w = Returns body w1 ->
  let L := list_namespaced_service ns (field_selector_name n) in
  let P := api_patch_namespaced_service ns n body in
  fault E (calls w1 ++ [L]) = false ->
  fault E ((calls w1 ++ [L]) ++ [P]) = false ->
  exists w2,
    patch_namespaced_service E n ts ns w1 = Returns body w2 /\
    cluster w2 = cluster w1 /\ calls w2 = calls w1 ++ [L; P].
Proof.
  intros Hrun L P Hf1 Hf2.
  rewrite patch_namespaced_service_eq in Hrun. cbv zeta in Hrun. fold L in Hrun.
  destruct (fault E (calls w ++ [L])); [done|].
  change (filter (fun s => Api.service_matches E ns (field_selector_name n) s)
                 (services (cluster w)))
    with (filter (fun s => Api.named ns n (svc_metadata s)) (services (cluster w))) in Hrun.
  pose proof (filter_named_all svc_metadata ns n (services (cluster w))) as Hall.
  destruct (filter _ (services (cluster w))) as [|first rest] eqn:Hfound; [done|].
  destruct (fault E _); [done|].
  destruct (existsb _ (services (cluster w))) eqn:Hex; [|done].
  inversion Hrun as [[Hbody Hw1]]. clear Hrun.
  set (b := {| svc_metadata := svc_metadata first;
               svc_selector := <["patch" := ts]> (svc_selector first);
               svc_ports := svc_ports first |}) in *.
  assert (Hnamed : Api.named ns n (svc_metadata b) = true).
  { inversion Hall as [|? ? [Hn Hns] _]; subst. unfold Api.named. simpl.
    by rewrite !String.eqb_refl. }
  assert (Hb : {| svc_metadata := svc_metadata b;
                  svc_selector := <["patch" := ts]> (svc_selector b);
                  svc_ports := svc_ports b |} = b).
  { apply patched_body_eq. unfold b. simpl. by rewrite lookup_insert_eq. }
  rewrite patch_namespaced_service_eq. cbv zeta. fold L.
  subst body w1. simpl calls in *. simpl cluster. simpl services. rewrite Hf1.
  change (filter (fun s => Api.service_matches E ns (field_selector_name n) s) ?l)
    with (filter (fun s => Api.named ns n (svc_metadata s)) l).
  rewrite filter_named_patched by done. rewrite Hfound. simpl map. cbv beta iota.
  rewrite Hb. subst P. rewrite Hf2.
  rewrite existsb_named_patched by done. rewrite Hex.
  eexists. split; [reflexivity|]. simpl.
  rewrite map_patched_twice by done. split; [done|]. by rewrite <- app_assoc.
Qed.

Lemma patch_namespaced_service_twice_witness :
  let E := Sample.env (Sample.feed_closed "app-1") in
  let w := Sample.world [Sample.deployment "app-1" (Some 2%Z)] [Sample.web] in
  exists body w1 w2,
    patch_namespaced_service E "web" "20191011134834" "default" w = Returns body w1 /\
    patch_namespaced_service E "web" "20191011134834" "default" w1 = Returns body w2 /\
    cluster w2 = cluster w1.
Proof.
  intros E w.
  assert (Hrun : patch_namespaced_service E "web" "20191011134834" "default" w
                 = Returns {| svc_metadata := Sample.meta "web";
                              svc_selector := <["patch" := "20191011134834"%string]>
                                                (svc_selector Sample.web);
                              svc_ports := [80%Z] |}
                     (final (patch_namespaced_service E "web" "20191011134834" "default" w)))
    by (vm_compute; reflexivity).
  destruct (patch_namespaced_service_twice E "web" "20191011134834" "default" w _ _ Hrun
              eq_refl eq_refl) as (w2 & Hrun2 & Hcl & _).
  eexists _, _, w2. split; [exact Hrun|]. split; [exact Hrun2|exact Hcl].
Defined.

(** ** Waiting for readiness *)

(** X11: on any stream, [watch_namespaced_deployment] returns the object of
    the first event that is about the awaited deployment and reports all its
    replicas ready; the events before it, about other deployments or about
    this one while it is not ready, are passed over. *)
Theorem watch_namespaced_deployment_first_ready E patience n ns w k ev :
  let a := watch_stream ns in
  let stream := feed E (calls w ++ [a]) in
  fault E (calls w ++ [a]) = false ->
  (forall j, j < k -> exists e, stream j = Some e /\ is_ready_event n e = false) ->
  stream k = Some ev -> is_ready_event n ev = true ->
  k < patience ->
  watch_namespaced_deployment E patience n ns w
  = Returns (Some (ev_object ev))
      (logged (watch_returned n (Some (ev_object ev))) (logged a w)).
Proof.
  intros a stream Hf Hbefore Hev Hready Hk.
  rewrite watch_namespaced_deployment_eq. cbv zeta. fold a. rewrite Hf. fold stream.
  rewrite (watch_loop_first_ready patience n stream 0 k ev); [done| |done|done|done].
  intros j Hj. apply Hbefore. lia.
Qed.

Lemma watch_namespaced_deployment_first_ready_witness :
  let w := Sample.world [Sample.deployment "app-1" (Some 2%Z)] [Sample.web] in
  watch_namespaced_deployment (Sample.env (Sample.feed_ready "app-1")) 9 "app-1" "default" w
  = Returns (Some (Sample.deployment "app-1" (Some 2%Z)))
      (logged (watch_returned "app-1" (Some (Sample.deployment "app-1" (Some 2%Z))))
              (logged (watch_stream "default") w)).
Proof.
  intros w.
  apply (watch_namespaced_deployment_first_ready
           (Sample.env (Sample.feed_ready "app-1")) 9 "app-1" "default" w 2
           {| ev_type := "MODIFIED"; ev_object := Sample.deployment "app-1" (Some 2%Z) |}).
  - reflexivity.
  - intros j Hj. destruct j as [|[|j]]; [| |lia]; eexists; split; reflexivity.
  - reflexivity.
  - reflexivity.
  - lia.
Defined.

(** X12: [watch_namespaced_deployment] only looks: however it ends, the
    cluster and the objects of the process are as they were, and the one call
    it has made is the opening of the watch stream.  It raises nothing but
    the [ApiException] of that call; a deployment it returns has the awaited
    name, and both its replica counts are present with no fewer replicas
    ready than wanted. *)
Theorem watch_namespaced_deployment_only_looks E patience n ns w :
  let a := watch_stream ns in
  let o := watch_namespaced_deployment E patience n ns w in
  cluster (final o) = cluster w /\ objects (final o) = objects w /\
  match o with
  | Returns r w' =>
      calls w' = calls w ++ [a; watch_returned n r] /\
      match r with
      | Some d =>
          name (metadata d) = n /\
          exists ready wanted,
            ready_replicas (status d) = Some ready /\ replicas (status d) = Some wanted /\
            (wanted <= ready)%Z
      | None => True
      end
  | Raises e w' => e = ApiException /\ calls w' = calls w ++ [a]
  | Pending w' => calls w' = calls w ++ [a]
  end.
Proof.
  intros a o. subst o.
  destruct (watch_namespaced_deployment_run E patience n ns w)
    as [[_ ->]|[[_ ->]|[_ (r & Hok & ->)]]]; simpl; try done.
  split; [done|]. split; [done|]. split; [by rewrite <- app_assoc|].
  destruct r as [d|]; [|done]. destruct Hok as [Hn Hready]. split; [done|].
  unfold all_replicas_ready in Hready.
  destruct (ready_replicas (status d)) as [ready|]; [|done].
  destruct (replicas (status d)) as [wanted|]; [|done].
  exists ready, wanted. split; [done|]. split; [done|]. by apply Z.leb_le.
Qed.

(** ** Duplicating one deployment *)

(** The second half of [duplicate_deployment], on the object found. *)
Lemma duplicate_and_create_run E ts ns dep d w :
  holds (objects w) dep d -> namespace (metadata d) = ns ->
  let C := api_create_namespaced_deployment ns (duplicated d ts) in
  let o := (dep_copy <- on_objects (duplicate_deployment_config dep ts) ;;
            create_namespaced_deployment E dep_copy ns)%prog w in
  if fault E (calls w ++ [C])
     || existsb (fun d' => Api.named ns (name (metadata (duplicated d ts))) (metadata d'))
                (deployments (cluster w))
  then exists w',
         o = Raises ApiException w' /\ calls w' = calls w ++ [C] /\ cluster w' = cluster w
  else exists l w',
         o = Returns l w' /\
         read_deployment (objects w') l = Some (duplicated d ts) /\
         calls w' = calls w ++ [C] /\
         cluster w' = {| deployments := deployments (cluster w) ++ [duplicated d ts];
                         services := services (cluster w) |}.
Proof.
  intros Hl Hns C o.
  destruct (duplicate_deployment_config_holds _ _ _ ts Hl)
    as (nb & h1 & Edup & Hsub1 & _ & Hread).
  set (w1 := {| objects := h1; cluster := cluster w; calls := calls w |}).
  assert (Ho : o = create_namespaced_deployment E nb ns w1).
  { unfold o, bind. by rewrite (on_objects_Returns _ w _ _ Edup). }
  rewrite (create_namespaced_deployment_eq E nb ns _ w1 Hread) in Ho.
  cbv zeta in Ho. simpl calls in Ho. simpl cluster in Ho. simpl objects in Ho.
  change (namespace (metadata (duplicated d ts))) with (namespace (metadata d)) in Ho.
  change (resource_version (metadata (duplicated d ts))) with EmptyString in Ho.
  rewrite Hns, !String.eqb_refl in Ho. simpl negb in Ho. rewrite orb_false_l in Ho.
  fold C in Ho. clearbody o.
  destruct (fault E (calls w ++ [C])); simpl orb.
  { eexists. split; [exact Ho|]. by split. }
  destruct (existsb _ _).
  { eexists. split; [exact Ho|]. by split. }
  destruct (new_deployment_holds (duplicated d ts) h1) as (l' & h2 & Enew & _ & _ & Hl').
  rewrite Enew in Ho.
  eexists _, _. split; [exact Ho|]. simpl. split; [by apply holds_read|]. by split.
Qed.

Lemma duplicate_deployment_eq E M n ns w :
  duplicate_deployment E M n ns w
  = let a := list_namespaced_deployment ns (field_selector_name n) in
    if fault E (calls w ++ [a]) then Raises ApiException (logged a w)
    else
      match new_deployments
              (filter (fun d => Api.named ns n (metadata d)) (deployments (cluster w)))
              (objects w) with
      | Returns ls h' =>
          let w' := {| objects := h'; cluster := cluster w; calls := calls w ++ [a] |} in
          match ls with
          | [] => Raises (K8sDeploymentNotFoundError (Msg.deployment_not_found n ns)) w'
          | dep :: _ =>
              (dep_copy <- on_objects
                             (duplicate_deployment_config dep (Clock.getSimpleTimestamp M None)) ;;
               create_namespaced_deployment E dep_copy ns)%prog w'
          end
      | Raises e h' => Raises e {| objects := h'; cluster := cluster w; calls := calls w ++ [a] |}
      | Pending h' => Pending {| objects := h'; cluster := cluster w; calls := calls w ++ [a] |}
      end.
Proof.
  unfold duplicate_deployment. unfold bind at 1. rewrite get_namespaced_deployment_eq.
  cbv zeta. destruct (fault E _); [done|].
  by destruct (new_deployments _ _) as [[|l ls] h'|e h'|h'].
Qed.

(** Every run of [duplicate_deployment]: the list call, then the create
    call for the duplicate of the first deployment of that name. *)
Lemma duplicate_deployment_cases E M n ns w :
  let ts := Clock.getSimpleTimestamp M None in
  let L := list_namespaced_deployment ns (field_selector_name n) in
  let found := filter (fun d => Api.named ns n (metadata d)) (deployments (cluster w)) in
  let o := duplicate_deployment E M n ns w in
  (fault E (calls w ++ [L]) = true /\ o = Raises ApiException (logged L w)) \/
  (fault E (calls w ++ [L]) = false /\ found = [] /\
   exists w',
     o = Raises (K8sDeploymentNotFoundError (Msg.deployment_not_found n ns)) w' /\
     calls w' = calls w ++ [L] /\ cluster w' = cluster w) \/
  (fault E (calls w ++ [L]) = false /\
   exists d rest,
     found = d :: rest /\
     let C := api_create_namespaced_deployment ns (duplicated d ts) in
     if fault E ((calls w ++ [L]) ++ [C])
        || existsb (fun d' => Api.named ns (name (metadata (duplicated d ts))) (metadata d'))
                   (deployments (cluster w))
     then exists w',
            o = Raises ApiException w' /\
            calls w' = calls w ++ [L; C] /\ cluster w' = cluster w
     else exists l w',
            o = Returns l w' /\
            read_deployment (objects w') l = Some (duplicated d ts) /\
            calls w' = calls w ++ [L; C] /\
            cluster w' = {| deployments := deployments (cluster w) ++ [duplicated d ts];
                            services := services (cluster w) |}).
Proof.
  intros ts L found o. subst o. rewrite duplicate_deployment_eq. cbv zeta. fold L found ts.
  destruct (fault E (calls w ++ [L])) eqn:Hf; [by left|]. right.
  pose proof (filter_named_all metadata ns n (deployments (cluster w))) as Hall.
  fold found in Hall. clearbody found.
  destruct (new_deployments_new found (objects w))
    as (ls & h0 & -> & Hsub0 & Hls & _ & _).
  destruct Hls as [|l d ls ds Hl Hls].
  { left. split; [done|]. split; [done|]. eexists. by split. }
  right. split; [done|]. exists d, ds. split; [done|]. cbv zeta.
  inversion Hall as [|? ? [Hn Hns] _]; subst.
  set (w0 := {| objects := h0; cluster := cluster w; calls := calls w ++ [L] |}).
  pose proof (duplicate_and_create_run E ts (namespace (metadata d)) l d w0 Hl eq_refl) as Hrun.
  cbv zeta in Hrun. simpl calls in Hrun. simpl cluster in Hrun.
  destruct (_ || _).
  - destruct Hrun as (w' & -> & Hcalls & Hcl). exists w'. split; [done|].
    split; [by rewrite Hcalls, <- app_assoc|done].
  - destruct Hrun as (l' & w' & -> & Hread & Hcalls & Hcl). exists l', w'. split; [done|].
    split; [done|]. split; [by rewrite Hcalls, <- app_assoc|done].
Qed.

(** X13: when no deployment of the namespace has the name,
    [duplicate_deployment] raises [K8sDeploymentNotFoundError] after its one
    list call: no create call is made and the cluster is as it was; and it
    raises that error in no other case. *)
Theorem duplicate_deployment_not_found E M n ns w :
  let L := list_namespaced_deployment ns (field_selector_name n) in
  let o := duplicate_deployment E M n ns w in
  (fault E (calls w ++ [L]) = false ->
   (forall d, d ∈ deployments (cluster w) -> Api.named ns n (metadata d) = false) ->
   exists w',
     o = Raises (K8sDeploymentNotFoundError (Msg.deployment_not_found n ns)) w' /\
     calls w' = calls w ++ [L] /\ cluster w' = cluster w) /\
  (forall msg w',
     o = Raises (K8sDeploymentNotFoundError msg) w' ->
     msg = Msg.deployment_not_found n ns /\
     (forall d, d ∈ deployments (cluster w) -> Api.named ns n (metadata d) = false) /\
     calls w' = calls w ++ [L] /\ created (calls w') = created (calls w) /\
     cluster w' = cluster w).
Proof.
  intros L o.
  pose proof (duplicate_deployment_cases E M n ns w) as Hcases. cbv zeta in Hcases.
  fold L o in Hcases. clearbody o.
  assert (Hnone : forall found,
    found = filter (fun d => Api.named ns n (metadata d)) (deployments (cluster w)) ->
    found = [] ->
    forall d, d ∈ deployments (cluster w) -> Api.named ns n (metadata d) = false).
  { intros found -> Hnil d Hd. destruct (Api.named ns n (metadata d)) eqn:Hn; [|done].
    assert (Hin : d ∈ filter (fun d => Api.named ns n (metadata d)) (deployments (cluster w))).
    { apply list_elem_of_filter. split; [by rewrite Hn|done]. }
    rewrite Hnil in Hin. by apply elem_of_nil in Hin. }
  split.
  - intros Hf Hno.
    destruct Hcases as [[Hf' _]|[(_ & _ & Hw')|(_ & d & rest & Hfound & _)]];
      [congruence|exact Hw'|].
    assert (Hin : d ∈ filter (fun d => Api.named ns n (metadata d)) (deployments (cluster w))).
    { rewrite Hfound. apply elem_of_cons. by left. }
    apply list_elem_of_filter in Hin as [Hn Hin]. rewrite (Hno d Hin) in Hn. done.
  - intros msg w' Ho.
    destruct Hcases as [[_ Ho']|[(_ & Hnil & w0 & Ho' & Hcalls & Hcl)|
                                 (_ & d & rest & _ & Hrest)]].
    + congruence.
    + rewrite Ho in Ho'. inversion Ho'; subst.
      split; [done|]. split; [by eapply Hnone|]. split; [done|]. split; [|done].
      rewrite Hcalls. unfold created. by rewrite omap_app, app_nil_r.
    + destruct (_ || _).
      * destruct Hrest as (w0 & Ho' & _). congruence.
      * destruct Hrest as (l & w0 & Ho' & _). congruence.
Qed.

(** X14: when [duplicate_deployment] returns, it has made two calls, the
    list call and the create call, and waited for nothing: the cluster has
    one deployment more, the duplicate of the first deployment of that name
    (its name is the base name with the timestamp), placed after the
    deployments there were, all of which are still there; the services are
    as they were; and what is returned stands for the duplicate. *)
Theorem duplicate_deployment_creates_copy E M n ns w l w' :
  duplicate_deployment E M n ns w = Returns l w' ->
  let ts := Clock.getSimpleTimestamp M None in
  exists d,
    d ∈ deployments (cluster w) /\
    name (metadata d) = n /\ namespace (metadata d) = ns /\
    read_deployment (objects w') l = Some (duplicated d ts) /\
    name (metadata (duplicated d ts))
    = versionedName (Naming.getDeploymentBaseName n) ts /\
    calls w' = calls w ++ [list_namespaced_deployment ns (field_selector_name n);
                           api_create_namespaced_deployment ns (duplicated d ts)] /\
    deployments (cluster w') = deployments (cluster w) ++ [duplicated d ts] /\
    services (cluster w') = services (cluster w).
Proof.
  intros Hrun ts.
  pose proof (duplicate_deployment_cases E M n ns w) as Hcases. cbv zeta in Hcases.
  fold ts in Hcases. rewrite Hrun in Hcases.
  destruct Hcases as [[_ Ho]|[(_ & _ & w0 & Ho & _)|(_ & d & rest & Hfound & Hrest)]];
    [done|done|].
  pose proof (filter_named_all metadata ns n (deployments (cluster w))) as Hall.
  assert (Hin : d ∈ filter (fun d => Api.named ns n (metadata d)) (deployments (cluster w))).
  { rewrite Hfound. apply elem_of_cons. by left. }
  rewrite Hfound in Hall. inversion Hall as [|? ? [Hn Hns] _]; subst.
  apply list_elem_of_filter in Hin as [_ Hin].
  destruct (_ || _).
  { destruct Hrest as (w0 & Ho & _). done. }
  destruct Hrest as (l0 & w0 & Ho & Hread & Hcalls & Hcl). inversion Ho; subst.
  exists d. rewrite Hcl. by repeat split.
Qed.

Lemma duplicate_deployment_creates_copy_witness :
  let E := Sample.env (Sample.feed_closed "app-1") in
  let w := Sample.world [Sample.deployment "app-1" (Some 2%Z)] [Sample.web] in
  exists l w' d,
    duplicate_deployment E Sample.controller "app-1" "default" w = Returns l w' /\
    name (metadata d) = "app-1"%string /\
    deployments (cluster w')
    = deployments (cluster w) ++ [duplicated d "20191011134834"] /\
    services (cluster w') = [Sample.web].
Proof.
  intros E w.
  assert (Hrun : exists l,
            duplicate_deployment E Sample.controller "app-1" "default" w
            = Returns l (final (duplicate_deployment E Sample.controller "app-1" "default" w)))
    by (vm_compute; eexists; reflexivity).
  destruct Hrun as [l Hrun].
  destruct (duplicate_deployment_creates_copy E Sample.controller "app-1" "default" w _ _ Hrun)
    as (d & Hd & Hn & _ & _ & Hname & _ & Hdeps & Hsvcs).
  eexists _, _, d. split; [exact Hrun|]. split; [exact Hn|]. split; [exact Hdeps|exact Hsvcs].
Defined.

(** X15: the timestamp being the one of the loading of the module, a second
    [duplicate_deployment] of the same deployment in the same process asks
    for the name the first one has taken: the create call is refused, the
    call raises [ApiException], and the cluster stays as the first call left
    it. *)
Theorem duplicate_deployment_twice E M n ns w l w1 :
  duplicate_deployment E M n ns w = Returns l w1 ->
  fault E (calls w1 ++ [list_namespaced_deployment ns (field_selector_name n)]) = false ->
  exists w2,
    duplicate_deployment E M n ns w1 = Raises ApiException w2 /\
    cluster w2 = cluster w1.
Proof.
  intros Hrun Hf.
  set (ts := Clock.getSimpleTimestamp M None).
  pose proof (duplicate_deployment_cases E M n ns w) as Hcases. cbv zeta in Hcases.
  fold ts in Hcases. rewrite Hrun in Hcases.
  destruct Hcases as [[_ Ho]|[(_ & _ & w0 & Ho & _)|(_ & d & rest & Hfound & Hrest)]];
    [done|done|].
  pose proof (filter_named_all metadata ns n (deployments (cluster w))) as Hall.
  rewrite Hfound in Hall. inversion Hall as [|? ? [Hn Hns] _]; subst.
  destruct (_ || _).
  { destruct Hrest as (w0 & Ho & _). done. }
  destruct Hrest as (l0 & w0 & Ho & _ & _ & Hcl). inversion Ho; subst l0 w0. clear Ho.
  pose proof (duplicate_deployment_cases E M (name (metadata d)) (namespace (metadata d)) w1)
    as Hcases. cbv zeta in Hcases. fold ts in Hcases.
  destruct Hcases as [[Hf' _]|[(_ & Hnil & _)|(_ & d' & rest' & Hfound' & Hrest)]].
  - congruence.
  - rewrite Hcl in Hnil. simpl in Hnil. rewrite filter_app, Hfound in Hnil. done.
  - rewrite Hcl in Hfound'. simpl in Hfound'. rewrite filter_app, Hfound in Hfound'.
    inversion Hfound'; subst d'.
    assert (Htaken : existsb (fun d' => Api.named (namespace (metadata d))
                                          (name (metadata (duplicated d ts))) (metadata d'))
                             (deployments (cluster w1)) = true).
    { rewrite Hcl. simpl. rewrite existsb_app. apply orb_true_iff. right. simpl.
      unfold Api.named. simpl. by rewrite !String.eqb_refl. }
    rewrite Htaken, orb_true_r in Hrest.
    destruct Hrest as (w2 & Ho & _ & Hcl2). by exists w2.
Qed.

Lemma duplicate_deployment_twice_witness :
  let E := Sample.env (Sample.feed_closed "app-1") in
  let w := Sample.world [Sample.deployment "app-1" (Some 2%Z)] [Sample.web] in
  exists l w1 w2,
    duplicate_deployment E Sample.controller "app-1" "default" w = Returns l w1 /\
    duplicate_deployment E Sample.controller "app-1" "default" w1 = Raises ApiException w2 /\
    cluster w2 = cluster w1.
Proof.
  intros E w.
  assert (Hrun : exists l,
            duplicate_deployment E Sample.controller "app-1" "default" w
            = Returns l (final (duplicate_deployment E Sample.controller "app-1" "default" w)))
    by (vm_compute; eexists; reflexivity).
  destruct Hrun as [l Hrun].
  destruct (duplicate_deployment_twice E Sample.controller "app-1" "default" w _ _ Hrun eq_refl)
    as (w2 & Hrun2 & Hcl).
  eexists _, _, w2. split; [exact Hrun|]. split; [exact Hrun2|exact Hcl].
Defined.

(** ** The smart rollout, further *)

Lemma elem_of_dup_trace ns ts ds rs a :
  a ∈ dup_trace ns ts ds rs ->
  (exists d, d ∈ ds /\ a = api_create_namespaced_deployment ns (duplicated d ts)) \/
  a = watch_stream ns \/ exists n r, a = watch_returned n r.
Proof.
  revert rs. induction ds as [|d ds IH]; intros [|r rs] Ha;
    try (by apply elem_of_nil in Ha).
  rewrite dup_trace_cons in Ha. apply elem_of_app in Ha as [Ha|Ha].
  - unfold dup_actions in Ha.
    apply elem_of_cons in Ha as [->|Ha]; [left; exists d; split; [apply elem_of_cons|]; auto|].
    apply elem_of_cons in Ha as [->|Ha]; [by right; left|].
    apply elem_of_cons in Ha as [->|Ha]; [right; right; eauto|].
    by apply elem_of_nil in Ha.
  - destruct (IH rs Ha) as [(d' & Hd' & ->)|H]; [|by right].
    left. exists d'. split; [apply elem_of_cons; by right|done].
Qed.

Lemma elem_of_patch_trace ns svcs bodies a :
  a ∈ patch_trace ns svcs bodies ->
  (exists n, a = list_namespaced_service ns (field_selector_name n)) \/
  exists n body, body ∈ bodies /\ a = api_patch_namespaced_service ns n body.
Proof.
  revert bodies. induction svcs as [|s svcs IH]; intros [|b bodies] Ha;
    try (by apply elem_of_nil in Ha).
  rewrite patch_trace_cons in Ha. apply elem_of_app in Ha as [Ha|Ha].
  - unfold patch_actions in Ha.
    apply elem_of_cons in Ha as [->|Ha]; [left; eauto|].
    apply elem_of_cons in Ha as [->|Ha];
      [right; eexists _, b; split; [apply elem_of_cons|]; auto|].
    by apply elem_of_nil in Ha.
  - destruct (IH bodies Ha) as [H|(n & body & Hb & ->)]; [by left|].
    right. exists n, body. split; [apply elem_of_cons; by right|done].
Qed.

(** X16: a rollout that returns has used one version for everything: every
    deployment it has created carries [patch] with the one timestamp in its
    labels and in the labels of its pod template, and has a name that ends
    in a dash and that timestamp; every service body it has sent has [patch]
    with the same timestamp in its selector. *)
Theorem trigger_smart_rollout_one_version E M patience sel ns cleanup w w' a :
  trigger_smart_rollout E M patience sel ns cleanup w = Returns tt w' ->
  a ∈ drop (length (calls w)) (calls w') ->
  let ts := Clock.getSimpleTimestamp M None in
  match a with
  | api_create_namespaced_deployment _ body =>
      labels (metadata body) !! "patch" = Some ts /\
      labels (template_metadata body) !! "patch" = Some ts /\
      resource_version (metadata body) = EmptyString /\
      exists d, d ∈ deployments (cluster w) /\
        name (metadata body)
        = versionedName (Naming.getDeploymentBaseName (name (metadata d))) ts
  | api_patch_namespaced_service _ _ body => svc_selector body !! "patch" = Some ts
  | _ => True
  end.
Proof.
  intros Hrun Ha ts.
  destruct (trigger_smart_rollout_run E patience M sel ns cleanup w)
    as (_ & rs & bodies & tr & _ & _ & _ & Hcalls & _ & Hout).
  rewrite Hrun in Hcalls, Hout. simpl in Hcalls, Hout. fold ts in Hout.
  destruct Hout as (-> & _ & _ & Hbodies & _).
  rewrite Hcalls, drop_app_length in Ha.
  unfold rollout_trace in Ha.
  apply elem_of_cons in Ha as [->|Ha]; [done|].
  apply elem_of_app in Ha as [Ha|Ha].
  { apply elem_of_dup_trace in Ha as [(d & Hd & ->)|[->|(n & r & ->)]]; [|done|done].
    simpl. rewrite !lookup_insert_eq. split; [done|]. split; [done|]. split; [done|].
    exists d. split; [|done]. by apply list_elem_of_filter in Hd as [_ Hd]. }
  apply elem_of_cons in Ha as [->|Ha]; [done|].
  apply elem_of_app in Ha as [Ha|Ha].
  { apply elem_of_patch_trace in Ha as [(n & ->)|(n & body & Hb & ->)]; [done|].
    rewrite Forall_forall in Hbodies. by apply Hbodies. }
  destruct cleanup; [|by apply elem_of_nil in Ha].
  unfold delete_trace in Ha. apply list_elem_of_fmap in Ha as (d & -> & _). done.
Qed.

Lemma trigger_smart_rollout_one_version_witness :
  let E := Sample.env (Sample.feed_ready "app-20191011134834") in
  let w := Sample.world [Sample.deployment "app-1" (Some 2%Z)] [Sample.web] in
  let body := {| svc_metadata := Sample.meta "web";
                 svc_selector := <["patch" := "20191011134834"%string]>
                                   (svc_selector Sample.web);
                 svc_ports := [80%Z] |} in
  api_patch_namespaced_service "default" "web" body
  ∈ calls (final (trigger_smart_rollout E Sample.controller 5 "app=myapp" "default" true w)) /\
  svc_selector body !! "patch" = Some "20191011134834"%string.
Proof.
  intros E w body.
  assert (Hrun : trigger_smart_rollout E Sample.controller 5 "app=myapp" "default" true w
                 = Returns tt (final (trigger_smart_rollout E Sample.controller 5
                                        "app=myapp" "default" true w)))
    by (vm_compute; reflexivity).
  assert (Hin : api_patch_namespaced_service "default" "web" body
                ∈ drop (length (calls w))
                       (calls (final (trigger_smart_rollout E Sample.controller 5
                                        "app=myapp" "default" true w)))).
  { vm_compute. do 6 apply list_elem_of_further. apply list_elem_of_here. }
  split; [exact Hin|].
  exact (trigger_smart_rollout_one_version E Sample.controller 5 "app=myapp" "default"
           true w _ _ Hrun Hin).
Defined.

(** A call of one sort in a log that begins like [X ++ Y], with no call of
    that sort in [X], comes after the whole of [X]. *)
Lemma call_after (sort : action -> bool) (X Y tr1 tr2 : list action) a :
  tr1 ++ a :: tr2 `prefix_of` X ++ Y ->
  forallb (fun x => negb (sort x)) X = true -> sort a = true ->
  exists k, tr1 = X ++ k /\ k ++ a :: tr2 `prefix_of` Y.
Proof.
  revert tr1. induction X as [|x X IH]; intros tr1 Hpre HX Ha.
  - by exists tr1.
  - simpl in HX. apply andb_prop in HX as [Hx HX].
    destruct tr1 as [|y tr1].
    + destruct Hpre as [k Hk]. simpl in Hk. inversion Hk; subst x.
      rewrite Ha in Hx. done.
    + destruct Hpre as [k Hk]. simpl in Hk. inversion Hk; subst y.
      destruct (IH tr1) as (k' & -> & Hk'); [by exists k|done|done|].
      by exists k'.
Qed.

Lemma forallb_dup_trace (P : action -> bool) ns ts ds rs :
  (forall d, P (api_create_namespaced_deployment ns (duplicated d ts)) = true) ->
  P (watch_stream ns) = true -> (forall n r, P (watch_returned n r) = true) ->
  forallb P (dup_trace ns ts ds rs) = true.
Proof.
  intros Hc Hw Hr. apply forallb_forall. intros a Ha%list_elem_of_In.
  apply elem_of_dup_trace in Ha as [(d & _ & ->)|[->|(n & r & ->)]]; auto.
Qed.

Lemma forallb_patch_trace (P : action -> bool) ns svcs bodies :
  (forall n, P (list_namespaced_service ns (field_selector_name n)) = true) ->
  (forall n b, P (api_patch_namespaced_service ns n b) = true) ->
  forallb P (patch_trace ns svcs bodies) = true.
Proof.
  intros Hl Hp. apply forallb_forall. intros a Ha%list_elem_of_In.
  apply elem_of_patch_trace in Ha as [(n & ->)|(n & b & _ & ->)]; auto.
Qed.

(** X17: clean-up comes last, however the rollout ends.  When a delete call
    is in the log of a run, be it one that went on to fail, then clean-up was
    asked for, every discovered deployment has been duplicated and every
    discovered service has been patched before that call, and the call names
    a discovered deployment in the namespace of the rollout.  So a rollout
    without clean-up makes no delete call. *)
Theorem trigger_smart_rollout_deletes_last E M patience sel ns cleanup w tr1 ns' n tr2 :
  let ts := Clock.getSimpleTimestamp M None in
  let ds := filter (fun d => Api.deployment_matches E ns (label_selector sel) d)
                   (deployments (cluster w)) in
  let svcs := filter (fun s => Api.service_matches E ns (label_selector sel) s)
                     (services (cluster w)) in
  calls (final (trigger_smart_rollout E M patience sel ns cleanup w))
  = calls w ++ tr1 ++ delete_namespaced_deployment ns' n :: tr2 ->
  cleanup = true /\ ns' = ns /\ n ∈ names_of ds /\
  created tr1 = map (fun d => duplicated d ts) ds /\
  patched_names tr1 = map (fun s => name (svc_metadata s)) svcs.
Proof.
  intros ts ds svcs Hcalls.
  destruct (trigger_smart_rollout_run E patience M sel ns cleanup w)
    as (_ & rs & bodies & tr & Hlen & Hlenb & _ & Hcalls' & Hpre & _).
  fold ts ds svcs in Hlen, Hlenb, Hpre. rewrite Hcalls in Hcalls'.
  apply app_inv_head in Hcalls'. subst tr.
  set (L0 := list_namespaced_deployment ns (label_selector sel)) in *.
  set (LS := list_namespaced_service ns (label_selector sel)) in *.
  set (X := L0 :: dup_trace ns ts ds rs ++ LS :: patch_trace ns svcs bodies).
  set (Y := if cleanup then delete_trace ns ds else []).
  set (is_delete := fun a => match a with delete_namespaced_deployment _ _ => true
                                     | _ => false end).
  assert (Hfull : rollout_trace sel ns ts cleanup ds rs svcs bodies = X ++ Y).
  { unfold rollout_trace, X, Y. fold L0 LS. list_assoc. }
  rewrite Hfull in Hpre.
  assert (HX : forallb (fun x => negb (is_delete x)) X = true).
  { unfold X. simpl. rewrite forallb_app. simpl.
    rewrite forallb_dup_trace by done. by rewrite forallb_patch_trace. }
  destruct (call_after is_delete X Y tr1 tr2 _ Hpre HX eq_refl) as (k & -> & Hk).
  destruct cleanup; [|by apply prefix_nil_inv, app_eq_nil in Hk as [_ ?]].
  unfold Y in Hk.
  assert (Hin : delete_namespaced_deployment ns' n ∈ delete_trace ns ds).
  { destruct Hk as [k' ->]. apply elem_of_app. left. apply elem_of_app. right.
    apply elem_of_cons. by left. }
  apply list_elem_of_fmap in Hin as (d & Hd & Hin). inversion Hd; subst.
  split; [done|]. split; [done|].
  split; [apply list_elem_of_fmap; by exists d|].
  assert (Hk' : k `prefix_of` delete_trace ns ds) by (by eapply prefix_app_l).
  assert (Hck : created k = []).
  { apply prefix_nil_inv. rewrite <- (created_delete_trace ns ds). by apply omap_prefix. }
  assert (Hpk : patched_names k = []).
  { apply prefix_nil_inv.
    replace [] with (patched_names (delete_trace ns ds)); [by apply omap_prefix|].
    clear. by induction ds. }
  unfold created, patched_names in *. rewrite !omap_app, Hck, Hpk, !app_nil_r.
  unfold X. simpl. rewrite !omap_app. simpl.
  fold (created (dup_trace ns ts ds rs)). fold (created (patch_trace ns svcs bodies)).
  fold (patched_names (dup_trace ns ts ds rs)).
  fold (patched_names (patch_trace ns svcs bodies)).
  rewrite created_dup_trace, created_patch_trace, patched_names_dup_trace,
    patched_names_patch_trace by done.
  by rewrite app_nil_r.
Qed.

Lemma trigger_smart_rollout_deletes_last_witness :
  let E := Sample.env (Sample.feed_ready "app-20191011134834") in
  let w := Sample.world [Sample.deployment "app-1" (Some 2%Z)] [Sample.web] in
  exists tr1,
    calls (final (trigger_smart_rollout E Sample.controller 5 "app=myapp" "default" true w))
    = tr1 ++ [delete_namespaced_deployment "default" "app-1"] /\
    patched_names tr1 = ["web"%string] /\
    created tr1 = [duplicated (Sample.deployment "app-1" (Some 2%Z)) "20191011134834"].
Proof.
  intros E w.
  set (log := calls (final (trigger_smart_rollout E Sample.controller 5
                              "app=myapp" "default" true w))).
  assert (Hcalls : log = calls w ++ take 7 log
                         ++ delete_namespaced_deployment "default" "app-1" :: [])
    by (vm_compute; reflexivity).
  destruct (trigger_smart_rollout_deletes_last E Sample.controller 5 "app=myapp" "default"
              true w (take 7 log) "default" "app-1" [] Hcalls)
    as (_ & _ & _ & Hcreated & Hpatched).
  exists (take 7 log). split; [exact Hcalls|]. split; [exact Hpatched|exact Hcreated].
Defined.

Lemma filter_all {A} (P : A -> bool) (l : list A) :
  Forall (fun x => P x = true) l -> filter (fun x => P x) l = l.
Proof.
  induction 1 as [|x l Hx _ IH]; [done|].
  rewrite filter_cons_True by (by rewrite Hx). by rewrite IH.
Qed.

Lemma not_NoDup_twice {A} (l : list A) : l <> [] -> ~ NoDup (l ++ l).
Proof.
  destruct l as [|x l]; [done|]. intros _ [_ [Hdisj _]]%NoDup_app.
  apply (Hdisj x); apply elem_of_cons; by left.
Qed.

(** X18: a rollout without clean-up stands in the way of the next one.
    When [trigger_smart_rollout] has returned with [cleanup] false, and the
    selector selects the copies as it selects the originals (a copy has the
    labels of its original and [patch]), the cluster holds each discovered
    deployment and its copy, two deployments of one base name: the next
    [trigger_smart_rollout] with that selector, whatever its timestamp and
    its [cleanup], raises [K8sBasenameNotUniqueError] after its list call and
    changes nothing. *)
Theorem trigger_smart_rollout_again_after_no_cleanup
    E M patience sel ns w w' M' patience' cleanup' :
  let ts := Clock.getSimpleTimestamp M None in
  let ds := filter (fun d => Api.deployment_matches E ns (label_selector sel) d)
                   (deployments (cluster w)) in
  let L0 := list_namespaced_deployment ns (label_selector sel) in
  trigger_smart_rollout E M patience sel ns false w = Returns tt w' ->
  Clock.clock_reading (Clock.getSimpleTimestamp_default M) ->
  (forall d, d ∈ ds -> selects E sel (<["patch" := ts]> (labels (metadata d))) = true) ->
  fault E (calls w' ++ [L0]) = false ->
  exists msg w'',
    trigger_smart_rollout E M' patience' sel ns cleanup' w'
    = Raises (K8sBasenameNotUniqueError msg) w'' /\
    calls w'' = calls w' ++ [L0] /\ cluster w'' = cluster w'.
Proof.
  intros ts ds L0 Hrun Hclock Hsel Hf.
  destruct (trigger_smart_rollout_run E patience M sel ns false w)
    as (_ & rs & bodies & tr & _ & _ & _ & _ & _ & Hout).
  rewrite Hrun in Hout. simpl in Hout. fold ts ds in Hout.
  destruct Hout as (_ & Hne & _ & _ & Hcluster).
  destruct (strftime_simple_digits _ Hclock) as [Hlen Hdigits].
  assert (Hts : ts <> EmptyString).
  { intros E0. unfold ts, Clock.getSimpleTimestamp in E0. simpl in E0.
    rewrite E0 in Hlen. discriminate. }
  set (ds' := filter (fun d => Api.deployment_matches E ns (label_selector sel) d)
                     (deployments (cluster w'))).
  assert (Hds' : ds' = ds ++ map (fun d => duplicated d ts) ds).
  { unfold ds'. rewrite Hcluster, filter_app. fold ds. f_equal.
    apply filter_all. apply Forall_forall. intros d' (d & -> & Hd)%list_elem_of_fmap.
    pose proof Hd as [Hm _]%list_elem_of_filter.
    unfold Api.deployment_matches, Api.matches in *. simpl.
    apply Is_true_true, andb_true_iff in Hm as [-> _]. simpl. by apply Hsel. }
  assert (Hdup : ~ NoDup (map Naming.getDeploymentBaseName (names_of ds'))).
  { rewrite Hds'. unfold names_of. rewrite !map_app, !map_map. simpl.
    replace (map (fun d => Naming.getDeploymentBaseName
                             (Naming.getDeploymentBaseName (name (metadata d))
                              +:+ "-" +:+ ts)) ds)
      with (map (fun d => Naming.getDeploymentBaseName (name (metadata d))) ds).
    - apply not_NoDup_twice. by destruct ds.
    - apply map_ext. intros d.
      change (Naming.getDeploymentBaseName (name (metadata d)) +:+ "-" +:+ ts)
        with (Naming.getDeploymentBaseName (name (metadata d)) +:+ String Naming.dash ts).
      by rewrite getDeploymentBaseName_strip. }
  destruct (first_duplicate _ _ Hdup) as (l1 & a & l2 & b & l3 & Hnames & Hnd & Hab).
  destruct (trigger_smart_rollout_conflict E M' patience' sel ns cleanup' w'
              l1 a l2 b l3 Hf Hnames Hnd Hab) as (w'' & Hrun' & Hcalls & Hcl).
  by eexists _, w''.
Qed.

Lemma trigger_smart_rollout_again_after_no_cleanup_witness :
  let E := Sample.env (Sample.feed_ready "app-20191011134834") in
  let w := Sample.world [Sample.deployment "app-1" (Some 2%Z)] [Sample.web] in
  let later := Clock.import_controller Sample.t_call Sample.t_call Sample.t_call in
  exists w' msg w'',
    trigger_smart_rollout E Sample.controller 5 "app=myapp" "default" false w
    = Returns tt w' /\
    trigger_smart_rollout E later 5 "app=myapp" "default" true w'
    = Raises (K8sBasenameNotUniqueError msg) w'' /\
    cluster w'' = cluster w'.
Proof.
  intros E w later.
  assert (Hrun : trigger_smart_rollout E Sample.controller 5 "app=myapp" "default" false w
                 = Returns tt (final (trigger_smart_rollout E Sample.controller 5
                                        "app=myapp" "default" false w)))
    by (vm_compute; reflexivity).
  destruct (trigger_smart_rollout_again_after_no_cleanup
              E Sample.controller 5 "app=myapp" "default" w _ later 5 true Hrun)
    as (msg & w'' & Hrun' & _ & Hcl).
  - unfold Clock.clock_reading. simpl. lia.
  - intros d Hd. vm_compute in Hd. apply list_elem_of_singleton in Hd. subst d.
    vm_compute. reflexivity.
  - reflexivity.
  - eexists _, msg, w''. split; [exact Hrun|]. split; [exact Hrun'|exact Hcl].
Defined.

(** *** What a failed rollout leaves behind *)

(** One turn of the first loop, however it ends, has left the deployments
    as they were or has added the copy. *)
Lemma duplicate_and_wait_kept E patience ts ns dep d w :
  holds (objects w) dep d ->
  let o := duplicate_and_wait E patience ts ns dep w in
  deployments (cluster (final o)) = deployments (cluster w) \/
  deployments (cluster (final o)) = deployments (cluster w) ++ [duplicated d ts].
Proof.
  intros Hd o.
  destruct (duplicate_deployment_config_holds _ _ _ ts Hd)
    as (nb & h1 & Edup & Hsub1 & _ & Hread).
  set (w1 := {| objects := h1; cluster := cluster w; calls := calls w |}).
  assert (Ho1 : o = (create_namespaced_deployment E nb ns ;;;
                     copy_name <- on_objects (metadata_name nb) ;;
                     watch_namespaced_deployment E patience copy_name ns ;;;
                     ret tt)%prog w1).
  { unfold o, duplicate_and_wait. unfold bind at 1.
    by rewrite (on_objects_Returns _ w nb h1 Edup). }
  clearbody o.
  destruct (create_namespaced_deployment_run E nb ns _ w1 Hread)
    as [Ec|(l & h2 & Hsub2 & Ec)].
  { left. rewrite Ho1. unfold bind at 1. by rewrite Ec. }
  right.
  set (w2 := {| objects := h2; cluster := _; calls := _ |}) in Ec.
  assert (Hread2 : read_deployment (objects w2) nb = Some (duplicated d ts))
    by (by eapply read_deployment_weaken).
  assert (Ho2 : o = (watch_namespaced_deployment E patience
                       (name (metadata (duplicated d ts))) ns ;;; ret tt)%prog w2).
  { rewrite Ho1. unfold bind at 1. rewrite Ec. unfold bind at 1.
    erewrite on_objects_Returns by (apply metadata_name_eq; exact Hread2).
    reflexivity. }
  rewrite Ho2. unfold bind.
  destruct (watch_namespaced_deployment_run E patience
              (name (metadata (duplicated d ts))) ns w2)
    as [[_ ->]|[[_ ->]|[_ (r & _ & ->)]]]; done.
Qed.

(** The first loop, however it ends, has removed nothing: the deployments
    are those there were and the copies of the first discovered ones. *)
Lemma duplicate_loop_kept E patience ts ns deps ds w :
  Forall2 (holds (objects w)) deps ds ->
  let o := for_each deps (duplicate_and_wait E patience ts ns) w in
  exists k,
    deployments (cluster (final o))
    = deployments (cluster w) ++ map (fun d => duplicated d ts) (take k ds).
Proof.
  intros Hds. revert w Hds. revert ds.
  induction deps as [|l deps IH]; intros ds w Hds o.
  - exists 0. subst o. simpl. by rewrite app_nil_r.
  - inversion Hds as [|? d ? ds' Hl Hrest]; subst.
    pose proof (duplicate_and_wait_run E patience ts ns l d w Hl) as Hstep.
    pose proof (duplicate_and_wait_kept E patience ts ns l d w Hl) as Hkept.
    cbv zeta in Hstep, Hkept. subst o. rewrite for_each_cons.
    destruct (duplicate_and_wait E patience ts ns l w) as [[] w1|e w1|w1]; simpl in *.
    + destruct Hstep as (Hsub & _ & r & _ & _ & Hdeps1).
      destruct (IH ds' w1) as (k & Hk); [by eapply Forall2_holds_weaken|].
      exists (S k). rewrite Hk, Hdeps1. simpl. by rewrite <- app_assoc.
    + destruct Hkept as [->| ->]; [exists 0|exists 1]; simpl; by rewrite ?app_nil_r.
    + destruct Hkept as [->| ->]; [exists 0|exists 1]; simpl; by rewrite ?app_nil_r.
Qed.

(** A turn of the second loop that changes the services has made a patch
    call. *)
Lemma patch_namespaced_service_quiet E n ts ns w :
  let o := patch_namespaced_service E n ts ns w in
  exists tr,
    calls (final o) = calls w ++ tr /\
    (patched_names tr = [] ->
     services (cluster (final o)) = services (cluster w) /\
     match o with Returns _ _ => False | _ => True end).
Proof.
  intros o. subst o. rewrite patch_namespaced_service_eq. cbv zeta.
  set (L := list_namespaced_service ns (field_selector_name n)).
  destruct (fault E (calls w ++ [L])); [by exists [L]|].
  destruct (filter _ _) as [|first rest]; [by exists [L]|].
  set (P := api_patch_namespaced_service ns n _).
  exists [L; P]. split.
  - destruct (fault E _); [simpl; by rewrite <- app_assoc|].
    destruct (existsb _ _); simpl; by rewrite <- app_assoc.
  - intros Hq. discriminate Hq.
Qed.

Lemma patch_loop_quiet E ts ns svcs w :
  let o := for_each svcs (fun svc =>
             (patch_namespaced_service E (name (svc_metadata svc)) ts ns ;;; ret tt)%prog) w in
  exists tr,
    calls (final o) = calls w ++ tr /\
    (patched_names tr = [] -> services (cluster (final o)) = services (cluster w)).
Proof.
  revert w. induction svcs as [|svc svcs IH]; intros w o.
  - exists []. subst o. simpl. by rewrite app_nil_r.
  - subst o. rewrite for_each_cons. cbv beta. rewrite bind_ret_tt.
    destruct (patch_namespaced_service_quiet E (name (svc_metadata svc)) ts ns w)
      as (tr1 & Hcalls1 & Hq1). cbv zeta in Hcalls1, Hq1.
    destruct (patch_namespaced_service E (name (svc_metadata svc)) ts ns w)
      as [body w1|e w1|w1]; simpl in *.
    + destruct (IH w1) as (tr2 & Hcalls2 & Hq2). cbv zeta in Hcalls2, Hq2.
      exists (tr1 ++ tr2). split; [by rewrite Hcalls2, Hcalls1, <- app_assoc|].
      unfold patched_names in *. rewrite omap_app. intros [H1 _]%app_eq_nil.
      by destruct (Hq1 H1).
    + exists tr1. split; [done|]. intros H1. by destruct (Hq1 H1).
    + exists tr1. split; [done|]. intros H1. by destruct (Hq1 H1).
Qed.

(** The clean-up loop over a deployment or more makes a delete call. *)
Lemma cleanup_loop_loud E ns deps ds w :
  Forall2 (fun l d => read_deployment (objects w) l = Some d) deps ds -> deps <> [] ->
  exists D tr,
    calls (final (for_each deps (delete_old E ns) w)) = calls w ++ D :: tr /\
    deleted_names [D] <> [].
Proof.
  intros Hds Hne. destruct Hds as [|l d deps ds Hl Hrest]; [done|].
  rewrite for_each_cons, (delete_old_eq E _ _ _ _ Hl). cbv zeta.
  set (D := delete_namespaced_deployment ns (name (metadata d))).
  destruct (fault E (calls w ++ [D])); [by exists D, []|].
  destruct (existsb _ _); [|by exists D, []].
  set (w1 := {| objects := objects w; cluster := _; calls := calls w ++ [D] |}).
  destruct (cleanup_loop_run E ns deps ds w1 Hrest) as (_ & _ & tr & Hcalls & _).
  exists D, tr. split; [|done]. rewrite Hcalls. simpl. by rewrite <- app_assoc.
Qed.

(** X19: there is no rollback, and none is needed for what was there.
    However a rollout ends (it returns, it raises, it waits on), if its log
    has no patch call the services of the cluster are as they were, and if
    its log has no delete call the deployments of the cluster are those
    there were, in their order, followed by the copies made so far: the
    copies of the first discovered deployments. *)
Theorem trigger_smart_rollout_no_rollback E M patience sel ns cleanup w :
  let ts := Clock.getSimpleTimestamp M None in
  let ds := filter (fun d => Api.deployment_matches E ns (label_selector sel) d)
                   (deployments (cluster w)) in
  let o := trigger_smart_rollout E M patience sel ns cleanup w in
  let tr := drop (length (calls w)) (calls (final o)) in
  (patched_names tr = [] -> services (cluster (final o)) = services (cluster w)) /\
  (deleted_names tr = [] ->
   exists k,
     deployments (cluster (final o))
     = deployments (cluster w) ++ map (fun d => duplicated d ts) (take k ds)).
Proof.
  intros ts ds o tr. subst tr.
  set (L0 := list_namespaced_deployment ns (label_selector sel)).
  set (LS := list_namespaced_service ns (label_selector sel)).
  destruct (get_namespaced_deployments_run E sel ns w)
    as (w0 & Hcalls0 & Hcl0 & Hsub0 & Hcase0).
  fold ds L0 in Hcalls0, Hcase0.
  assert (Hstop0 : forall e,
    o = Raises e w0 ->
    (patched_names (drop (length (calls w)) (calls (final o))) = [] ->
     services (cluster (final o)) = services (cluster w)) /\
    (deleted_names (drop (length (calls w)) (calls (final o))) = [] ->
     exists k,
       deployments (cluster (final o))
       = deployments (cluster w) ++ map (fun d => duplicated d ts) (take k ds))).
  { intros e ->. simpl. rewrite Hcl0. split; [done|]. intros _. exists 0.
    simpl. by rewrite app_nil_r. }
  destruct Hcase0 as [[Hf E0]|[(Hf & Hnil & E0)|(Hf & Hne & deps & Hdeps & E0)]].
  { apply (Hstop0 ApiException).
    unfold o, trigger_smart_rollout. cbv zeta. unfold bind at 1. by rewrite E0. }
  { apply (Hstop0 (K8sDeploymentNotFoundError (Msg.deployments_not_found sel ns))).
    unfold o, trigger_smart_rollout. cbv zeta. unfold bind at 1. by rewrite E0. }
  assert (Hreads0 : Forall2 (fun l d => read_deployment (objects w0) l = Some d) deps ds).
  { eapply Forall2_impl; [exact Hdeps|]. eauto using holds_read. }
  destruct (decide (NoDup (map Naming.getDeploymentBaseName (names_of ds)))) as [Hnd|Hdup];
    cycle 1.
  { destruct (first_duplicate _ _ Hdup) as (l1 & a & l2 & b & l3 & Hnames & Hnd & Hab).
    pose proof (check_deployments_conflict _ _ _ _ _ _ _ _ Hreads0 Hnames Hnd Hab) as Echeck.
    eapply Hstop0.
    unfold o, trigger_smart_rollout. cbv zeta. unfold bind at 1. rewrite E0.
    unfold bind at 1. rewrite (on_objects_Raises _ _ _ _ Echeck). by rewrite world_eta. }
  pose proof (check_deployments_unique _ _ _ Hreads0 Hnd) as Echeck.
  pose proof (duplicate_loop_run E patience ts ns deps ds w0 Hdeps) as Hloop.
  pose proof (duplicate_loop_kept E patience ts ns deps ds w0 Hdeps) as Hkept.
  cbv zeta in Hloop, Hkept.
  assert (Ho1 : o = (for_each deps (duplicate_and_wait E patience ts ns) ;;;
                     services <- get_namespaced_services E sel ns ;;
                     for_each services (fun svc =>
                       patch_namespaced_service E (name (svc_metadata svc)) ts ns ;;;
                       ret tt) ;;;
                     if cleanup then for_each deps (delete_old E ns) else ret tt)%prog w0).
  { unfold o, trigger_smart_rollout. cbv zeta. unfold bind at 1. rewrite E0.
    unfold bind at 1. rewrite (on_objects_Returns _ _ _ _ Echeck). by rewrite world_eta. }
  clearbody o. clear Hstop0.
  assert (Hstop1 : forall w1,
    final o = w1 -> services (cluster w1) = services (cluster w0) ->
    (exists k, deployments (cluster w1)
               = deployments (cluster w0) ++ map (fun d => duplicated d ts) (take k ds)) ->
    (patched_names (drop (length (calls w)) (calls (final o))) = [] ->
     services (cluster (final o)) = services (cluster w)) /\
    (deleted_names (drop (length (calls w)) (calls (final o))) = [] ->
     exists k,
       deployments (cluster (final o))
       = deployments (cluster w) ++ map (fun d => duplicated d ts) (take k ds))).
  { intros w1 -> Hsvc Hk. rewrite Hsvc, Hcl0. split; [done|]. intros _.
    destruct Hk as [k Hk]. exists k. by rewrite Hk, Hcl0. }
  destruct (for_each deps (duplicate_and_wait E patience ts ns) w0)
    as [[] w1|e w1|w1] eqn:Eloop; simpl in Hloop, Hkept;
    destruct Hloop as (Hsub1 & Hsvc1 & rs & trD & Hlen & Hoks & Hcalls1 & Hout1).
  2: { apply (Hstop1 w1); [|done|done]. rewrite Ho1. unfold bind at 1. by rewrite Eloop. }
  2: { apply (Hstop1 w1); [|done|done]. rewrite Ho1. unfold bind at 1. by rewrite Eloop. }
  destruct Hout1 as [-> Hdeps1].
  assert (Hall : exists k, deployments (cluster w1)
                   = deployments (cluster w0) ++ map (fun d => duplicated d ts) (take k ds)).
  { exists (length ds). by rewrite firstn_all. }
  assert (Ho2 : o = (services <- get_namespaced_services E sel ns ;;
                     for_each services (fun svc =>
                       patch_namespaced_service E (name (svc_metadata svc)) ts ns ;;;
                       ret tt) ;;;
                     if cleanup then for_each deps (delete_old E ns) else ret tt)%prog w1).
  { rewrite Ho1. unfold bind at 1. by rewrite Eloop. }
  clear Ho1.
  set (svcs := filter (fun s => Api.service_matches E ns (label_selector sel) s)
                      (services (cluster w1))).
  destruct (get_namespaced_services_run E sel ns w1)
    as [[Hf3 E3]|[(Hf3 & Hnil3 & E3)|(Hf3 & Hne3 & E3)]];
    cbv zeta in *; fold LS svcs in E3.
  { apply (Hstop1 (logged LS w1)); [|done|done]. rewrite Ho2. unfold bind at 1. by rewrite E3. }
  { apply (Hstop1 (logged LS w1)); [|done|done]. rewrite Ho2. unfold bind at 1. by rewrite E3. }
  set (w2 := logged LS w1) in *.
  assert (Ho3 : o = (for_each svcs (fun svc =>
                       patch_namespaced_service E (name (svc_metadata svc)) ts ns ;;;
                       ret tt) ;;;
                     if cleanup then for_each deps (delete_old E ns) else ret tt)%prog w2).
  { rewrite Ho2. unfold bind at 1. by rewrite E3. }
  clear Ho2 Hstop1.
  assert (Hin : forall svc, svc ∈ svcs ->
            (ns, name (svc_metadata svc)) ∈ map service_key (services (cluster w2))).
  { intros svc Hsvc. simpl. by eapply matching_service_key. }
  pose proof (patch_loop_run E ts ns svcs w2 Hin) as Hpatch.
  destruct (patch_loop_quiet E ts ns svcs w2) as (trP & HcallsP & Hquiet).
  cbv zeta in Hpatch, HcallsP, Hquiet.
  assert (Hcalls2 : calls w1 ++ [LS] = calls w ++ L0 :: dup_trace ns ts ds rs ++ [LS]).
  { rewrite Hcalls1, Hcalls0. by rewrite <- !app_assoc. }
  destruct Hall as [k Hk].
  destruct (for_each svcs _ w2) as [[] w3|e w3|w3] eqn:Epatch; simpl in Hpatch, HcallsP, Hquiet;
    destruct Hpatch as (Hobj3 & Hdep3 & _).
  2: { assert (o = Raises e w3) as -> by (rewrite Ho3; unfold bind at 1; by rewrite Epatch).
       simpl. rewrite HcallsP, Hcalls2, <- app_assoc, drop_app_length. split.
       - unfold patched_names in *. rewrite omap_app. intros [_ Hq]%app_eq_nil.
         rewrite (Hquiet Hq). simpl. by rewrite Hsvc1, Hcl0.
       - intros _. exists k. rewrite Hdep3. simpl. by rewrite Hk, Hcl0. }
  2: { assert (o = Pending w3) as -> by (rewrite Ho3; unfold bind at 1; by rewrite Epatch).
       simpl. rewrite HcallsP, Hcalls2, <- app_assoc, drop_app_length. split.
       - unfold patched_names in *. rewrite omap_app. intros [_ Hq]%app_eq_nil.
         rewrite (Hquiet Hq). simpl. by rewrite Hsvc1, Hcl0.
       - intros _. exists k. rewrite Hdep3. simpl. by rewrite Hk, Hcl0. }
  assert (Ho4 : o = (if cleanup then for_each deps (delete_old E ns) else ret tt) w3).
  { rewrite Ho3. unfold bind at 1. by rewrite Epatch. }
  clear Ho3.
  destruct cleanup.
  - assert (Hreads3 : Forall2 (fun l d => read_deployment (objects w3) l = Some d) deps ds).
    { rewrite Hobj3. simpl. eapply Forall2_impl; [exact Hreads0|].
      intros l d Hl. eapply read_deployment_weaken; [exact Hl|exact Hsub1]. }
    pose proof (cleanup_loop_run E ns deps ds w3 Hreads3) as Hclean. cbv zeta in Hclean.
    assert (Hdeps_ne : deps <> []).
    { intros ->. inversion Hdeps; subst. by destruct Hne. }
    destruct (cleanup_loop_loud E ns deps ds w3 Hreads3 Hdeps_ne)
      as (D & trC & HcallsC & HD).
    rewrite <- Ho4 in Hclean, HcallsC. clear Ho4.
    destruct Hclean as (_ & Hsvc4 & _).
    rewrite HcallsC, HcallsP, Hcalls2, <- !app_assoc, drop_app_length. split.
    + unfold patched_names in *. rewrite !omap_app.
      intros [_ [Hq _]%app_eq_nil]%app_eq_nil.
      rewrite Hsvc4, (Hquiet Hq). simpl. by rewrite Hsvc1, Hcl0.
    + unfold deleted_names in *. rewrite !omap_app.
      intros [_ [_ Hq]%app_eq_nil]%app_eq_nil.
      destruct HD. simpl in Hq. simpl. destruct D; try done.
  - subst o. simpl. rewrite HcallsP, Hcalls2, <- app_assoc, drop_app_length. split.
    + unfold patched_names in *. rewrite omap_app. intros [_ Hq]%app_eq_nil.
      rewrite (Hquiet Hq). simpl. by rewrite Hsvc1, Hcl0.
    + intros _. exists k. rewrite Hdep3. simpl. by rewrite Hk, Hcl0.
Qed.

(** ** Restarting a deployment *)

Lemma in_world_history {A} (m : prog World A) s tr :
  calls (final (m (world s))) = calls (world s) ++ tr ->
  history (final (in_world m s)) = history s ++ map cluster_call tr /\
  world (final (in_world m s)) = final (m (world s)).
Proof.
  intros Hcalls. unfold in_world.
  destruct (m (world s)) as [a w'|e w'|w']; simpl in *;
    by rewrite Hcalls, drop_app_length.
Qed.

Lemma restart_namespaced_deployment_eq E V M n ns s :
  restart_namespaced_deployment E V M n ns s
  = let L := list_namespaced_deployment ns (field_selector_name n) in
    let w := world s in
    let hist := history s ++ [cluster_call L] in
    if fault E (calls w ++ [L])
    then Raises ApiException {| world := logged L w; history := hist |}
    else
      match new_deployments
              (filter (fun d => Api.named ns n (metadata d)) (deployments (cluster w)))
              (objects w) with
      | Returns ls h' =>
          let s' := {| world := {| objects := h'; cluster := cluster w;
                                   calls := calls w ++ [L] |};
                       history := hist |} in
          match ls with
          | [] => Raises (K8sDeploymentNotFoundError (Msg.deployment_not_found n ns)) s'
          | _ :: _ => patch_deployment V ns n (getDeploymentPatchBody M None) s'
          end
      | Raises e h' =>
          Raises e {| world := {| objects := h'; cluster := cluster w;
                                  calls := calls w ++ [L] |};
                      history := hist |}
      | Pending h' =>
          Pending {| world := {| objects := h'; cluster := cluster w;
                                 calls := calls w ++ [L] |};
                     history := hist |}
      end.
Proof.
  unfold restart_namespaced_deployment, patch_namespaced_deployment. cbv zeta.
  unfold bind, in_world. rewrite get_namespaced_deployment_eq. cbv zeta.
  destruct (fault E _); [simpl; by rewrite drop_app_length|].
  destruct (new_deployments _ _) as [[|l ls] h'|e h'|h']; simpl;
    by rewrite drop_app_length.
Qed.

(** The calls of a restart: the list call, and after it at most the patch
    call. *)
Lemma restart_namespaced_deployment_history E V M n ns s :
  let L := cluster_call (list_namespaced_deployment ns (field_selector_name n)) in
  let P := api_patch_namespaced_deployment ns n (getDeploymentPatchBody M None) in
  history (final (restart_namespaced_deployment E V M n ns s)) = history s ++ [L] \/
  history (final (restart_namespaced_deployment E V M n ns s)) = history s ++ [L; P].
Proof.
  intros L P. rewrite restart_namespaced_deployment_eq. cbv zeta. fold L.
  destruct (fault E _); [by left|].
  destruct (new_deployments_new
              (filter (fun d => Api.named ns n (metadata d))
                      (deployments (cluster (world s)))) (objects (world s)))
    as (ls & h' & -> & _ & _ & _ & _).
  destruct ls as [|l ls]; [by left|]. right.
  unfold patch_deployment. simpl. fold P. rewrite <- app_assoc. simpl.
  destruct (patch_fault V _); [done|]. by destruct (existsb _ _).
Qed.

(** X20: [restart_namespaced_deployment] looks the deployment up before it
    patches.  When no deployment of the namespace has the name it raises
    [K8sDeploymentNotFoundError] after the list call, and no patch call is
    made; otherwise the one further call is the patch of that deployment with
    the body of [getDeploymentPatchBody], and the services and the other
    deployments are as they were. *)
Theorem restart_namespaced_deployment_looks_first E V M n ns s :
  let L := cluster_call (list_namespaced_deployment ns (field_selector_name n)) in
  let P := api_patch_namespaced_deployment ns n (getDeploymentPatchBody M None) in
  let found := filter (fun d => Api.named ns n (metadata d))
                      (deployments (cluster (world s))) in
  let o := restart_namespaced_deployment E V M n ns s in
  services (cluster (world (final o))) = services (cluster (world s)) /\
  match o with
  | Returns _ s' =>
      found <> [] /\ history s' = history s ++ [L; P] /\
      deployments (cluster (world s'))
      = map (fun d => if Api.named ns n (metadata d)
                      then merge_patch V (getDeploymentPatchBody M None) d else d)
            (deployments (cluster (world s)))
  | Raises (K8sDeploymentNotFoundError msg) s' =>
      found = [] /\ msg = Msg.deployment_not_found n ns /\
      history s' = history s ++ [L] /\ cluster (world s') = cluster (world s)
  | Raises e s' =>
      e = ApiException /\ cluster (world s') = cluster (world s) /\
      (history s' = history s ++ [L] \/ (found <> [] /\ history s' = history s ++ [L; P]))
  | Pending _ => False
  end.
Proof.
  intros L P found o. subst o. rewrite restart_namespaced_deployment_eq. cbv zeta.
  fold found. fold L.
  destruct (fault E _); [simpl; auto|]. clearbody found.
  destruct (new_deployments_new found (objects (world s)))
    as (ls & h' & -> & _ & Hls & _ & _).
  destruct Hls as [|l d ls ds Hl Hls]; [by simpl|].
  unfold patch_deployment. simpl. fold P. rewrite <- app_assoc. simpl.
  destruct (patch_fault V _); [simpl; split; [done|]; split; [done|]; split; [done|];
                                right; by split|].
  destruct (existsb _ _); simpl.
  - by repeat split.
  - split; [done|]. split; [done|]. split; [done|]. right. by split.
Qed.

(** X21: the body [restart_namespaced_deployment] patches with holds one
    value, [spec.template.metadata.creationTimestamp], and that value is the
    time at which the module was loaded, in the format of the API: it is not
    the time of the call, so every restart made by one process sends the
    same body. *)
Theorem restart_namespaced_deployment_timestamp E V t1 t2 t_import n ns s ns' n' body :
  let M := Clock.import_controller t1 t2 t_import in
  api_patch_namespaced_deployment ns' n' body
  ∈ history (final (restart_namespaced_deployment E V M n ns s)) ->
  api_patch_namespaced_deployment ns' n' body ∈ history s \/
  (ns' = ns /\ n' = n /\
   getitem ["spec"; "template"; "metadata"; "creationTimestamp"]%string body
   = Some (PyStr (Clock.strftime_k8s t_import)) /\
   body = PyMap [("spec"%string,
                  PyMap [("template"%string,
                          PyMap [("metadata"%string,
                                  PyMap [("creationTimestamp"%string,
                                          PyStr (Clock.strftime_k8s t_import))])])])]).
Proof.
  intros M Hin.
  assert (Hcases : forall hist,
    api_patch_namespaced_deployment ns' n' body ∈ hist ->
    hist = history s ++ [cluster_call (list_namespaced_deployment ns (field_selector_name n))] \/
    hist = history s ++ [cluster_call (list_namespaced_deployment ns (field_selector_name n));
                         api_patch_namespaced_deployment ns n (getDeploymentPatchBody M None)] ->
    api_patch_namespaced_deployment ns' n' body ∈ history s \/
    api_patch_namespaced_deployment ns' n' body
    = api_patch_namespaced_deployment ns n (getDeploymentPatchBody M None)).
  { intros hist Hh [->| ->]; apply elem_of_app in Hh as [Hh|Hh]; auto.
    - apply list_elem_of_singleton in Hh. discriminate Hh.
    - apply elem_of_cons in Hh as [Hh|Hh]; [discriminate Hh|].
      apply list_elem_of_singleton in Hh. by right. }
  destruct (Hcases _ Hin (restart_namespaced_deployment_history E V M n ns s))
    as [Hold|Hnew]; [by left|]. right.
  inversion Hnew; subst. by repeat split.
Qed.

Lemma restart_namespaced_deployment_timestamp_witness :
  let E := Sample.env (Sample.feed_closed "app-1") in
  let V := {| patch_fault := fun _ => false; merge_patch := fun _ d => d |} in
  let M := Clock.import_controller Sample.t_import Sample.t_import Sample.t_import in
  let s := start (Sample.world [Sample.deployment "app-1" (Some 2%Z)] [Sample.web]) in
  exists body,
    api_patch_namespaced_deployment "default" "app-1" body
    ∈ history (final (restart_namespaced_deployment E V M "app-1" "default" s)) /\
    Clock.strftime_k8s (utcnow E []) = "2019-10-11T13:48:35Z"%string /\
    getitem ["spec"; "template"; "metadata"; "creationTimestamp"]%string body
    = Some (PyStr "2019-10-11T13:48:34Z").
Proof.
  intros E V M s.
  exists (getDeploymentPatchBody M None).
  assert (Hin : api_patch_namespaced_deployment "default" "app-1" (getDeploymentPatchBody M None)
                ∈ history (final (restart_namespaced_deployment E V M "app-1" "default" s))).
  { vm_compute. apply list_elem_of_further, list_elem_of_here. }
  split; [exact Hin|]. split; [reflexivity|].
  destruct (restart_namespaced_deployment_timestamp E V Sample.t_import Sample.t_import
              Sample.t_import "app-1" "default" s _ _ _ Hin)
    as [Hold|(_ & _ & Hbody & _)].
  - vm_compute in Hold. by apply elem_of_nil in Hold.
  - exact Hbody.
Defined.

(** ** The command line *)

Lemma final_then_ret {S A B} (m : prog S A) (b : B) s :
  final ((m ;;; ret b)%prog s) = final (m s).
Proof. unfold bind. by destruct (m s). Qed.

Lemma then_ret_Returns {S A B} (m : prog S A) (b b' : B) s s' :
  (m ;;; ret b)%prog s = Returns b' s' -> b' = b.
Proof. unfold bind. destruct (m s); [|done|done]. by inversion 1. Qed.

Lemma cluster_calls_map tr : cluster_calls (map cluster_call tr) = tr.
Proof.
  induction tr as [|a tr IH]; [done|].
  change (cluster_calls (map cluster_call (a :: tr)))
    with (a :: cluster_calls (map cluster_call tr)).
  by rewrite IH.
Qed.

(** The calls of [duplicate_deployment] and of the reading of the name that
    follows it in the script: a list call and at most a create call. *)
Lemma duplicate_deployment_calls E M n ns w :
  exists tr,
    calls (final ((dup <- duplicate_deployment E M n ns ;;
                   on_objects (metadata_name dup))%prog w)) = calls w ++ tr /\
    deleted_names tr = [].
Proof.
  pose proof (duplicate_deployment_cases E M n ns w) as Hcases. cbv zeta in Hcases.
  unfold bind.
  destruct Hcases as [[_ ->]|[(_ & _ & w' & -> & Hcalls & _)|(_ & d & rest & _ & Hrest)]].
  - by exists [list_namespaced_deployment ns (field_selector_name n)].
  - exists [list_namespaced_deployment ns (field_selector_name n)]. by split.
  - destruct (_ || _).
    + destruct Hrest as (w' & -> & Hcalls & _). eexists. split; [exact Hcalls|done].
    + destruct Hrest as (l & w' & -> & _ & Hcalls & _).
      exists [list_namespaced_deployment ns (field_selector_name n);
              api_create_namespaced_deployment ns
                (duplicated d (Clock.getSimpleTimestamp M None))].
      split; [|done]. rewrite <- Hcalls.
      unfold on_objects. by destruct (metadata_name l (objects w')).
Qed.

(** The calls of a rollout without clean-up: no delete call among them. *)
Lemma trigger_smart_rollout_calls E M patience sel ns cleanup w :
  exists tr,
    calls (final (trigger_smart_rollout E M patience sel ns cleanup w)) = calls w ++ tr /\
    (cleanup = false -> deleted_names tr = []).
Proof.
  destruct (trigger_smart_rollout_run E patience M sel ns cleanup w)
    as (_ & rs & bodies & tr & _ & _ & _ & Hcalls & Hpre & _).
  exists tr. split; [done|]. intros ->.
  apply prefix_nil_inv.
  replace [] with (deleted_names (rollout_trace sel ns (Clock.getSimpleTimestamp M None) false
                     (filter (fun d => Api.deployment_matches E ns (label_selector sel) d)
                             (deployments (cluster w))) rs
                     (filter (fun s => Api.service_matches E ns (label_selector sel) s)
                             (services (cluster w))) bodies));
    [by apply omap_prefix|].
  unfold rollout_trace, deleted_names. simpl. rewrite omap_app. simpl. rewrite omap_app.
  fold (deleted_names (dup_trace ns (Clock.getSimpleTimestamp M None)
          (filter (fun d => Api.deployment_matches E ns (label_selector sel) d)
                  (deployments (cluster w))) rs)).
  rewrite deleted_names_dup_trace. simpl.
  fold (deleted_names (patch_trace ns
          (filter (fun s => Api.service_matches E ns (label_selector sel) s)
                  (services (cluster w))) bodies)).
  by rewrite deleted_names_patch_trace.
Qed.

(** X22: the script exits with status 1, having made no call, exactly when
    the arguments choose no operation: no deployment name with
    [--trigger-rollout] or [--duplicate], and no label selector with
    [--trigger-smart-rollout]; it has no other exit status of its own. *)
Theorem main_wrong_usage E V M patience args s :
  let no_deployment_operation :=
    deploymentName args = None \/ (triggerRollout args = false /\ duplicate args = false) in
  let no_rollout :=
    labelSelector args = None \/ triggerSmartRollout args = false in
  (no_deployment_operation -> no_rollout ->
   main E V M patience args s = Returns (sys_exit 1) s) /\
  (forall status s',
     main E V M patience args s = Returns (sys_exit status) s' ->
     status = 1%Z /\ s' = s /\ no_deployment_operation /\ no_rollout).
Proof.
  intros nodep noroll. subst nodep noroll. unfold main, smart_rollout_or_usage. split.
  - intros [->|[-> ->]] [->| ->]; try done; destruct (deploymentName args);
      destruct (labelSelector args); done.
  - intros status s'.
    destruct (deploymentName args) as [n|], (triggerRollout args), (duplicate args),
      (labelSelector args) as [sel|], (triggerSmartRollout args);
      intros Hrun;
      try (apply then_ret_Returns in Hrun; discriminate Hrun);
      inversion Hrun; subst; auto 10.
Qed.

(** X23: the script deletes deployments on one path only.  When a delete
    call is among the calls of a run of the script, the arguments asked for a
    smart rollout by a label selector, clean-up was not switched off, and no
    deployment name came with [--trigger-rollout] or [--duplicate]: a
    restart and a duplication delete nothing. *)
Theorem main_deletes_only_on_cleanup E V M patience args s :
  deleted_names (cluster_calls (drop (length (history s))
                                     (history (final (main E V M patience args s))))) <> [] ->
  cleanup args = true /\ triggerSmartRollout args = true /\
  is_Some (labelSelector args) /\
  (deploymentName args = None \/ (triggerRollout args = false /\ duplicate args = false)).
Proof.
  assert (Hrollout : forall sel,
    deleted_names (cluster_calls (drop (length (history s))
      (history (final ((in_world (trigger_smart_rollout E M patience sel (arg_namespace args)
                                    (cleanup args)) ;;; ret end_of_script)%prog s))))) <> [] ->
    cleanup args = true).
  { intros sel Hdel. rewrite final_then_ret in Hdel.
    destruct (trigger_smart_rollout_calls E M patience sel (arg_namespace args)
                (cleanup args) (world s)) as (tr & Hcalls & Hno).
    destruct (in_world_history _ s tr Hcalls) as [Hhist _].
    rewrite Hhist, drop_app_length, cluster_calls_map in Hdel.
    destruct (cleanup args); [done|]. by destruct Hdel; apply Hno. }
  assert (Husage : forall x : ending,
    deleted_names (cluster_calls (drop (length (history s))
      (history (final (ret x s))))) <> [] -> False).
  { intros x. simpl. by rewrite drop_all. }
  unfold main, smart_rollout_or_usage.
  destruct (deploymentName args) as [n|].
  - destruct (triggerRollout args).
    { rewrite final_then_ret. intros Hdel. exfalso. apply Hdel.
      destruct (restart_namespaced_deployment_history E V M n (arg_namespace args) s)
        as [-> | ->]; by rewrite drop_app_length. }
    destruct (duplicate args).
    { rewrite final_then_ret. intros Hdel. exfalso. apply Hdel.
      destruct (duplicate_deployment_calls E M n (arg_namespace args) (world s))
        as (tr & Hcalls & Hno).
      destruct (in_world_history _ s tr Hcalls) as [-> _].
      by rewrite drop_app_length, cluster_calls_map. }
    destruct (labelSelector args) as [sel|]; [|by intros ?%Husage].
    destruct (triggerSmartRollout args); [|by intros ?%Husage].
    intros Hdel%Hrollout. split; [done|]. split; [done|]. split; [by eexists|]. right. done.
  - destruct (labelSelector args) as [sel|]; [|by intros ?%Husage].
    destruct (triggerSmartRollout args); [|by intros ?%Husage].
    intros Hdel%Hrollout. split; [done|]. split; [done|]. split; [by eexists|]. by left.
Qed.

Lemma main_deletes_only_on_cleanup_witness :
  let E := Sample.env (Sample.feed_ready "app-20191011134834") in
  let V := {| patch_fault := fun _ => false; merge_patch := fun _ d => d |} in
  let args := {| arg_namespace := "default"; deploymentName := None; triggerRollout := false;
                 duplicate := false; labelSelector := Some "app=myapp"%string;
                 triggerSmartRollout := true; cleanup := true; loglevel := None |} in
  let s := start (Sample.world [Sample.deployment "app-1" (Some 2%Z)] [Sample.web]) in
  deleted_names (cluster_calls (history (final (main E V Sample.controller 5 args s))))
  = ["app-1"%string] /\
  cleanup args = true.
Proof.
  intros E V args s. split; [vm_compute; reflexivity|].
  apply (main_deletes_only_on_cleanup E V Sample.controller 5 args s).
  vm_compute. discriminate.
Defined.

(** ** When a rollout goes through *)

Lemma existsb_none {A} (f : A -> bool) (l : list A) :
  (forall x, x ∈ l -> f x = false) -> existsb f l = false.
Proof.
  intros Hall. destruct (existsb f l) eqn:Hex; [|done].
  apply existsb_exists in Hex as (x & Hin & Hx). apply list_elem_of_In in Hin.
  rewrite (Hall x Hin) in Hx. done.
Qed.

Lemma existsb_some {A} (f : A -> bool) (l : list A) x :
  x ∈ l -> f x = true -> existsb f l = true.
Proof. intros Hin Hx. apply existsb_exists. exists x. by rewrite <- list_elem_of_In. Qed.

Lemma string_app_inv_tail (a b c : string) : a +:+ c = b +:+ c -> a = b.
Proof.
  revert b. induction a as [|x a IH]; intros [|y b] Heq; [done| | |].
  - apply (f_equal String.length) in Heq. rewrite !string_app_length in Heq.
    simpl in Heq. lia.
  - apply (f_equal String.length) in Heq. rewrite !string_app_length in Heq.
    simpl in Heq. lia.
  - rewrite !string_app_cons in Heq. inversion Heq; subst. f_equal. by apply IH.
Qed.

(** One turn of the first loop goes through when no call fails, the name of
    the copy is free and the stream reports the copy ready. *)
Lemma duplicate_and_wait_happy E patience ts ns dep d w :
  holds (objects w) dep d -> namespace (metadata d) = ns ->
  (forall log, fault E log = false) ->
  (forall d', d' ∈ deployments (cluster w) ->
     Api.named ns (name (metadata (duplicated d ts))) (metadata d') = false) ->
  (forall log, reports_ready patience (feed E log) (name (metadata (duplicated d ts)))) ->
  exists w', duplicate_and_wait E patience ts ns dep w = Returns tt w'.
Proof.
  intros Hd Hns Hfault Hfree Hready.
  destruct (duplicate_deployment_config_holds _ _ _ ts Hd)
    as (nb & h1 & Edup & Hsub1 & _ & Hread).
  set (w1 := {| objects := h1; cluster := cluster w; calls := calls w |}).
  set (o := duplicate_and_wait E patience ts ns dep w).
  assert (Ho1 : o = (create_namespaced_deployment E nb ns ;;;
                     copy_name <- on_objects (metadata_name nb) ;;
                     watch_namespaced_deployment E patience copy_name ns ;;;
                     ret tt)%prog w1).
  { unfold o, duplicate_and_wait. unfold bind at 1.
    by rewrite (on_objects_Returns _ w nb h1 Edup). }
  clearbody o.
  pose proof (create_namespaced_deployment_eq E nb ns _ w1 Hread) as Ec.
  cbv zeta in Ec. rewrite Hfault in Ec.
  change (namespace (metadata (duplicated d ts))) with (namespace (metadata d)) in Ec.
  change (resource_version (metadata (duplicated d ts))) with EmptyString in Ec.
  rewrite Hns, !String.eqb_refl in Ec. simpl negb in Ec. rewrite orb_false_l in Ec.
  simpl cluster in Ec. rewrite (existsb_none _ _ Hfree) in Ec.
  destruct (new_deployment_holds (duplicated d ts) h1) as (l & h2 & Enew & Hsub2 & _ & _).
  simpl objects in Ec. rewrite Enew in Ec.
  set (w2 := {| objects := h2; cluster := _; calls := _ |}) in Ec.
  assert (Hread2 : read_deployment (objects w2) nb = Some (duplicated d ts))
    by (by eapply read_deployment_weaken).
  assert (Ho2 : o = (watch_namespaced_deployment E patience
                       (name (metadata (duplicated d ts))) ns ;;; ret tt)%prog w2).
  { rewrite Ho1. unfold bind at 1. rewrite Ec. unfold bind at 1.
    erewrite on_objects_Returns by (apply metadata_name_eq; exact Hread2).
    reflexivity. }
  rewrite Ho2. unfold bind. rewrite watch_namespaced_deployment_eq. cbv zeta.
  rewrite Hfault.
  destruct (Hready (calls w2 ++ [watch_stream ns])) as (k & ev & Hk & Hbefore & Hev & Hrdy).
  rewrite (watch_loop_first_ready patience _ _ 0 k ev); [by eexists| |done|done|done].
  intros j Hj. apply Hbefore. lia.
Qed.

Lemma duplicate_loop_happy E patience ts ns deps ds w :
  Forall2 (holds (objects w)) deps ds ->
  Forall (fun d => namespace (metadata d) = ns) ds ->
  (forall log, fault E log = false) ->
  NoDup (map (fun d => name (metadata (duplicated d ts))) ds) ->
  (forall d d', d ∈ ds -> d' ∈ deployments (cluster w) ->
     Api.named ns (name (metadata (duplicated d ts))) (metadata d') = false) ->
  (forall log d, d ∈ ds ->
     reports_ready patience (feed E log) (name (metadata (duplicated d ts)))) ->
  exists w', for_each deps (duplicate_and_wait E patience ts ns) w = Returns tt w'.
Proof.
  intros Hds. revert w Hds. revert ds.
  induction deps as [|l deps IH]; intros ds w Hds Hns Hfault Hnd Hfree Hready.
  - by exists w.
  - inversion Hds as [|? d ? ds' Hl Hrest]; subst.
    inversion Hns as [|? ? Hnsd Hns']; subst.
    simpl in Hnd. apply NoDup_cons in Hnd as [Hfresh Hnd].
    assert (Hfree1 : forall d', d' ∈ deployments (cluster w) ->
      Api.named (namespace (metadata d)) (name (metadata (duplicated d ts))) (metadata d')
      = false).
    { intros d' Hd'. apply Hfree; [apply elem_of_cons; by left|done]. }
    assert (Hready1 : forall log,
      reports_ready patience (feed E log) (name (metadata (duplicated d ts)))).
    { intros log. apply Hready. apply elem_of_cons. by left. }
    destruct (duplicate_and_wait_happy E patience ts (namespace (metadata d)) l d w
                Hl eq_refl Hfault Hfree1 Hready1) as (w1 & E1).
    pose proof (duplicate_and_wait_run E patience ts (namespace (metadata d)) l d w Hl)
      as Hstep. cbv zeta in Hstep. rewrite E1 in Hstep. simpl in Hstep.
    destruct Hstep as (Hsub & _ & r & _ & _ & Hdeps1).
    rewrite for_each_cons, E1.
    apply (IH ds' w1); [by eapply Forall2_holds_weaken|done|done|done| |].
    + intros d2 d' Hd2 Hd'. rewrite Hdeps1 in Hd'.
      apply elem_of_app in Hd' as [Hd'|Hd'].
      * apply Hfree; [apply elem_of_cons; by right|done].
      * apply list_elem_of_singleton in Hd'. subst d'.
        unfold Api.named. apply andb_false_iff. right. apply String.eqb_neq.
        intros Heq. apply Hfresh. apply list_elem_of_fmap. exists d2. by split.
    + intros log d2 Hd2. apply Hready. apply elem_of_cons. by right.
Qed.

Lemma patch_loop_happy E ts ns svcs w :
  (forall log, fault E log = false) ->
  (forall svc, svc ∈ svcs ->
     (ns, name (svc_metadata svc)) ∈ map service_key (services (cluster w))) ->
  exists w',
    for_each svcs (fun svc =>
      (patch_namespaced_service E (name (svc_metadata svc)) ts ns ;;; ret tt)%prog) w
    = Returns tt w'.
Proof.
  intros Hfault. revert w. induction svcs as [|svc svcs IH]; intros w Hin.
  - by exists w.
  - rewrite for_each_cons. cbv beta. rewrite bind_ret_tt.
    pose proof (patch_namespaced_service_run E (name (svc_metadata svc)) ts ns w) as Hrun.
    cbv zeta in Hrun. destruct Hrun as (_ & _ & Hkeys & _).
    assert (Hret : exists body w1,
      patch_namespaced_service E (name (svc_metadata svc)) ts ns w = Returns body w1).
    { rewrite patch_namespaced_service_eq. cbv zeta. rewrite Hfault.
      assert (Hex : existsb (fun s => Api.named ns (name (svc_metadata svc)) (svc_metadata s))
                            (services (cluster w)) = true).
      { apply existsb_named_key, Hin. apply elem_of_cons. by left. }
      destruct (filter _ (services (cluster w))) as [|first rest] eqn:Hfound.
      { apply existsb_exists in Hex as (s & Hs & Hnamed). apply list_elem_of_In in Hs.
        assert (Hmem : s ∈ filter (fun s => Api.service_matches E ns
                                     (field_selector_name (name (svc_metadata svc))) s)
                                (services (cluster w))).
        { apply list_elem_of_filter. split; [|done].
          rewrite service_matches_named, Hnamed. done. }
        rewrite Hfound in Hmem. by apply elem_of_nil in Hmem. }
      rewrite Hfault, Hex. by eexists _, _. }
    destruct Hret as (body & w1 & E1). rewrite E1 in Hkeys |- *. simpl in Hkeys.
    apply IH. intros svc' Hsvc'. rewrite Hkeys. apply Hin. apply elem_of_cons. by right.
Qed.

Lemma cleanup_loop_happy E ns deps ds w :
  Forall2 (fun l d => read_deployment (objects w) l = Some d) deps ds ->
  (forall log, fault E log = false) ->
  NoDup (names_of ds) ->
  (forall d, d ∈ ds ->
     exists d', d' ∈ deployments (cluster w) /\
                Api.named ns (name (metadata d)) (metadata d') = true) ->
  exists w', for_each deps (delete_old E ns) w = Returns tt w'.
Proof.
  intros Hds Hfault. revert w Hds. revert ds.
  induction deps as [|l deps IH]; intros ds w Hds Hnd Hthere.
  - by exists w.
  - inversion Hds as [|? d ? ds' Hl Hrest]; subst.
    simpl in Hnd. apply NoDup_cons in Hnd as [Hfresh Hnd].
    rewrite for_each_cons, (delete_old_eq E _ _ _ _ Hl). cbv zeta. rewrite Hfault.
    destruct (Hthere d) as (d0 & Hd0 & Hnamed0); [apply elem_of_cons; by left|].
    rewrite (existsb_some _ _ d0 Hd0 Hnamed0).
    apply (IH ds'); [done|done|]. simpl.
    intros d2 Hd2. destruct (Hthere d2) as (d2' & Hd2' & Hnamed2);
      [apply elem_of_cons; by right|].
    exists d2'. split; [|done]. apply list_elem_of_filter. split; [|done].
    destruct (Api.named ns (name (metadata d)) (metadata d2')) eqn:Hn; [|done].
    apply named_key in Hn, Hnamed2. rewrite Hn in Hnamed2. inversion Hnamed2 as [Heq].
    destruct Hfresh. rewrite Heq. apply list_elem_of_fmap. by exists d2.
Qed.

(** X24: a rollout goes through.  When no call fails, deployments and
    services match the selector, the base names of the matching deployments
    are all different, no deployment of the namespace has the name of a copy
    to be made, and every watch stream reports each copy ready within the
    patience given, [trigger_smart_rollout] returns; the cluster then has the
    copies after the deployments there were, without the discovered ones if
    [cleanup] is true. *)
Theorem trigger_smart_rollout_goes_through E M patience sel ns cleanup w :
  let ts := Clock.getSimpleTimestamp M None in
  let ds := filter (fun d => Api.deployment_matches E ns (label_selector sel) d)
                   (deployments (cluster w)) in
  let svcs := filter (fun s => Api.service_matches E ns (label_selector sel) s)
                     (services (cluster w)) in
  let grown := deployments (cluster w) ++ map (fun d => duplicated d ts) ds in
  (forall log, fault E log = false) ->
  ds <> [] -> svcs <> [] ->
  NoDup (map Naming.getDeploymentBaseName (names_of ds)) ->
  (forall d d', d ∈ ds -> d' ∈ deployments (cluster w) ->
     Api.named ns (name (metadata (duplicated d ts))) (metadata d') = false) ->
  (forall log d, d ∈ ds ->
     reports_ready patience (feed E log) (name (metadata (duplicated d ts)))) ->
  exists w',
    trigger_smart_rollout E M patience sel ns cleanup w = Returns tt w' /\
    deployments (cluster w') = (if cleanup then without ns ds grown else grown).
Proof.
  intros ts ds svcs grown Hfault Hne Hsne Hnd Hfree Hready.
  assert (Hreturns : exists w',
    trigger_smart_rollout E M patience sel ns cleanup w = Returns tt w').
  { set (o := trigger_smart_rollout E M patience sel ns cleanup w).
    destruct (get_namespaced_deployments_run E sel ns w)
      as (w0 & Hcalls0 & Hcl0 & Hsub0 & Hcase0).
    fold ds in Hcase0.
    destruct Hcase0 as [[Hf _]|[(_ & Hnil & _)|(_ & _ & deps & Hdeps & E0)]];
      [by rewrite Hfault in Hf|done|].
    assert (Hreads0 : Forall2 (fun l d => read_deployment (objects w0) l = Some d) deps ds).
    { eapply Forall2_impl; [exact Hdeps|]. eauto using holds_read. }
    pose proof (check_deployments_unique _ _ _ Hreads0 Hnd) as Echeck.
    assert (Ho1 : o = (for_each deps (duplicate_and_wait E patience ts ns) ;;;
                       services <- get_namespaced_services E sel ns ;;
                       for_each services (fun svc =>
                         patch_namespaced_service E (name (svc_metadata svc)) ts ns ;;;
                         ret tt) ;;;
                       if cleanup then for_each deps (delete_old E ns) else ret tt)%prog w0).
    { unfold o, trigger_smart_rollout. cbv zeta. unfold bind at 1. rewrite E0.
      unfold bind at 1. rewrite (on_objects_Returns _ _ _ _ Echeck). by rewrite world_eta. }
    clearbody o.
    assert (Hns : Forall (fun d => namespace (metadata d) = ns) ds).
    { apply Forall_forall. intros d [Hm _]%list_elem_of_filter.
      unfold Api.deployment_matches, Api.matches in Hm.
      apply Is_true_true, andb_true_iff in Hm as [Hm _]. by apply String.eqb_eq. }
    assert (Hnames : NoDup (names_of ds)) by (by eapply NoDup_fmap_1).
    assert (Hcopies : NoDup (map (fun d => name (metadata (duplicated d ts))) ds)).
    { assert (Hinj : Inj (=) (=) (fun b : string => b +:+ ("-" +:+ ts))).
      { intros a b. apply string_app_inv_tail. }
      apply (NoDup_fmap_2 _) in Hnd. unfold names_of in Hnd.
      rewrite <- !list_fmap_compose in Hnd. exact Hnd. }
    destruct (duplicate_loop_happy E patience ts ns deps ds w0 Hdeps Hns Hfault Hcopies)
      as (w1 & Eloop); [by rewrite Hcl0|done|].
    pose proof (duplicate_loop_run E patience ts ns deps ds w0 Hdeps) as Hloop.
    cbv zeta in Hloop. rewrite Eloop in Hloop. simpl in Hloop.
    destruct Hloop as (Hsub1 & Hsvc1 & rs & trD & _ & _ & _ & _ & Hdeps1).
    assert (Ho2 : o = (services <- get_namespaced_services E sel ns ;;
                       for_each services (fun svc =>
                         patch_namespaced_service E (name (svc_metadata svc)) ts ns ;;;
                         ret tt) ;;;
                       if cleanup then for_each deps (delete_old E ns) else ret tt)%prog w1).
    { rewrite Ho1. unfold bind at 1. by rewrite Eloop. }
    clear Ho1.
    assert (Hsvcs : filter (fun s => Api.service_matches E ns (label_selector sel) s)
                           (services (cluster w1)) = svcs).
    { by rewrite Hsvc1, Hcl0. }
    destruct (get_namespaced_services_run E sel ns w1)
      as [[Hf3 _]|[(_ & Hnil3 & _)|(_ & _ & E3)]]; cbv zeta in *;
      [by rewrite Hfault in Hf3|by rewrite Hsvcs in Hnil3|]. rewrite Hsvcs in E3.
    set (w2 := logged (list_namespaced_service ns (label_selector sel)) w1) in *.
    assert (Ho3 : o = (for_each svcs (fun svc =>
                         patch_namespaced_service E (name (svc_metadata svc)) ts ns ;;;
                         ret tt) ;;;
                       if cleanup then for_each deps (delete_old E ns) else ret tt)%prog w2).
    { rewrite Ho2. unfold bind at 1. by rewrite E3. }
    clear Ho2.
    assert (Hin : forall svc, svc ∈ svcs ->
              (ns, name (svc_metadata svc)) ∈ map service_key (services (cluster w2))).
    { intros svc Hsvc. simpl. rewrite <- Hsvcs in Hsvc. by eapply matching_service_key. }
    destruct (patch_loop_happy E ts ns svcs w2 Hfault Hin) as (w3 & Epatch).
    pose proof (patch_loop_run E ts ns svcs w2 Hin) as Hpatch. cbv zeta in Hpatch.
    rewrite Epatch in Hpatch. simpl in Hpatch. destruct Hpatch as (Hobj3 & Hdep3 & _).
    assert (Ho4 : o = (if cleanup then for_each deps (delete_old E ns) else ret tt) w3).
    { rewrite Ho3. unfold bind at 1. by rewrite Epatch. }
    rewrite Ho4. destruct cleanup; [|by exists w3].
    apply (cleanup_loop_happy E ns deps ds w3); [|done|done|].
    - rewrite Hobj3. simpl. eapply Forall2_impl; [exact Hreads0|].
      intros l d Hl. eapply read_deployment_weaken; [exact Hl|exact Hsub1].
    - intros d Hd. exists d. split.
      + rewrite Hdep3. simpl. rewrite Hdeps1, Hcl0. apply elem_of_app. left.
        by apply list_elem_of_filter in Hd as [_ Hd].
      + rewrite Forall_forall in Hns. unfold Api.named.
        by rewrite (Hns d Hd), !String.eqb_refl. }
  destruct Hreturns as (w' & Hrun). exists w'. split; [done|].
  destruct (trigger_smart_rollout_run E patience M sel ns cleanup w)
    as (_ & rs & bodies & tr & _ & _ & _ & _ & _ & Hout).
  rewrite Hrun in Hout. simpl in Hout. by destruct Hout as (_ & _ & _ & _ & Hcluster).
Qed.

Lemma trigger_smart_rollout_goes_through_witness :
  let E := Sample.env (Sample.feed_ready "app-20191011134834") in
  let w := Sample.world [Sample.deployment "app-1" (Some 2%Z)] [Sample.web] in
  exists w',
    trigger_smart_rollout E Sample.controller 5 "app=myapp" "default" true w
    = Returns tt w' /\
    names_of (deployments (cluster w')) = ["app-20191011134834"%string].
Proof.
  intros E w.
  destruct (trigger_smart_rollout_goes_through E Sample.controller 5 "app=myapp" "default"
              true w) as (w' & Hrun & Hdeps).
  - reflexivity.
  - discriminate.
  - discriminate.
  - vm_compute. apply NoDup_singleton.
  - intros d d' Hd Hd'. vm_compute in Hd, Hd'.
    apply list_elem_of_singleton in Hd, Hd'. subst d d'. reflexivity.
  - intros log d Hd. vm_compute in Hd. apply list_elem_of_singleton in Hd. subst d.
    exists 2, {| ev_type := "MODIFIED";
                 ev_object := Sample.deployment "app-20191011134834" (Some 2%Z) |}.
    split; [lia|]. split; [|split; reflexivity].
    intros j Hj. destruct j as [|[|j]]; [| |lia]; eexists; split; reflexivity.
  - exists w'. split; [exact Hrun|]. rewrite Hdeps. vm_compute. reflexivity.
Defined.

(** X25: a duplication goes through.  When no call fails, a deployment of
    the namespace has the name, and no deployment of the namespace has the
    name of the copy, [duplicate_deployment] returns an object that stands
    for the duplicate of the first deployment of that name, and the cluster
    has that duplicate after the deployments there were. *)
Theorem duplicate_deployment_goes_through E M n ns w d rest :
  let ts := Clock.getSimpleTimestamp M None in
  (forall log, fault E log = false) ->
  filter (fun d => Api.named ns n (metadata d)) (deployments (cluster w)) = d :: rest ->
  (forall d', d' ∈ deployments (cluster w) ->
     Api.named ns (name (metadata (duplicated d ts))) (metadata d') = false) ->
  exists l w',
    duplicate_deployment E M n ns w = Returns l w' /\
    read_deployment (objects w') l = Some (duplicated d ts) /\
    deployments (cluster w') = deployments (cluster w) ++ [duplicated d ts].
Proof.
  intros ts Hfault Hfound Hfree.
  pose proof (duplicate_deployment_cases E M n ns w) as Hcases. cbv zeta in Hcases.
  fold ts in Hcases.
  destruct Hcases as [[Hf _]|[(_ & Hnil & _)|(_ & d0 & rest0 & Hfound0 & Hrest)]].
  - by rewrite Hfault in Hf.
  - by rewrite Hfound in Hnil.
  - rewrite Hfound in Hfound0. inversion Hfound0; subst d0 rest0.
    rewrite Hfault, (existsb_none _ _ Hfree) in Hrest. simpl in Hrest.
    destruct Hrest as (l & w' & Hrun & Hread & _ & Hcl).
    exists l, w'. split; [done|]. split; [done|]. by rewrite Hcl.
Qed.

Lemma duplicate_deployment_goes_through_witness :
  let E := Sample.env (Sample.feed_closed "app-1") in
  let w := Sample.world [Sample.deployment "app-1" (Some 2%Z)] [Sample.web] in
  exists l w',
    duplicate_deployment E Sample.controller "app-1" "default" w = Returns l w' /\
    names_of (deployments (cluster w')) = ["app-1"; "app-20191011134834"]%string.
Proof.
  intros E w.
  destruct (duplicate_deployment_goes_through E Sample.controller "app-1" "default" w
              (Sample.deployment "app-1" (Some 2%Z)) [])
    as (l & w' & Hrun & _ & Hdeps).
  - reflexivity.
  - reflexivity.
  - intros d' Hd'. vm_compute in Hd'. apply list_elem_of_singleton in Hd'. subst d'.
    reflexivity.
  - exists l, w'. split; [exact Hrun|]. rewrite Hdeps. vm_compute. reflexivity.
Defined.

(** ** Validation and order *)

(** X26: whether [check_deployments] passes does not depend on the order in
    which the deployments come: on two lists that hold the same deployments
    in two orders, it returns on both or raises [K8sBasenameNotUniqueError]
    on both (the deployments the message names may differ). *)
Theorem check_deployments_any_order h deps ds deps' ds' :
  Forall2 (fun l d => read_deployment h l = Some d) deps ds ->
  Forall2 (fun l d => read_deployment h l = Some d) deps' ds' ->
  ds ≡ₚ ds' ->
  (check_deployments deps h = Returns tt h <-> check_deployments deps' h = Returns tt h) /\
  ((exists msg, check_deployments deps h = Raises (K8sBasenameNotUniqueError msg) h) <->
   (exists msg, check_deployments deps' h = Raises (K8sBasenameNotUniqueError msg) h)).
Proof.
  intros Hds Hds' Hperm.
  assert (Hiff : forall deps ds,
    Forall2 (fun l d => read_deployment h l = Some d) deps ds ->
    (check_deployments deps h = Returns tt h
     <-> NoDup (map Naming.getDeploymentBaseName (names_of ds))) /\
    ((exists msg, check_deployments deps h = Raises (K8sBasenameNotUniqueError msg) h)
     <-> ~ NoDup (map Naming.getDeploymentBaseName (names_of ds)))).
  { clear. intros deps ds Hds.
    destruct (decide (NoDup (map Naming.getDeploymentBaseName (names_of ds)))) as [Hnd|Hdup].
    - pose proof (check_deployments_unique _ _ _ Hds Hnd) as Hok. split; [by split|].
      split; [|done]. intros [msg Hbad]. rewrite Hok in Hbad. done.
    - destruct (first_duplicate _ _ Hdup) as (l1 & a & l2 & b & l3 & Hnames & Hnd & Hab).
      pose proof (check_deployments_conflict _ _ _ _ _ _ _ _ Hds Hnames Hnd Hab) as Hbad.
      split; [|split; [done|by eexists]].
      split; [|done]. intros Hok. rewrite Hok in Hbad. done. }
  assert (Hsame : NoDup (map Naming.getDeploymentBaseName (names_of ds))
                  <-> NoDup (map Naming.getDeploymentBaseName (names_of ds'))).
  { unfold names_of. by rewrite Hperm. }
  destruct (Hiff deps ds Hds) as [Hok Hbad], (Hiff deps' ds' Hds') as [Hok' Hbad'].
  split.
  - by rewrite Hok, Hok', Hsame.
  - by rewrite Hbad, Hbad', Hsame.
Qed.

Lemma check_deployments_any_order_witness :
  let h := final (new_deployments [Sample.deployment "app-1" (Some 2%Z);
                                   Sample.deployment "web-7" (Some 2%Z)] ∅) in
  exists l1 l2,
    check_deployments [l1; l2] h = Returns tt h /\
    check_deployments [l2; l1] h = Returns tt h.
Proof.
  intros h.
  destruct (new_deployments_holds [Sample.deployment "app-1" (Some 2%Z);
                                   Sample.deployment "web-7" (Some 2%Z)] ∅)
    as (ls & h' & Hnew & _ & Hls).
  assert (Hh : h' = h) by (unfold h; by rewrite Hnew). subst h'.
  inversion Hls as [|l1 d1 ls1 ds1 H1 Hls1]; subst.
  inversion Hls1 as [|l2 d2 ls2 ds2 H2 Hls2]; subst.
  inversion Hls2; subst.
  apply holds_read in H1, H2.
  assert (Hok : check_deployments [l1; l2] h = Returns tt h).
  { apply (check_deployments_unique h [l1; l2]
             [Sample.deployment "app-1" (Some 2%Z); Sample.deployment "web-7" (Some 2%Z)]).
    - by repeat constructor.
    - vm_compute. apply NoDup_cons. split; [|apply NoDup_singleton].
      intros Hin. apply list_elem_of_singleton in Hin. discriminate Hin. }
  exists l1, l2. split; [exact Hok|].
  apply (check_deployments_any_order h [l1; l2]
           [Sample.deployment "app-1" (Some 2%Z); Sample.deployment "web-7" (Some 2%Z)]
           [l2; l1]
           [Sample.deployment "web-7" (Some 2%Z); Sample.deployment "app-1" (Some 2%Z)]).
  - by repeat constructor.
  - by repeat constructor.
  - apply Permutation_swap.
  - exact Hok.
Defined.

(** ** Where the services point after a rollout *)

Lemma patch_namespaced_service_Returns E n ts ns w body w1 :
  patch_namespaced_service E n ts ns w = Returns body w1 ->
  services (cluster w1)
  = map (fun s => if Api.named ns n (svc_metadata s) then body else s) (services (cluster w)) /\
  svc_selector body !! "patch" = Some ts /\ service_key body = (ns, n).
Proof.
  rewrite patch_namespaced_service_eq. cbv zeta.
  destruct (fault E _); [done|].
  pose proof (filter_named_all svc_metadata ns n (services (cluster w))) as Hall.
  change (filter (fun s => Api.service_matches E ns (field_selector_name n) s)
                 (services (cluster w)))
    with (filter (fun s => Api.named ns n (svc_metadata s)) (services (cluster w))).
  destruct (filter _ (services (cluster w))) as [|first rest]; [done|].
  destruct (fault E _); [done|]. destruct (existsb _ _); [|done].
  inversion 1; subst. simpl. split; [done|]. split; [by rewrite lookup_insert_eq|].
  inversion Hall as [|? ? [Hn Hns] _]; subst. done.
Qed.

(** After the second loop has returned, a service with the identity of a
    service of the list selects on the timestamp, and every other service is
    one the cluster had. *)
Lemma patch_loop_routes E ts ns svcs w w' :
  for_each svcs (fun svc =>
    (patch_namespaced_service E (name (svc_metadata svc)) ts ns ;;; ret tt)%prog) w
  = Returns tt w' ->
  forall s', s' ∈ services (cluster w') ->
    (service_key s' ∈ map (fun svc => (ns, name (svc_metadata svc))) svcs ->
     svc_selector s' !! "patch" = Some ts) /\
    (service_key s' ∉ map (fun svc => (ns, name (svc_metadata svc))) svcs ->
     s' ∈ services (cluster w)).
Proof.
  revert w. induction svcs as [|svc svcs IH]; intros w Hrun s' Hs'.
  - inversion Hrun; subst. split; [by intros ?%elem_of_nil|done].
  - rewrite for_each_cons in Hrun. cbv beta in Hrun. rewrite bind_ret_tt in Hrun.
    destruct (patch_namespaced_service E (name (svc_metadata svc)) ts ns w)
      as [body w1|e w1|w1] eqn:E1; [|done|done].
    apply patch_namespaced_service_Returns in E1 as (Hsvcs1 & Hpatch & Hkey).
    destruct (IH w1 Hrun s' Hs') as [Hin Hout].
    assert (Hfirst : service_key s' ∉ map (fun svc => (ns, name (svc_metadata svc))) svcs ->
      (service_key s' = (ns, name (svc_metadata svc)) -> svc_selector s' !! "patch" = Some ts) /\
      (service_key s' <> (ns, name (svc_metadata svc)) -> s' ∈ services (cluster w))).
    { intros Hnot. specialize (Hout Hnot). rewrite Hsvcs1 in Hout.
      apply list_elem_of_fmap in Hout as (s & -> & Hs).
      destruct (Api.named ns (name (svc_metadata svc)) (svc_metadata s)) eqn:Hn.
      - split; [done|]. intros Hne. by destruct Hne.
      - split; [|done]. intros Heq. unfold service_key in Heq.
        apply named_key in Heq. congruence. }
    simpl. split.
    + intros [Heq|Hmem]%elem_of_cons.
      * destruct (decide (service_key s'
                          ∈ map (fun svc => (ns, name (svc_metadata svc))) svcs))
          as [Hmem|Hnot]; [by apply Hin|]. by apply (Hfirst Hnot).
      * by apply Hin.
    + intros [Hne Hnot]%not_elem_of_cons. by apply (Hfirst Hnot).
Qed.

(** The second loop leaves the objects of the program alone. *)
Lemma patch_loop_objects E ts ns svcs w w' :
  for_each svcs (fun svc =>
    (patch_namespaced_service E (name (svc_metadata svc)) ts ns ;;; ret tt)%prog) w
  = Returns tt w' ->
  objects w' = objects w.
Proof.
  revert w. induction svcs as [|svc svcs IH]; intros w Hrun.
  - by inversion Hrun.
  - rewrite for_each_cons in Hrun. cbv beta in Hrun. rewrite bind_ret_tt in Hrun.
    pose proof (patch_namespaced_service_run E (name (svc_metadata svc)) ts ns w)
      as Hstep. cbv zeta in Hstep. destruct Hstep as (Hobj & _).
    destruct (patch_namespaced_service E (name (svc_metadata svc)) ts ns w)
      as [body wb| |]; [|done|done].
    simpl in Hobj. rewrite (IH _ Hrun). exact Hobj.
Qed.

(** The stages of a rollout that returns. *)
Lemma trigger_smart_rollout_stages E M patience sel ns cleanup w w' :
  trigger_smart_rollout E M patience sel ns cleanup w = Returns tt w' ->
  let ts := Clock.getSimpleTimestamp M None in
  exists deps w0 w0' w1 svcs w2 w3,
    get_namespaced_deployments E sel ns w = Returns deps w0 /\
    on_objects (check_deployments deps) w0 = Returns tt w0' /\
    for_each deps (duplicate_and_wait E patience ts ns) w0' = Returns tt w1 /\
    get_namespaced_services E sel ns w1 = Returns svcs w2 /\
    for_each svcs (fun svc =>
      (patch_namespaced_service E (name (svc_metadata svc)) ts ns ;;; ret tt)%prog) w2
    = Returns tt w3 /\
    (if cleanup then for_each deps (delete_old E ns) else ret tt) w3 = Returns tt w'.
Proof.
  intros Hrun ts. unfold trigger_smart_rollout in Hrun. cbv zeta in Hrun. fold ts in Hrun.
  unfold bind in Hrun.
  destruct (get_namespaced_deployments E sel ns w) as [deps w0| |] eqn:E0; [|done|done].
  destruct (on_objects (check_deployments deps) w0) as [[] w0'| |] eqn:E1; [|done|done].
  destruct (for_each deps (duplicate_and_wait E patience ts ns) w0') as [[] w1| |] eqn:E2;
    [|done|done].
  destruct (get_namespaced_services E sel ns w1) as [svcs w2| |] eqn:E3; [|done|done].
  destruct (for_each svcs _ w2) as [[] w3| |] eqn:Epatch; [|done|done].
  exists deps, w0, w0', w1, svcs, w2, w3.
  split; [done|]. split; [done|]. split; [done|]. split; [done|].
  split; [exact Epatch|exact Hrun].
Qed.

(** X27: after a rollout has returned, the services point to the new
    version: every service of the cluster that has the namespace and name of
    a discovered service has [patch] with the timestamp of the rollout in its
    selector; every other service of the cluster is one it had before, as it
    was. *)
Theorem trigger_smart_rollout_routes_services E M patience sel ns cleanup w w' s' :
  trigger_smart_rollout E M patience sel ns cleanup w = Returns tt w' ->
  s' ∈ services (cluster w') ->
  let ts := Clock.getSimpleTimestamp M None in
  let svcs := filter (fun s => Api.service_matches E ns (label_selector sel) s)
                     (services (cluster w)) in
  if bool_decide (service_key s' ∈ map service_key svcs)
  then svc_selector s' !! "patch" = Some ts
  else s' ∈ services (cluster w).
Proof.
  intros Hrun Hs' ts svcs.
  destruct (trigger_smart_rollout_stages _ _ _ _ _ _ _ _ Hrun)
    as (deps & w0 & w0' & w1 & svcs' & w2 & w3 & E0 & Echeck & Eloop & E3 & Epatch & Eclean).
  fold ts in Eloop, Epatch.
  (* the services are as they were when the second loop begins *)
  destruct (get_namespaced_deployments_run E sel ns w)
    as (w0x & _ & Hcl0 & _ & Hcase0).
  assert (Hw0 : cluster w0 = cluster w).
  { destruct Hcase0 as [[_ E0']|[(_ & _ & E0')|(_ & _ & deps' & Hdeps' & E0')]];
      rewrite E0 in E0'; [done|done|]. by inversion E0'; subst. }
  assert (Hdeps0 : exists dsx, Forall2 (holds (objects w0)) deps dsx).
  { destruct Hcase0 as [[_ E0']|[(_ & _ & E0')|(_ & _ & deps' & Hdeps' & E0')]];
      rewrite E0 in E0'; [done|done|]. inversion E0'; subst. eauto. }
  destruct Hdeps0 as [dsx Hdeps0].
  assert (Hw0' : cluster w0' = cluster w0 /\ objects w0' = objects w0).
  { assert (Hreads : Forall2 (fun l d => read_deployment (objects w0) l = Some d) deps dsx).
    { eapply Forall2_impl; [exact Hdeps0|]. eauto using holds_read. }
    destruct (decide (NoDup (map Naming.getDeploymentBaseName (names_of dsx)))) as [Hnd|Hdup].
    - pose proof (check_deployments_unique _ _ _ Hreads Hnd) as Hok.
      rewrite (on_objects_Returns _ _ _ _ Hok) in Echeck. by inversion Echeck.
    - destruct (first_duplicate _ _ Hdup) as (l1 & a & l2 & b & l3 & Hnames & Hnd & Hab).
      pose proof (check_deployments_conflict _ _ _ _ _ _ _ _ Hreads Hnames Hnd Hab) as Hbad.
      rewrite (on_objects_Raises _ _ _ _ Hbad) in Echeck. done. }
  destruct Hw0' as [Hcl0' Hobj0'].
  assert (Hdeps0' : Forall2 (holds (objects w0')) deps dsx) by (by rewrite Hobj0').
  pose proof (duplicate_loop_run E patience ts ns deps dsx w0' Hdeps0') as Hloop.
  cbv zeta in Hloop. rewrite Eloop in Hloop. simpl in Hloop.
  destruct Hloop as (Hsub1 & Hsvc1 & _).
  assert (Hsvcs1 : services (cluster w1) = services (cluster w))
    by (by rewrite Hsvc1, Hcl0', Hw0).
  destruct (get_namespaced_services_run E sel ns w1)
    as [[_ E3']|[(_ & _ & E3')|(_ & _ & E3')]]; cbv zeta in E3';
    rewrite E3 in E3'; [done|done|]. inversion E3'; subst svcs' w2. clear E3'.
  rewrite Hsvcs1 in Epatch. fold svcs in Epatch.
  assert (Hsvcs3 : services (cluster w') = services (cluster w3)).
  { destruct cleanup; [|by inversion Eclean].
    assert (Hreads3 : exists dsy,
      Forall2 (fun l d => read_deployment (objects w3) l = Some d) deps dsy).
    { exists dsx.
      assert (Hobj3 : objects w3 = objects w1)
        by (by rewrite (patch_loop_objects _ _ _ _ _ _ Epatch)).
      rewrite Hobj3. eapply Forall2_impl; [exact Hdeps0'|].
      intros l d Hl. eapply read_deployment_weaken; [by apply holds_read|exact Hsub1]. }
    destruct Hreads3 as (dsy & Hreads3).
    pose proof (cleanup_loop_run E ns deps dsy w3 Hreads3) as Hclean. cbv zeta in Hclean.
    rewrite Eclean in Hclean. simpl in Hclean. by destruct Hclean as (_ & ? & _). }
  rewrite Hsvcs3 in Hs'.
  destruct (patch_loop_routes E ts ns svcs _ _ Epatch s' Hs') as [Hin Hout].
  simpl in Hout. rewrite Hsvcs1 in Hout.
  assert (Hkeys : map (fun svc => (ns, name (svc_metadata svc))) svcs = map service_key svcs).
  { apply map_ext_in. intros s [Hm _]%list_elem_of_In%list_elem_of_filter.
    unfold Api.service_matches, Api.matches in Hm.
    apply Is_true_true, andb_true_iff in Hm as [Hm _]. apply String.eqb_eq in Hm.
    unfold service_key. by rewrite Hm. }
  rewrite Hkeys in Hin, Hout.
  destruct (bool_decide (service_key s' ∈ map service_key svcs)) eqn:Hdec.
  - apply bool_decide_eq_true in Hdec. by apply Hin.
  - apply bool_decide_eq_false in Hdec. by apply Hout.
Qed.

Lemma trigger_smart_rollout_routes_services_witness :
  let E := Sample.env (Sample.feed_ready "app-20191011134834") in
  let w := Sample.world [Sample.deployment "app-1" (Some 2%Z)] [Sample.web] in
  let w' := final (trigger_smart_rollout E Sample.controller 5 "app=myapp" "default" true w) in
  Forall (fun s' => svc_selector s' !! "patch" = Some "20191011134834"%string)
         (services (cluster w')).
Proof.
  intros E w w'.
  assert (Hrun : trigger_smart_rollout E Sample.controller 5 "app=myapp" "default" true w
                 = Returns tt w') by (vm_compute; reflexivity).
  pose (s1 := hd Sample.web (services (cluster w'))).
  assert (Hs : services (cluster w') = [s1]) by (vm_compute; reflexivity).
  rewrite Hs. apply Forall_singleton.
  assert (Hin : s1 ∈ services (cluster w')) by (rewrite Hs; apply list_elem_of_here).
  pose proof (trigger_smart_rollout_routes_services E Sample.controller 5 "app=myapp"
                "default" true w w' s1 Hrun Hin) as Hroute.
  cbv zeta in Hroute. rewrite bool_decide_eq_true_2 in Hroute; [exact Hroute|].
  vm_compute. apply list_elem_of_here.
Defined.
